(** * mc-discord-bot: the log-tailing and presence-reconciliation core

    A shallow embedding of [mc_discord_bot.py] (functions [load_embed_ids],
    [save_embed_ids], [on_ready], [initialize_players], [update_embed],
    [monitor_player_activity]) and the properties of its specification that
    can be settled on it.

    Conventions of the embedding.
    - A Python [str] is a [string]; a character is a code point below 256.
    - A Python [dict] is a [gmap], a Python [set] a [gset].
    - The module-level globals ([embed_tracker], [player_tracker],
      [channel_cache]) together with the outside world the functions act on
      (the file [embed_ids.json], the messages of the Discord channel, the
      logging output) form one explicit [State], threaded through a
      state-and-exception monad.
    - The content of a log file is the string of its bytes, and is an
      argument of the function that reads the file.  The open file of a
      monitor is a [Handle] with its offset and its read buffer.  Reading is
      modelled for plain text (ASCII without carriage return), where a byte
      is a character and the line feed is the only line ending.
    - The tasks of the event loop are the initialiser and one monitor per
      started server.  They take steps (a pass of the initialiser's loop,
      the opening of a monitor's file, a turn of a monitor's loop) in any
      order the schedule gives; an exception ends the task that raised it.
    - Every call that leaves the process (logging, Discord API, file write,
      sleep) and every mutation of a presence set is recorded, in program
      order, in the [trace] of the state. *)

From Stdlib Require Import String Ascii List Bool Arith Lia.
From stdpp Require Import gmap strings list pretty.
Import ListNotations.

Local Open Scope string_scope.

(** ** Python string operations used by the source *)

Module PyStr.

(** The line terminator ["\n"]. *)
Definition LF : ascii := ascii_of_nat 10.
Definition nl : string := String LF "".

(** [str.isspace] on one character, for code points below 256:
    TAB..CR, FS..US, SPACE, NEL and NBSP. *)
Definition isspace (c : ascii) : bool :=
  let n := nat_of_ascii c in
  (Nat.leb 9 n && Nat.leb n 13) || (Nat.leb 28 n && Nat.leb n 32)
  || Nat.eqb n 133 || Nat.eqb n 160.

Fixpoint lstrip (s : string) : string :=
  match s with
  | EmptyString => EmptyString
  | String c r => if isspace c then lstrip r else s
  end.

Fixpoint rstrip (s : string) : string :=
  match s with
  | EmptyString => EmptyString
  | String c r =>
      match rstrip r with
      | EmptyString => if isspace c then EmptyString else String c EmptyString
      | r' => String c r'
      end
  end.

(** [s.strip()] *)
Definition strip (s : string) : string := rstrip (lstrip s).

(** [s.startswith(p)] *)
Definition startswith (p s : string) : bool := String.prefix p s.

(** [k in s] *)
Fixpoint contains (k s : string) : bool :=
  startswith k s ||
  match s with
  | EmptyString => false
  | String _ r => contains k r
  end.

(** [s[n:]] *)
Fixpoint drop (n : nat) (s : string) : string :=
  match n, s with
  | O, _ => s
  | S _, EmptyString => EmptyString
  | S n', String _ r => drop n' r
  end.

(** [s[:n]] *)
Fixpoint take (n : nat) (s : string) : string :=
  match n, s with
  | O, _ => EmptyString
  | S _, EmptyString => EmptyString
  | S n', String c r => String c (take n' r)
  end.

(** [sep.join(l)] *)
Fixpoint join (sep : string) (l : list string) : string :=
  match l with
  | [] => ""
  | [x] => x
  | x :: r => x ++ sep ++ join sep r
  end.

(** No line feed occurs in [s]. *)
Fixpoint no_LF (s : string) : bool :=
  match s with
  | EmptyString => true
  | String c r => negb (Ascii.eqb c LF) && no_LF r
  end.

(** Python truthiness of a string: [if s] / [if not s]. *)
Definition truthy (s : string) : bool :=
  match s with EmptyString => false | _ => true end.

End PyStr.

(** ** The two regular expressions of the source

    [re.search(r': (.+) joined the game', line)] and
    [re.search(r': (.+) (left the game|lost connection)', line)].
    Both have the shape [": "], a greedy [(.+)], one space and one of a list
    of keyword phrases.  [.] matches every character but the line feed. *)

Module Re.
Import PyStr.

(** The greedy group [(.+)] followed by one of [tails], matched at the very
    start of [s]: the longest non-empty run of characters other than the
    line feed after which one of [tails] follows; backtracking tries the
    longer runs first. *)
Fixpoint dot_plus_then (tails : list string) (s : string) : option string :=
  match s with
  | EmptyString => None
  | String c r =>
      if Ascii.eqb c LF then None
      else match dot_plus_then tails r with
           | Some g => Some (String c g)
           | None =>
               if existsb (fun t => startswith t r) tails
               then Some (String c EmptyString)
               else None
           end
  end.

(** The whole pattern anchored at the start of [s]; the result is group 1. *)
Definition match_here (tails : list string) (s : string) : option string :=
  if startswith ": " s then dot_plus_then tails (drop 2 s) else None.

(** [re.search]: the leftmost position at which the pattern matches. *)
Fixpoint search (tails : list string) (s : string) : option string :=
  match match_here tails s with
  | Some g => Some g
  | None =>
      match s with
      | EmptyString => None
      | String _ r => search tails r
      end
  end.

Definition joined_tails : list string := [" joined the game"].
Definition left_tails : list string := [" left the game"; " lost connection"].

(** [match.group(1)] of the two searches, [None] when there is no match. *)
Definition search_joined (line : string) : option string := search joined_tails line.
Definition search_left (line : string) : option string := search left_tails line.

End Re.

(** ** POSIX path operations ([os.path.join], [os.path.dirname]) *)

Module PyPath.
Import PyStr.

Definition slash : ascii := "/"%char.

(** [s.endswith("/")] *)
Fixpoint ends_with_slash (s : string) : bool :=
  match s with
  | EmptyString => false
  | String c EmptyString => Ascii.eqb c slash
  | String _ r => ends_with_slash r
  end.

(** [posixpath.join(a, b)] *)
Definition join2 (a b : string) : string :=
  if startswith "/" b then b
  else if negb (truthy a) || ends_with_slash a then a ++ b
  else a ++ "/" ++ b.

(** [os.path.join(a, *rest)] *)
Definition join (a : string) (rest : list string) : string := fold_left join2 rest a.

Fixpoint has_slash (s : string) : bool :=
  match s with
  | EmptyString => false
  | String c r => Ascii.eqb c slash || has_slash r
  end.

(** [p[:p.rfind("/") + 1]] *)
Fixpoint head_of (p : string) : string :=
  match p with
  | EmptyString => EmptyString
  | String c r =>
      if has_slash r then String c (head_of r)
      else if Ascii.eqb c slash then String c EmptyString
      else EmptyString
  end.

Fixpoint all_slashes (s : string) : bool :=
  match s with
  | EmptyString => true
  | String c r => Ascii.eqb c slash && all_slashes r
  end.

(** [s.rstrip("/")] *)
Fixpoint rstrip_slashes (s : string) : string :=
  match s with
  | EmptyString => EmptyString
  | String c r =>
      match rstrip_slashes r with
      | EmptyString => if Ascii.eqb c slash then EmptyString else String c EmptyString
      | r' => String c r'
      end
  end.

(** [posixpath.dirname(p)] *)
Definition dirname (p : string) : string :=
  let head := head_of p in
  if truthy head && negb (all_slashes head) then rstrip_slashes head else head.

End PyPath.

(** ** Data model *)

(** Message identifiers of Discord (snowflakes). *)
Abbreviation message_id := Z (only parsing).

Inductive Color := green | red.

(** [discord.Embed]: title, colour, description and the added fields
    (name, value). *)
Record Embed := mkEmbed {
  title : string;
  color : Color;
  description : string;
  fields : list (string * string)
}.

(** One value of the dict [player_tracker]. *)
Record ServerEntry := mkEntry {
  players : gset string;
  log_file : string;
  position : nat
}.

Inductive Level := DEBUG | INFO | WARNING.

(** The messages handed to [logging], one constructor per f-string. *)
Inductive Message :=
| MsgBotConnected
| MsgChannelCached
| MsgChannelNotFound
| MsgEmbedIdsLoaded
| MsgEmbedIdsSaved
| MsgChannelNotCached (server : string)
| MsgUpdatedEmbed (server : string)
| MsgEmbedNotFound (server : string)
| MsgNoLogFile (server : string)
| MsgInitialized (server : string) (position : nat)
| MsgStartingMonitor (server : string)
| MsgNewLogEntry (server : string) (text : string)
| MsgJoined (player server : string)
| MsgLeft (player server : string).

(** What a run does that can be observed from outside the function. *)
Inductive Event :=
| EvLog (lvl : Level) (m : Message)
| EvCallUpdateEmbed (server : string)          (* entry of [update_embed] *)
| EvFetchMessage (id : message_id)             (* [channel_cache.fetch_message] *)
| EvEdit (id : message_id) (e : Embed)          (* [message.edit] *)
| EvSend (e : Embed) (id : message_id)          (* [channel_cache.send], with the id it returned *)
| EvWriteEmbedIds (content : gmap string message_id)  (* [json.dump] into embed_ids.json *)
| EvSetAdd (server player : string)            (* [players.add] *)
| EvSetDiscard (server player : string)        (* [players.discard] *)
| EvScreenStuffList (screen_name : string)     (* [os.system("screen ... stuff 'list'")] *)
| EvOpen (path : string)                       (* [aiofiles.open] *)
| EvSeek (pos : nat)                           (* [f.seek] *)
| EvSleep (milliseconds : nat).                (* [asyncio.sleep] *)

(** The globals of the module and the part of the world they are synchronised
    with. *)
Record State := mkState {
  embed_tracker : gmap string message_id;
  player_tracker : gmap string ServerEntry;
  channel_cache : option Z;                         (* [None] or the channel object *)
  embed_ids_file : option (gmap string message_id); (* embed_ids.json, if it exists *)
  channel_messages : gmap message_id Embed;         (* the messages of the channel *)
  next_message_id : message_id;                     (* the id the next sent message gets *)
  trace : list Event
}.

Definition with_embed_tracker (v : gmap string message_id) (s : State) : State :=
  mkState v (player_tracker s) (channel_cache s) (embed_ids_file s)
          (channel_messages s) (next_message_id s) (trace s).
Definition with_player_tracker (v : gmap string ServerEntry) (s : State) : State :=
  mkState (embed_tracker s) v (channel_cache s) (embed_ids_file s)
          (channel_messages s) (next_message_id s) (trace s).
Definition with_channel_cache (v : option Z) (s : State) : State :=
  mkState (embed_tracker s) (player_tracker s) v (embed_ids_file s)
          (channel_messages s) (next_message_id s) (trace s).
Definition with_embed_ids_file (v : option (gmap string message_id)) (s : State) : State :=
  mkState (embed_tracker s) (player_tracker s) (channel_cache s) v
          (channel_messages s) (next_message_id s) (trace s).
Definition with_channel (msgs : gmap message_id Embed) (next : message_id) (s : State) : State :=
  mkState (embed_tracker s) (player_tracker s) (channel_cache s) (embed_ids_file s)
          msgs next (trace s).
Definition with_trace (v : list Event) (s : State) : State :=
  mkState (embed_tracker s) (player_tracker s) (channel_cache s) (embed_ids_file s)
          (channel_messages s) (next_message_id s) v.

(** ** The state-and-exception monad *)

Inductive Exn :=
| KeyError (key : string)
| NotFound                       (* [discord.NotFound] *)
| FileNotFoundError (path : string).

Inductive Result (A : Type) :=
| Ok (a : A) (s : State)
| Raise (e : Exn) (s : State).
Arguments Ok {A} a s.
Arguments Raise {A} e s.

Definition M (A : Type) : Type := State -> Result A.

Definition ret {A} (a : A) : M A := fun s => Ok a s.
Definition bind {A B} (m : M A) (k : A -> M B) : M B :=
  fun s => match m s with
           | Ok a s' => k a s'
           | Raise e s' => Raise e s'
           end.
Definition raise {A} (e : Exn) : M A := fun s => Raise e s.
Definition gets {A} (f : State -> A) : M A := fun s => Ok (f s) s.
Definition modify (f : State -> State) : M unit := fun s => Ok tt (f s).

(** [try: body except discord.NotFound: handler] *)
Definition try_except_NotFound {A} (body handler : M A) : M A :=
  fun s => match body s with
           | Raise NotFound s' => handler s'
           | r => r
           end.

Declare Scope py_scope.
Delimit Scope py_scope with py.
Notation "'let!' x ':=' m 'in' k" := (bind m (fun x => k))
  (at level 10, x name, m at level 100, k at level 200) : py_scope.
Notation "m ;; k" := (bind m (fun _ => k))
  (at level 100, k at level 200, right associativity) : py_scope.
Local Open Scope py_scope.

Definition state_of {A} (r : Result A) : State :=
  match r with Ok _ s => s | Raise _ s => s end.

Definition emit (e : Event) : M unit := modify (fun s => with_trace (trace s ++ [e]) s).
Definition log (lvl : Level) (m : Message) : M unit := emit (EvLog lvl m).
Definition sleep (milliseconds : nat) : M unit := emit (EvSleep milliseconds).

(** [player_tracker[server]] *)
Definition tracker_get (server : string) : M ServerEntry :=
  fun s => match player_tracker s !! server with
           | Some e => Ok e s
           | None => Raise (KeyError server) s
           end.

(** [player_tracker[server] = entry] *)
Definition tracker_set (server : string) (entry : ServerEntry) : M unit :=
  modify (fun s => with_player_tracker (<[server := entry]> (player_tracker s)) s).

(** ** The functions of the source *)

(** [load_embed_ids] *)
Definition load_embed_ids : M unit :=
  let! file := gets embed_ids_file in
  match file with
  | Some content =>
      modify (with_embed_tracker content);;
      log INFO MsgEmbedIdsLoaded
  | None => ret tt
  end.

(** [save_embed_ids] *)
Definition save_embed_ids : M unit :=
  let! tracker := gets embed_tracker in
  modify (with_embed_ids_file (Some tracker));;
  emit (EvWriteEmbedIds tracker);;
  log INFO MsgEmbedIdsSaved.

(** The Discord channel, at the interface the source uses: a message can be
    fetched and edited while it exists in the channel, [discord.NotFound] is
    raised otherwise; a sent message gets a new identifier. *)
Definition fetch_message (id : message_id) : M message_id :=
  emit (EvFetchMessage id);;
  let! msgs := gets channel_messages in
  match msgs !! id with
  | Some _ => ret id
  | None => raise NotFound
  end.

Definition message_edit (message : message_id) (embed : Embed) : M unit :=
  emit (EvEdit message embed);;
  let! msgs := gets channel_messages in
  match msgs !! message with
  | Some _ => modify (fun s => with_channel (<[message := embed]> msgs) (next_message_id s) s)
  | None => raise NotFound
  end.

Definition channel_send (embed : Embed) : M message_id :=
  let! id := gets next_message_id in
  modify (fun s => with_channel (<[id := embed]> (channel_messages s)) (id + 1)%Z s);;
  emit (EvSend embed id);;
  ret id.

(** Python truthiness of a set: [if players]. *)
Definition set_truthy (players : gset string) : bool := negb (bool_decide (players = ∅)).

(** The embed built by [update_embed]; the iteration order of the set in
    [", ".join(players)] is that of [elements]. *)
Definition make_embed (server : string) (players : gset string) : Embed :=
  let status := if set_truthy players then "Online" else "Offline" in
  {| title := server ++ " - " ++ status;
     color := if set_truthy players then green else red;
     description := "**Players Online:** " ++ pretty (size players);
     fields := if set_truthy players
               then [("Players", PyStr.join ", " (elements players))]
               else [] |}.

(** [update_embed(server)] *)
Definition update_embed (server : string) : M unit :=
  emit (EvCallUpdateEmbed server);;
  let! cache := gets channel_cache in
  match cache with
  | None => log WARNING (MsgChannelNotCached server)
  | Some _ =>
      let! entry := tracker_get server in
      let embed := make_embed server (players entry) in
      let! tracker := gets embed_tracker in
      match tracker !! server with
      | Some message_id =>
          try_except_NotFound
            (let! message := fetch_message message_id in
             message_edit message embed;;
             log INFO (MsgUpdatedEmbed server))
            (log WARNING (MsgEmbedNotFound server);;
             let! message := channel_send embed in
             modify (fun s => with_embed_tracker (<[server := message]> (embed_tracker s)) s);;
             save_embed_ids)
      | None =>
          let! message := channel_send embed in
          modify (fun s => with_embed_tracker (<[server := message]> (embed_tracker s)) s);;
          save_embed_ids
      end
  end.

(** [player_tracker[server]["players"].add(player)] *)
Definition players_add (server player : string) : M unit :=
  let! entry := tracker_get server in
  tracker_set server (mkEntry ({[player]} ∪ players entry) (log_file entry) (position entry));;
  emit (EvSetAdd server player).

(** [player_tracker[server]["players"].discard(player)] *)
Definition players_discard (server player : string) : M unit :=
  let! entry := tracker_get server in
  tracker_set server (mkEntry (players entry ∖ {[player]}) (log_file entry) (position entry));;
  emit (EvSetDiscard server player).

(** The body of the [while True] loop of [monitor_player_activity], from the
    test of [line] on: what the loop does with the result of one [readline]. *)
Definition process_line (server line : string) : M unit :=
  if negb (PyStr.truthy line) then sleep 500
  else
    log DEBUG (MsgNewLogEntry server (PyStr.strip line));;
    if PyStr.contains "joined the game" line then
      match Re.search_joined line with
      | Some group1 =>
          let player := PyStr.strip group1 in
          players_add server player;;
          update_embed server;;
          log INFO (MsgJoined player server)
      | None => ret tt
      end
    else if PyStr.contains "left the game" line || PyStr.contains "lost connection" line then
      match Re.search_left line with
      | Some group1 =>
          let player := PyStr.strip group1 in
          players_discard server player;;
          update_embed server;;
          log INFO (MsgLeft player server)
      | None => ret tt
      end
    else ret tt.

(** *** The log file and its handle

    The monitor opens the log in text mode: what it reads goes through a
    buffer, is decoded, and every line ending arrives as a line feed.  On
    plain text, ASCII without carriage return, decoding changes nothing, an
    offset in bytes is an offset in characters and the line feed is the only
    line ending; reading is modelled for such text, and the theorems about
    reading assume it. *)

Definition plain_char (c : ascii) : bool :=
  let n := nat_of_ascii c in Nat.ltb n 128 && negb (Nat.eqb n 13).

Fixpoint plain_text (s : string) : bool :=
  match s with
  | EmptyString => true
  | String c r => plain_char c && plain_text r
  end.

(** The open file [f] of a monitor: the path it was opened at, its offset
    ([f.tell()]: the first byte not handed out yet), and its buffer: the
    text fetched from the file behind that offset and not handed out yet. *)
Record Handle := mkHandle {
  h_path : string;
  h_pos : nat;
  h_buffer : string
}.

(** The text up to and including the first line feed, or all of it. *)
Fixpoint take_line (s : string) : string :=
  match s with
  | EmptyString => EmptyString
  | String c r => if Ascii.eqb c PyStr.LF then String c EmptyString else String c (take_line r)
  end.

(** One read of the file, which holds [content], at offset [pos]: at most
    [S chunk] bytes, fewer at the end of the file, none at or beyond it. *)
Definition raw_read (chunk : nat) (content : string) (pos : nat) : string :=
  PyStr.take (S chunk) (PyStr.drop pos content).

(** Filling the buffer of a handle whose offset is [start], for [readline]:
    while the buffer holds no line feed the file is read behind what the
    buffer holds, until a read returns nothing (end of file).  [fuel] bounds
    the number of reads. *)
Fixpoint fill (fuel chunk : nat) (content : string) (start : nat) (buffer : string) : string :=
  if PyStr.no_LF buffer then
    match fuel with
    | O => buffer
    | S fuel' =>
        match raw_read chunk content (start + String.length buffer) with
        | EmptyString => buffer
        | data => fill fuel' chunk content start (buffer ++ data)
        end
    end
  else buffer.

(** [f.readline()] on a file that currently holds [content]: the line and
    the handle after the call.  The line is the buffered text up to its
    first line feed; without a line feed in the buffer the file is read,
    and at the end of the file all that is buffered is the line, the empty
    string when nothing is buffered.  Every read that returns something
    returns a byte at least, so [S (String.length content)] reads are
    enough. *)
Definition readline (chunk : nat) (content : string) (f : Handle) : string * Handle :=
  let buffer := fill (S (String.length content)) chunk content (h_pos f) (h_buffer f) in
  let line := take_line buffer in
  (line,
   mkHandle (h_path f) (h_pos f + String.length line) (PyStr.drop (String.length line) buffer)).

(** The first lines of [monitor_player_activity]: the path is computed, the
    file opened ([present] says whether it exists) and positioned; nothing
    is buffered yet. *)
Definition monitor_open (server : string) (present : bool) : M Handle :=
  let! entry := tracker_get server in
  let base_log_dir := PyPath.dirname (log_file entry) in
  let current_log_file := PyPath.join base_log_dir ["latest.log"] in
  log INFO (MsgStartingMonitor server);;
  emit (EvOpen current_log_file);;
  if present then
    let! entry := tracker_get server in
    emit (EvSeek (position entry));;
    ret (mkHandle current_log_file (position entry) "")
  else raise (FileNotFoundError current_log_file).

(** One turn of the [while True] loop: [content] is what the file behind the
    handle holds when [readline] runs. *)
Definition monitor_iteration (chunk : nat) (server content : string) (f : Handle) : M Handle :=
  let line := fst (readline chunk content f) in
  process_line server line;;
  ret (snd (readline chunk content f)).

(** The loop, run for as many turns as there are snapshots of the file. *)
Fixpoint monitor_loop (chunk : nat) (server : string) (snapshots : list string) (f : Handle)
    : M Handle :=
  match snapshots with
  | [] => ret f
  | content :: rest =>
      let! f' := monitor_iteration chunk server content f in
      monitor_loop chunk server rest f'
  end.

(** The Reconciler fed a sequence of lines, one loop turn per line. *)
Fixpoint feed_lines (server : string) (lines : list string) : M unit :=
  match lines with
  | [] => ret tt
  | line :: rest => process_line server line;; feed_lines server rest
  end.

(** One pass of the [for server in servers] loop of [initialize_players]:
    [running] is the answer of the [screen -list] test, [file] the bytes of
    the server's latest.log if it exists.  [seek(0, SEEK_END)] and [tell]
    give the length of the file in bytes.  The result says whether the
    monitoring task of the server is created at the end of the pass. *)
Definition initialize_server (SERVER_DIR server : string) (running : bool)
    (file : option string) : M bool :=
  let screen_name := "MC" ++ server in
  if running then
    emit (EvScreenStuffList screen_name);;
    sleep 2000;;
    let log_file := PyPath.join SERVER_DIR [server; "logs"; "latest.log"] in
    match file with
    | None => log WARNING (MsgNoLogFile server);; ret false
    | Some content =>
        emit (EvOpen log_file);;
        let position := String.length content in
        tracker_set server (mkEntry ∅ log_file position);;
        update_embed server;;
        log INFO (MsgInitialized server position);;
        ret true
    end
  else ret false.

(** The loop of [initialize_players] up to [asyncio.gather], its passes in
    a row: the effects of the initialiser in the order it has them when no
    monitor takes a turn in between, as it is when one server is started
    (its monitor is created at the end of the last pass).  The servers are
    given with the answer of their [screen -list] test and the bytes of
    their latest.log.  The result is the list of the tasks handed to
    [asyncio.gather]; the function itself does not return while a monitor
    runs.  The steps of several tasks in any order are those of [run]
    below. *)
Fixpoint initialize_players (SERVER_DIR : string)
    (servers : list (string * bool * option string)) : M (list string) :=
  match servers with
  | [] => ret []
  | (server, running, file) :: rest =>
      let! started := initialize_server SERVER_DIR server running file in
      let! tasks := initialize_players SERVER_DIR rest in
      ret (if started then server :: tasks else tasks)
  end.

(** [on_ready] up to the [asyncio.gather] of [initialize_players]:
    [channel] is the answer of [bot.get_channel(CHANNEL_ID)]. *)
Definition on_ready (channel : option Z) (SERVER_DIR : string)
    (servers : list (string * bool * option string)) : M (list string) :=
  log INFO MsgBotConnected;;
  modify (with_channel_cache channel);;
  match channel with
  | Some _ => log INFO MsgChannelCached
  | None => log WARNING MsgChannelNotFound
  end;;
  initialize_players SERVER_DIR servers.

(** A new process: the globals have their initial values, the world is as the
    previous process left it. *)
Definition fresh_process (s : State) : State :=
  with_channel_cache None (with_player_tracker ∅ (with_embed_tracker ∅ s)).

(** The start of a process up to the [asyncio.gather] of
    [initialize_players]: [main] loads the bindings, then [on_ready] runs. *)
Definition startup (channel : option Z) (SERVER_DIR : string)
    (servers : list (string * bool * option string)) : M (list string) :=
  load_embed_ids;;
  on_ready channel SERVER_DIR servers.

(** *** The tasks of a process

    [initialize_players] creates the monitor of a server at the end of the
    server's pass of its loop.  The monitor takes its turns while the later
    servers are initialised and, once the loop is over, while
    [initialize_players] waits in [asyncio.gather].  A step of the process
    is a pass of the loop of [initialize_players], the opening of its file
    by a monitor, or a turn of the loop of a monitor, given with the line
    [readline] returned in it (the empty string when there was no data); a
    schedule lists the steps in the order in which the event loop runs them.
    An exception ends the task that raised it and no other task. *)

Inductive Step :=
| StepInit (server : string) (running : bool) (file : option string)
| StepOpen (server : string) (present : bool)
| StepTurn (server line : string).

(** The server a step belongs to. *)
Definition step_server (st : Step) : string :=
  match st with
  | StepInit server _ _ | StepOpen server _ | StepTurn server _ => server
  end.

Record Pool := mkPool {
  p_state : State;
  p_created : gset string;   (* the servers whose monitor task was created *)
  p_opened : gset string;    (* the monitors that have opened their file and are in their loop *)
  p_ended : gset string;     (* the monitors that an exception ended *)
  p_init_ended : bool        (* an exception ended [initialize_players] *)
}.

(** One step.  A pass of the initialiser needs the initialiser alive; a
    monitor opens its file once, after it was created; it takes a turn when
    its file is open; a monitor that has ended takes no step. *)
Definition step (SERVER_DIR : string) (p : Pool) (st : Step) : Pool :=
  match st with
  | StepInit server running file =>
      if p_init_ended p then p
      else
        match initialize_server SERVER_DIR server running file (p_state p) with
        | Ok created s' =>
            mkPool s' (if created then {[server]} ∪ p_created p else p_created p)
                   (p_opened p) (p_ended p) false
        | Raise _ s' => mkPool s' (p_created p) (p_opened p) (p_ended p) true
        end
  | StepOpen server present =>
      if bool_decide (server ∈ p_created p) && negb (bool_decide (server ∈ p_ended p))
         && negb (bool_decide (server ∈ p_opened p))
      then
        match monitor_open server present (p_state p) with
        | Ok _ s' =>
            mkPool s' (p_created p) ({[server]} ∪ p_opened p) (p_ended p) (p_init_ended p)
        | Raise _ s' =>
            mkPool s' (p_created p) (p_opened p) ({[server]} ∪ p_ended p) (p_init_ended p)
        end
      else p
  | StepTurn server line =>
      if bool_decide (server ∈ p_opened p) && negb (bool_decide (server ∈ p_ended p))
      then
        match process_line server line (p_state p) with
        | Ok _ s' => mkPool s' (p_created p) (p_opened p) (p_ended p) (p_init_ended p)
        | Raise _ s' =>
            mkPool s' (p_created p) (p_opened p) ({[server]} ∪ p_ended p) (p_init_ended p)
        end
      else p
  end.

(** A schedule, run from a pool. *)
Definition run (SERVER_DIR : string) (steps : list Step) (p : Pool) : Pool :=
  fold_left (step SERVER_DIR) steps p.

(** The first statements of [on_ready], before [initialize_players]. *)
Definition cache_channel (channel : option Z) : M unit :=
  log INFO MsgBotConnected;;
  modify (with_channel_cache channel);;
  match channel with
  | Some _ => log INFO MsgChannelCached
  | None => log WARNING MsgChannelNotFound
  end.

(** The pool of a new process when [initialize_players] is entered: [main]
    has loaded the bindings, [on_ready] has looked for the channel, no
    monitor exists. *)
Definition pool_start (channel : option Z) (s : State) : Pool :=
  mkPool (state_of ((load_embed_ids;; cache_channel channel) (fresh_process s))) ∅ ∅ ∅ false.


(** Unfolding of the monad, for goals that run a function on a state. *)
Ltac run_monad :=
  unfold save_embed_ids, fetch_message, message_edit, channel_send,
    players_add, players_discard, log, sleep, emit, tracker_get, tracker_set,
    try_except_NotFound, bind, ret, gets, modify, raise in *;
  cbn [embed_tracker player_tracker channel_cache embed_ids_file channel_messages
       next_message_id trace with_trace with_channel with_embed_ids_file
       with_embed_tracker with_player_tracker with_channel_cache state_of
       players log_file position] in *.

Ltac flatten_trace := rewrite <- ?app_assoc; cbn [app].

(** ** The class the code gives a line

    What the loop body does with a line, read off its tests: the line is an
    enter line when the enter pattern matches, a leave line when it has no
    enter phrase and a leave pattern matches, and is ignored otherwise; the
    name is group 1, stripped. *)

Inductive LineClass :=
| Enter (name : string)
| Leave (name : string)
| Ignore.

Definition classify (line : string) : LineClass :=
  match Re.search_joined line with
  | Some text => Enter (PyStr.strip text)
  | None =>
      if PyStr.contains "joined the game" line then Ignore
      else match Re.search_left line with
           | Some text => Leave (PyStr.strip text)
           | None => Ignore
           end
  end.

Definition replay_step (present : gset string) (line : string) : gset string :=
  match classify line with
  | Enter name => {[name]} ∪ present
  | Leave name => present ∖ {[name]}
  | Ignore => present
  end.

Definition replay (lines : list string) (initial : gset string) : gset string :=
  fold_left replay_step lines initial.

(** The line has one of the three keyword phrases. *)
Definition has_keyword_phrase (line : string) : bool :=
  PyStr.contains "joined the game" line
  || PyStr.contains "left the game" line
  || PyStr.contains "lost connection" line.

(** ** The Reconciler in the words of the specification

    Section 4.3: a line is an enter line when it matches
    "<separator> <name> joined the game", a leave line when it matches
    "<separator> <name> left the game" or "<separator> <name> lost
    connection", and is ignored otherwise; the name is the text between the
    line's separator token and the trailing keyword phrase, trimmed of
    surrounding whitespace.  These notions are stated on the text of the
    line, without the functions of the embedding. *)

Module Spec.

(** [k] occurs in [s]. *)
Definition occurs (k s : string) : Prop := exists a b, s = a ++ k ++ b.

(** A line: a text with no line feed but, possibly, one at its end. *)
Definition one_line (line : string) : Prop :=
  forall a b, line = a ++ String PyStr.LF b -> b = "".

(** The whitespace characters below code point 256: TAB, LF, VT, FF, CR, FS,
    GS, RS, US, the blank, NEL and the no-break space. *)
Definition whitespace_chars : list ascii :=
  List.map ascii_of_nat [9; 10; 11; 12; 13; 28; 29; 30; 31; 32; 133; 160].

Definition whitespace (c : ascii) : Prop := In c whitespace_chars.

(** A text of whitespace only. *)
Definition blank (s : string) : Prop := Forall whitespace (list_ascii_of_string s).

(** [name] is [text] trimmed of surrounding whitespace: [text] is [name]
    between two runs of whitespace, and [name] neither starts nor ends with
    whitespace. *)
Definition trimmed_to (text name : string) : Prop :=
  exists l r,
    text = l ++ name ++ r /\ blank l /\ blank r
    /\ (forall c rest, name = String c rest -> ~ whitespace c)
    /\ (forall init c, name = init ++ String c "" -> ~ whitespace c).

(** The line matches "<separator> <text> <phrase>" for one of the phrases,
    [text] being the text between the separator token of the line (the first
    one that a blank follows) and the trailing keyword phrase (no phrase
    stands further right); [text] is not empty. *)
Definition between (sep : string) (phrases : list string) (line text : string) : Prop :=
  exists pre phrase post,
    line = pre ++ sep ++ " " ++ text ++ " " ++ phrase ++ post
    /\ In phrase phrases
    /\ ~ occurs (sep ++ " ") pre
    /\ text <> ""
    /\ (forall phrase', In phrase' phrases -> ~ occurs (" " ++ phrase') (phrase ++ post)).

Definition enter_phrase : string := "joined the game".
Definition leave_phrases : list string := ["left the game"; "lost connection"].

(** The line is an enter line, a leave line, of [name]. *)
Definition enter_line (sep line name : string) : Prop :=
  exists text, between sep [enter_phrase] line text /\ trimmed_to text name.
Definition leave_line (sep line name : string) : Prop :=
  exists text, between sep leave_phrases line text /\ trimmed_to text name.

(** One step of the fold of the claim: enter adds, leave discards, any other
    line changes nothing.  A line that matches both patterns counts as an
    enter line. *)
Inductive step (sep : string) (present : gset string) (line : string) : gset string -> Prop :=
| step_enter name :
    enter_line sep line name -> step sep present line ({[name]} ∪ present)
| step_leave name :
    (forall n, ~ enter_line sep line n) -> leave_line sep line name ->
    step sep present line (present ∖ {[name]})
| step_ignore :
    (forall n, ~ enter_line sep line n) -> (forall n, ~ leave_line sep line n) ->
    step sep present line present.

Inductive replays (sep : string) : list string -> gset string -> gset string -> Prop :=
| replays_nil present : replays sep [] present present
| replays_cons line lines present mid final :
    step sep present line mid -> replays sep lines mid final ->
    replays sep (line :: lines) present final.

(** The same fold with two more conditions: the separator token is the
    colon, and a line in which the enter phrase occurs is no leave line. *)
Inductive step_colon (present : gset string) (line : string) : gset string -> Prop :=
| colon_enter name :
    enter_line ":" line name -> step_colon present line ({[name]} ∪ present)
| colon_leave name :
    ~ occurs enter_phrase line -> leave_line ":" line name ->
    step_colon present line (present ∖ {[name]})
| colon_ignore :
    (forall n, ~ enter_line ":" line n) ->
    (occurs enter_phrase line \/ forall n, ~ leave_line ":" line n) ->
    step_colon present line present.

Inductive replays_colon : list string -> gset string -> gset string -> Prop :=
| replays_colon_nil present : replays_colon [] present present
| replays_colon_cons line lines present mid final :
    step_colon present line mid -> replays_colon lines mid final ->
    replays_colon (line :: lines) present final.

End Spec.

(** ** Observations on a run *)

(** The events a computation adds to the trace of [s]. *)
Definition new_events {A} (m : M A) (s : State) : list Event :=
  drop (List.length (trace s)) (trace (state_of (m s))).

Definition is_sync_call (e : Event) : bool :=
  match e with EvCallUpdateEmbed _ => true | _ => false end.
Definition is_set_mutation (e : Event) : bool :=
  match e with EvSetAdd _ _ | EvSetDiscard _ _ => true | _ => false end.
Definition is_discard (e : Event) : bool :=
  match e with EvSetDiscard _ _ => true | _ => false end.
Definition is_warning (e : Event) : bool :=
  match e with EvLog WARNING _ => true | _ => false end.
Definition is_send (e : Event) : bool :=
  match e with EvSend _ _ => true | _ => false end.
Definition is_open (e : Event) : bool :=
  match e with EvOpen _ => true | _ => false end.

(** The events [update_embed] adds after the marker of its call. *)
Definition sync_detail (e : Event) : bool :=
  match e with
  | EvLog _ _ | EvFetchMessage _ | EvEdit _ _ | EvSend _ _ | EvWriteEmbedIds _ => true
  | _ => false
  end.

(** How often [p] holds in a list of events. *)
Definition count (p : Event -> bool) (evs : list Event) : nat :=
  List.length (List.filter p evs).

(** The presence set and the stored offset of a server, if it is tracked. *)
Definition presence (server : string) (s : State) : option (gset string) :=
  players <$> player_tracker s !! server.
Definition stored_offset (server : string) (s : State) : option nat :=
  position <$> player_tracker s !! server.

(** ** Readings of the specification that are compared with the code *)

(** "The final presence set equals the result of folding the sequence", the
    separator token being [sep]. *)
Definition folds_as_specified (sep server : string) (lines : list string) (s : State) : Prop :=
  exists initial s' final,
    presence server s = Some initial
    /\ feed_lines server lines s = Ok tt s'
    /\ presence server s' = Some final
    /\ Spec.replays sep lines initial final.

(** Processing [line] changes the presence set of [server]. *)
Definition presence_changed (server line : string) (s : State) : Prop :=
  presence server (state_of (process_line server line s)) <> presence server s.

(** The number of calls of [update_embed] while [line] is processed. *)
Definition sync_calls (server line : string) (s : State) : nat :=
  count is_sync_call (new_events (process_line server line) s).

(** "A sync is triggered if and only if the set changed": one call on a
    change, none otherwise. *)
Definition sync_only_on_change (server line : string) (s : State) : Prop :=
  (presence_changed server line s -> sync_calls server line s = 1)
  /\ (~ presence_changed server line s -> sync_calls server line s = 0).

(** "The line is logged at warning level." *)
Definition logged_at_warning (server line : string) (s : State) : Prop :=
  existsb is_warning (new_events (process_line server line) s) = true.

(** The file behind the handle is shorter than the handle's offset. *)
Definition truncated (content : string) (f : Handle) : Prop :=
  String.length content < h_pos f.

(** "The tailer reopens at offset 0 and continues": after the turn the handle
    is back inside the file. *)
Definition reopened_at_start (chunk : nat) (server content : string) (f : Handle)
    (s : State) : Prop :=
  exists f' s',
    monitor_iteration chunk server content f s = Ok f' s'
    /\ h_pos f' <= String.length content.

(** "The per-server offset is advanced past the consumed line": after the
    turn the stored offset is the position behind the line. *)
Definition offset_advanced (chunk : nat) (server content : string) (f : Handle)
    (s : State) : Prop :=
  exists f' s',
    monitor_iteration chunk server content f s = Ok f' s'
    /\ stored_offset server s' = Some (h_pos f').

(** The offset a new process starts to read [server]'s log at, the log
    holding [file] at that time and [s] being the state the previous process
    ended in. *)
Definition restart_offset (channel : option Z) (SERVER_DIR server file : string)
    (s : State) : option nat :=
  stored_offset server
    (state_of (startup channel SERVER_DIR [(server, true, Some file)] (fresh_process s))).

(** "A restart resumes at or before the last fully processed line", which
    ends at offset [processed]. *)
Definition resumes_at_or_before (processed : nat) (channel : option Z)
    (SERVER_DIR server file : string) (s : State) : Prop :=
  exists offset,
    restart_offset channel SERVER_DIR server file s = Some offset /\ offset <= processed.

(** "A partial line yields nothing": the turn leaves the offset of the
    handle and the presence set as they were. *)
Definition withheld (chunk : nat) (server content : string) (f : Handle) (s : State) : Prop :=
  exists f' s',
    monitor_iteration chunk server content f s = Ok f' s'
    /\ h_pos f' = h_pos f
    /\ presence server s' = presence server s.

(** The text a handle hands out, line by line, as long as the file behind
    it stays as it is: what is buffered, then what the file holds behind
    it. *)
Definition stream (content : string) (f : Handle) : string :=
  h_buffer f ++ PyStr.drop (h_pos f + String.length (h_buffer f)) content.

(** ** Sample data *)

Module Sample.
Import PyStr.

Definition server_dir : string := "/srv/minecraft".
Definition log_path : string := "/srv/minecraft/survival/logs/latest.log".

Definition join_A : string :=
  "[12:00:01] [Server thread/INFO]: PlayerA joined the game" ++ nl.
Definition leave_A : string :=
  "[12:00:05] [Server thread/INFO]: PlayerA left the game" ++ nl.
Definition join_B : string :=
  "[12:00:09] [Server thread/INFO]: PlayerB joined the game" ++ nl.
Definition lost_B : string :=
  "[12:00:12] [Server thread/INFO]: PlayerB lost connection: Timed out" ++ nl.
Definition done_line : string :=
  "[12:00:06] [Server thread/INFO]: Done (3.2s)!" ++ nl.
(** The enter phrase without the separator [": "] before the name: the
    first line of the end-to-end scenario of the specification. *)
Definition no_separator : string := "12:00:01 [Server] PlayerA joined the game" ++ nl.
(** Both phrases: a chat message quoting the leave phrase. *)
Definition both_phrases : string :=
  "[12:00:20] [Server thread/INFO]: PlayerC joined the game (PlayerB left the game)" ++ nl.
(** The enter phrase, not as part of the enter pattern, in front of a leave
    event. *)
Definition phrase_then_leave : string :=
  "[12:00:30] [Server thread/INFO] joined the game: PlayerA left the game" ++ nl.
(** A join line whose terminator has not been written yet, whole and cut
    inside the keyword phrase. *)
Definition partial_join : string :=
  "[12:00:01] [Server thread/INFO]: PlayerA joined the game".
Definition cut_join : string := "[12:00:01] [Server thread/INFO]: PlayerA joined the".
Definition cut_rest : string := " game" ++ nl.

Definition card_A : Embed := make_embed "survival" {["PlayerA"]}.

(** Channel cached, [survival] tracked with nobody present, no card yet. *)
Definition s_empty : State :=
  mkState ∅ {["survival" := mkEntry ∅ log_path 0]} (Some 7%Z) None ∅ 100%Z [].

(** Channel cached, PlayerA present on [survival], card 100 bound and shown. *)
Definition s_present : State :=
  mkState {["survival" := 100%Z]} {["survival" := mkEntry {["PlayerA"]} log_path 0]}
          (Some 7%Z) (Some {["survival" := 100%Z]}) {[100%Z := card_A]} 101%Z [].

(** As [s_present], the bound card deleted from the channel. *)
Definition s_deleted : State :=
  mkState {["survival" := 100%Z]} {["survival" := mkEntry {["PlayerA"]} log_path 0]}
          (Some 7%Z) (Some {["survival" := 100%Z]}) ∅ 101%Z [].

(** As [s_present], before [on_ready] found the channel. *)
Definition s_uncached : State := with_channel_cache None s_present.

(** Reads of 4096 bytes. *)
Definition chunk : nat := 4095.

Definition f_start : Handle := mkHandle log_path 0 "".
(** The state after the first line of a log was consumed. *)
Definition s_after_A : State :=
  state_of (monitor_iteration chunk "survival" join_A f_start s_empty).
(** A handle left at offset 300 by the previous, longer file, nothing
    buffered; and one that has a line of that file still in its buffer. *)
Definition f_far : Handle := mkHandle log_path 300 "".
Definition f_far_buffered : Handle := mkHandle log_path 300 leave_A.

(** Two servers tracked and bound, the monitor of [creative] in its loop at
    the start of its log, the one of [survival] created. *)
Definition creative_path : string := "/srv/minecraft/creative/logs/latest.log".
Definition s_two : State :=
  mkState {["survival" := 100%Z; "creative" := 101%Z]}
          {["survival" := mkEntry {["PlayerA"]} log_path 0;
            "creative" := mkEntry ∅ creative_path 0]}
          (Some 7%Z) (Some {["survival" := 100%Z; "creative" := 101%Z]})
          {[100%Z := card_A; 101%Z := make_embed "creative" ∅]} 102%Z [].
Definition p_two : Pool :=
  mkPool s_two {["survival"; "creative"]} {["creative"]} ∅ false.

End Sample.


(** ** Further notions for properties of the code *)

(** [text.splitlines(keepends=True)] for the terminator ["\n"]: the pieces
    that successive calls of [readline] return on a text that does not
    change. *)
Fixpoint split_lines (s : string) : list string :=
  match s with
  | EmptyString => []
  | String c r =>
      if Ascii.eqb c PyStr.LF then String c EmptyString :: split_lines r
      else match split_lines r with
           | [] => [String c EmptyString]
           | l :: ls => String c l :: ls
           end
  end.

(** A call of the Discord API. *)
Definition is_discord_call (e : Event) : bool :=
  match e with EvFetchMessage _ | EvEdit _ _ | EvSend _ _ => true | _ => false end.

(** The binding file holds the binding mapping of the process (no file
    standing for the empty mapping of a first run). *)
Definition binding_file_current (s : State) : Prop :=
  embed_ids_file s = Some (embed_tracker s)
  \/ (embed_ids_file s = None /\ embed_tracker s = ∅).

(** Every bound identifier was handed out by the channel already, and no two
    servers are bound to the same card. *)
Definition bindings_ok (s : State) : Prop :=
  (forall server id, embed_tracker s !! server = Some id -> (id < next_message_id s)%Z)
  /\ (forall a b id,
        embed_tracker s !! a = Some id -> embed_tracker s !! b = Some id -> a = b).

(** The servers [initialize_players] starts a monitor for: those that run and
    have a latest.log. *)
Definition started (servers : list (string * bool * option string)) : list string :=
  List.map (fun p => fst (fst p))
    (List.filter (fun p => snd (fst p) && bool_decide (is_Some (snd p))) servers).


(** A name without surrounding whitespace. *)
Definition trimmed (name : string) : Prop := PyStr.strip name = name.

(** The keyword phrases as the two patterns have them, behind a blank. *)
Definition tails_of (phrases : list string) : list string :=
  List.map (fun phrase => " " ++ phrase) phrases.

(** ** Facts about the string operations *)

Module StrFacts.
Import PyStr Re.

Lemma app_cons c s t : String c s ++ t = String c (s ++ t).
Proof. reflexivity. Qed.

Lemma app_assoc' s t u : (s ++ t) ++ u = s ++ t ++ u.
Proof. induction s as [|c s IH]; [reflexivity|]. rewrite !app_cons, IH. reflexivity. Qed.

Lemma startswith_empty s : startswith "" s = true.
Proof. destruct s; reflexivity. Qed.

Lemma startswith_cons c p d s :
  startswith (String c p) (String d s)
  = if Ascii.ascii_dec c d then startswith p s else false.
Proof. reflexivity. Qed.

(** [startswith] is Python's: [s] is [p] followed by something. *)
Lemma startswith_iff p s : startswith p s = true <-> exists r, s = p ++ r.
Proof.
  revert p. induction s as [|d s IH]; intros [|c p].
  - split; [exists ""; reflexivity | reflexivity].
  - split; [discriminate | intros [r Hr]; rewrite app_cons in Hr; discriminate].
  - split; [exists (String d s); reflexivity | reflexivity].
  - rewrite startswith_cons. destruct (Ascii.ascii_dec c d) as [->|Hne].
    + rewrite IH. split; intros [r Hr]; exists r.
      * rewrite app_cons, <- Hr. reflexivity.
      * rewrite app_cons in Hr. congruence.
    + split; [discriminate | intros [r Hr]; rewrite app_cons in Hr; congruence].
Qed.

(** [contains] is Python's [in]: [k] occurs somewhere in [s]. *)
Lemma contains_iff k s : contains k s = true <-> exists pre post, s = pre ++ k ++ post.
Proof.
  induction s as [|d s IH].
  - cbn [contains]. rewrite orb_false_r, startswith_iff. split.
    + intros [r Hr]. exists "", r. exact Hr.
    + intros (pre & post & H). destruct pre as [|c pre]; [exists post; exact H|].
      rewrite app_cons in H. discriminate.
  - cbn [contains]. rewrite orb_true_iff, IH, startswith_iff. split.
    + intros [[r Hr] | (pre & post & H)].
      * exists "", r. exact Hr.
      * exists (String d pre), post. rewrite app_cons, <- H. reflexivity.
    + intros (pre & post & H). destruct pre as [|c pre].
      * left. exists post. exact H.
      * right. exists pre, post. rewrite app_cons in H. congruence.
Qed.

Lemma contains_tail c k s : contains (String c k) s = true -> contains k s = true.
Proof.
  rewrite !contains_iff. intros (pre & post & H).
  exists (pre ++ String c ""), post. rewrite app_assoc'. exact H.
Qed.

(** What the group of a match is: a non-empty text without line feed,
    directly followed by one of the keyword phrases. *)
Lemma dot_plus_then_sound tails s g :
  dot_plus_then tails s = Some g ->
  exists t rest, In t tails /\ s = g ++ t ++ rest /\ g <> "" /\ no_LF g = true.
Proof.
  revert g. induction s as [|c s IH]; intros g; cbn [dot_plus_then]; [discriminate|].
  destruct (Ascii.eqb c LF) eqn:Hc; [discriminate|].
  destruct (dot_plus_then tails s) as [g'|] eqn:Hrec.
  - intros [= <-]. destruct (IH g' eq_refl) as (t & rest & Ht & Hs & _ & Hlf).
    exists t, rest. repeat split; [exact Ht| |discriminate|].
    + rewrite app_cons, <- Hs. reflexivity.
    + cbn [no_LF]. rewrite Hc, Hlf. reflexivity.
  - destruct (existsb _ tails) eqn:Hex; [|discriminate]. intros [= <-].
    apply existsb_exists in Hex. destruct Hex as (t & Ht & Hpre).
    apply startswith_iff in Hpre. destruct Hpre as [rest ->].
    exists t, rest. repeat split; [exact Ht|discriminate|].
    cbn [no_LF]. rewrite Hc. reflexivity.
Qed.

Lemma dot_plus_then_contains tails s g :
  dot_plus_then tails s = Some g -> exists t, In t tails /\ contains t s = true.
Proof.
  intros H. destruct (dot_plus_then_sound _ _ _ H) as (t & rest & Ht & -> & _ & _).
  exists t. split; [exact Ht|]. apply contains_iff. exists g, rest. reflexivity.
Qed.

(** A successful search: the line is some text, the separator, the group,
    a keyword phrase and some more text. *)
Lemma search_sound tails s g :
  search tails s = Some g ->
  exists pre t rest,
    In t tails /\ s = pre ++ ": " ++ g ++ t ++ rest /\ g <> "" /\ no_LF g = true.
Proof.
  revert g. induction s as [|c s IH]; intros g.
  - cbn. discriminate.
  - cbn [search]. destruct (match_here tails (String c s)) as [g'|] eqn:Hm.
    + intros [= <-]. unfold match_here in Hm.
      destruct (startswith ": " (String c s)) eqn:Hp; [|discriminate].
      apply startswith_iff in Hp. destruct Hp as [r Hr]. rewrite Hr in Hm |- *.
      cbn [drop] in Hm. change (drop 2 (": " ++ r)) with r in Hm.
      destruct (dot_plus_then_sound _ _ _ Hm) as (t & rest & Ht & -> & Hne & Hlf).
      exists "", t, rest. repeat split; assumption.
    + intros H. destruct (IH g H) as (pre & t & rest & Ht & -> & Hne & Hlf).
      exists (String c pre), t, rest. repeat split; assumption.
Qed.

Lemma search_contains tails s g :
  search tails s = Some g -> exists t, In t tails /\ contains t s = true.
Proof.
  intros H. destruct (search_sound _ _ _ H) as (pre & t & rest & Ht & -> & _ & _).
  exists t. split; [exact Ht|]. apply contains_iff.
  exists (pre ++ ": " ++ g), rest. rewrite !app_assoc'. reflexivity.
Qed.

(** The keyword test of the source never hides a match of its pattern. *)
Lemma search_joined_contains line g :
  search_joined line = Some g -> contains "joined the game" line = true.
Proof.
  intros H. destruct (search_contains _ _ _ H) as (t & [<-|[]] & Hc).
  exact (contains_tail _ _ _ Hc).
Qed.

Lemma search_left_contains line g :
  search_left line = Some g ->
  contains "left the game" line || contains "lost connection" line = true.
Proof.
  intros H. destruct (search_contains _ _ _ H) as (t & [<-|[<-|[]]] & Hc);
    apply contains_tail in Hc; rewrite Hc; [reflexivity | apply orb_true_r].
Qed.

End StrFacts.

(** ** Facts about the monad and the trace *)

Module RunFacts.

Lemma with_trace_same s : with_trace (trace s) s = s.
Proof. destruct s; reflexivity. Qed.

Lemma new_events_app {A} (m : M A) s evs :
  trace (state_of (m s)) = (trace s ++ evs)%list -> new_events m s = evs.
Proof.
  intros H. unfold new_events. rewrite H.
  change (List.length (trace s)) with (length (trace s)). apply drop_app_length.
Qed.

Lemma count_app p (l1 l2 : list Event) : count p (l1 ++ l2) = count p l1 + count p l2.
Proof. unfold count. rewrite List.filter_app, List.length_app. reflexivity. Qed.

End RunFacts.


(** ** The display sync [update_embed], case by case *)

Module SyncFacts.
Import RunFacts.

(** Channel not cached: a warning and nothing else. *)
Lemma update_embed_not_cached server s :
  channel_cache s = None ->
  update_embed server s
  = Ok tt (with_trace (trace s ++ [EvCallUpdateEmbed server;
                                   EvLog WARNING (MsgChannelNotCached server)]) s).
Proof.
  intros Hc. unfold update_embed. run_monad. rewrite Hc. run_monad.
  flatten_trace. reflexivity.
Qed.

(** Bound to a message that exists: fetched and edited in place. *)
Lemma update_embed_edit server s ch entry id old :
  channel_cache s = Some ch ->
  player_tracker s !! server = Some entry ->
  embed_tracker s !! server = Some id ->
  channel_messages s !! id = Some old ->
  let embed := make_embed server (players entry) in
  update_embed server s
  = Ok tt (with_trace (trace s ++ [EvCallUpdateEmbed server; EvFetchMessage id;
                                   EvEdit id embed; EvLog INFO (MsgUpdatedEmbed server)])
             (with_channel (<[id := embed]> (channel_messages s)) (next_message_id s) s)).
Proof.
  intros Hc Hp He Hm embed. unfold update_embed. run_monad.
  rewrite Hc. run_monad. rewrite Hp. run_monad. rewrite He. run_monad.
  rewrite Hm. run_monad. rewrite Hm. run_monad. flatten_trace. reflexivity.
Qed.

(** Bound to a message that is gone: a new card, a new binding, the file
    rewritten. *)
Lemma update_embed_replace server s ch entry id :
  channel_cache s = Some ch ->
  player_tracker s !! server = Some entry ->
  embed_tracker s !! server = Some id ->
  channel_messages s !! id = None ->
  let embed := make_embed server (players entry) in
  let new := next_message_id s in
  let tracker := <[server := new]> (embed_tracker s) in
  update_embed server s
  = Ok tt (with_trace (trace s ++ [EvCallUpdateEmbed server; EvFetchMessage id;
                                   EvLog WARNING (MsgEmbedNotFound server);
                                   EvSend embed new; EvWriteEmbedIds tracker;
                                   EvLog INFO MsgEmbedIdsSaved])
             (with_embed_ids_file (Some tracker)
                (with_embed_tracker tracker
                   (with_channel (<[new := embed]> (channel_messages s)) (new + 1)%Z s)))).
Proof.
  intros Hc Hp He Hm embed new tracker. unfold update_embed. run_monad.
  rewrite Hc. run_monad. rewrite Hp. run_monad. rewrite He. run_monad.
  rewrite Hm. run_monad. flatten_trace. reflexivity.
Qed.

(** Not bound yet: the first card is created. *)
Lemma update_embed_create server s ch entry :
  channel_cache s = Some ch ->
  player_tracker s !! server = Some entry ->
  embed_tracker s !! server = None ->
  let embed := make_embed server (players entry) in
  let new := next_message_id s in
  let tracker := <[server := new]> (embed_tracker s) in
  update_embed server s
  = Ok tt (with_trace (trace s ++ [EvCallUpdateEmbed server;
                                   EvSend embed new; EvWriteEmbedIds tracker;
                                   EvLog INFO MsgEmbedIdsSaved])
             (with_embed_ids_file (Some tracker)
                (with_embed_tracker tracker
                   (with_channel (<[new := embed]> (channel_messages s)) (new + 1)%Z s)))).
Proof.
  intros Hc Hp He embed new tracker. unfold update_embed. run_monad.
  rewrite Hc. run_monad. rewrite Hp. run_monad. rewrite He. run_monad.
  flatten_trace. reflexivity.
Qed.

Lemma count_sync_detail p evs :
  (forall e, sync_detail e = true -> p e = false) ->
  forallb sync_detail evs = true -> count p evs = 0.
Proof.
  intros Hp. unfold count. induction evs as [|e evs IH]; [reflexivity|].
  cbn [forallb List.filter]. intros [He Hevs]%andb_true_iff.
  rewrite (Hp e He). apply IH, Hevs.
Qed.

(** Whatever the case, a sync of a tracked server returns, touches neither
    [player_tracker] nor [channel_cache], and adds its call marker followed
    by log, Discord and file events only. *)
Lemma update_embed_frame server s entry :
  player_tracker s !! server = Some entry ->
  exists s' evs,
    update_embed server s = Ok tt s'
    /\ player_tracker s' = player_tracker s
    /\ channel_cache s' = channel_cache s
    /\ trace s' = (trace s ++ EvCallUpdateEmbed server :: evs)%list
    /\ forallb sync_detail evs = true.
Proof.
  intros Hp. destruct (channel_cache s) as [ch|] eqn:Hc.
  - destruct (embed_tracker s !! server) as [id|] eqn:He.
    + destruct (channel_messages s !! id) as [old|] eqn:Hm.
      * eexists _, _. split; [exact (update_embed_edit _ _ _ _ _ _ Hc Hp He Hm)|].
        cbn. rewrite Hc. repeat split; reflexivity.
      * eexists _, _. split; [exact (update_embed_replace _ _ _ _ _ Hc Hp He Hm)|].
        cbn. rewrite Hc. repeat split; reflexivity.
    + eexists _, _. split; [exact (update_embed_create _ _ _ _ Hc Hp He)|].
      cbn. rewrite Hc. repeat split; reflexivity.
  - eexists _, _. split; [exact (update_embed_not_cached _ _ Hc)|].
    cbn. rewrite Hc. repeat split; reflexivity.
Qed.

(** A sync of an untracked server, the channel being cached: [KeyError],
    before any call of the channel. *)
Lemma update_embed_untracked server s ch :
  channel_cache s = Some ch ->
  player_tracker s !! server = None ->
  update_embed server s
  = Raise (KeyError server) (with_trace (trace s ++ [EvCallUpdateEmbed server]) s).
Proof.
  intros Hc Hp. unfold update_embed. run_monad. rewrite Hc. run_monad. rewrite Hp.
  reflexivity.
Qed.

(** The events of a sync, whether it returns or raises. *)
Lemma update_embed_trace server s :
  exists evs,
    trace (state_of (update_embed server s))
    = (trace s ++ EvCallUpdateEmbed server :: evs)%list
    /\ forallb sync_detail evs = true.
Proof.
  destruct (player_tracker s !! server) as [entry|] eqn:Hp.
  - destruct (update_embed_frame server s entry Hp) as (s' & evs & Hrun & _ & _ & Htr & Hq).
    exists evs. rewrite Hrun. auto.
  - destruct (channel_cache s) as [ch|] eqn:Hc.
    + rewrite (update_embed_untracked _ _ _ Hc Hp). exists []. auto.
    + rewrite (update_embed_not_cached _ _ Hc). eexists. split; reflexivity.
Qed.

End SyncFacts.

(** ** One line through the Reconciler *)

Module LineFacts.
Import PyStr RunFacts SyncFacts StrFacts.

(** No data: the loop sleeps. *)
Lemma process_line_empty server s :
  process_line server "" s = Ok tt (with_trace (trace s ++ [EvSleep 500]) s).
Proof. reflexivity. Qed.

(** The branches of the source, read through [classify]. *)
Lemma process_line_eq server line s :
  truthy line = true ->
  process_line server line s
  = (log DEBUG (MsgNewLogEntry server (strip line));;
     match classify line with
     | Enter player =>
         players_add server player;;
         update_embed server;;
         log INFO (MsgJoined player server)
     | Leave player =>
         players_discard server player;;
         update_embed server;;
         log INFO (MsgLeft player server)
     | Ignore => ret tt
     end)%py s.
Proof.
  intros Ht. unfold process_line, classify. rewrite Ht. cbn [negb].
  destruct (Re.search_joined line) as [g|] eqn:Hj.
  - rewrite (search_joined_contains _ _ Hj). reflexivity.
  - destruct (contains "joined the game" line); [reflexivity|].
    destruct (Re.search_left line) as [g|] eqn:Hl.
    + rewrite (search_left_contains _ _ Hl). reflexivity.
    + destruct (contains "left the game" line || contains "lost connection" line);
        reflexivity.
Qed.

(** An ignored line leaves a debug record and nothing else. *)
Lemma process_line_ignore server line s :
  truthy line = true -> classify line = Ignore ->
  process_line server line s
  = Ok tt (with_trace (trace s ++ [EvLog DEBUG (MsgNewLogEntry server (strip line))]) s).
Proof. intros Ht Hc. rewrite process_line_eq, Hc by exact Ht. reflexivity. Qed.

(** An enter line: the name is added, one sync follows. *)
Lemma process_line_enter server line s entry name :
  truthy line = true -> classify line = Enter name ->
  player_tracker s !! server = Some entry ->
  exists s' evs,
    process_line server line s = Ok tt s'
    /\ player_tracker s'
       = <[server := mkEntry ({[name]} ∪ players entry) (log_file entry) (position entry)]>
           (player_tracker s)
    /\ channel_cache s' = channel_cache s
    /\ trace s' = (trace s ++ [EvLog DEBUG (MsgNewLogEntry server (strip line));
                               EvSetAdd server name; EvCallUpdateEmbed server]
                          ++ evs ++ [EvLog INFO (MsgJoined name server)])%list
    /\ forallb sync_detail evs = true.
Proof.
  intros Ht Hc Hp. rewrite process_line_eq, Hc by exact Ht.
  run_monad. rewrite Hp. run_monad.
  match goal with |- context [update_embed server ?s1] =>
    destruct (update_embed_frame server s1
                (mkEntry ({[name]} ∪ players entry) (log_file entry) (position entry)))
      as (s' & evs & Hrun & Htr & Hcc & Htrace & Hq);
      [apply lookup_insert_eq|]
  end.
  rewrite Hrun. eexists _, evs. split; [reflexivity|].
  run_monad. rewrite Htr, Hcc, Htrace. flatten_trace. repeat split. exact Hq.
Qed.

(** A leave line: the name is discarded, one sync follows. *)
Lemma process_line_leave server line s entry name :
  truthy line = true -> classify line = Leave name ->
  player_tracker s !! server = Some entry ->
  exists s' evs,
    process_line server line s = Ok tt s'
    /\ player_tracker s'
       = <[server := mkEntry (players entry ∖ {[name]}) (log_file entry) (position entry)]>
           (player_tracker s)
    /\ channel_cache s' = channel_cache s
    /\ trace s' = (trace s ++ [EvLog DEBUG (MsgNewLogEntry server (strip line));
                               EvSetDiscard server name; EvCallUpdateEmbed server]
                          ++ evs ++ [EvLog INFO (MsgLeft name server)])%list
    /\ forallb sync_detail evs = true.
Proof.
  intros Ht Hc Hp. rewrite process_line_eq, Hc by exact Ht.
  run_monad. rewrite Hp. run_monad.
  match goal with |- context [update_embed server ?s1] =>
    destruct (update_embed_frame server s1
                (mkEntry (players entry ∖ {[name]}) (log_file entry) (position entry)))
      as (s' & evs & Hrun & Htr & Hcc & Htrace & Hq);
      [apply lookup_insert_eq|]
  end.
  rewrite Hrun. eexists _, evs. split; [reflexivity|].
  run_monad. rewrite Htr, Hcc, Htrace. flatten_trace. repeat split. exact Hq.
Qed.

Lemma truthy_false line : truthy line = false -> line = "".
Proof. destruct line; [reflexivity|discriminate]. Qed.

(** Every line, whatever its class: the turn returns and the entry of the
    server holds the replayed set; log file and stored offset stay. *)
Lemma process_line_step server line s entry :
  player_tracker s !! server = Some entry ->
  exists s',
    process_line server line s = Ok tt s'
    /\ player_tracker s'
       = <[server := mkEntry (replay_step (players entry) line) (log_file entry)
                            (position entry)]> (player_tracker s)
    /\ channel_cache s' = channel_cache s.
Proof.
  intros Hp.
  assert (Hsame : <[server := mkEntry (players entry) (log_file entry) (position entry)]>
                    (player_tracker s) = player_tracker s).
  { apply insert_id. rewrite Hp. destruct entry; reflexivity. }
  destruct (truthy line) eqn:Ht.
  - unfold replay_step. destruct (classify line) as [name|name|] eqn:Hc.
    + destruct (process_line_enter _ _ _ _ _ Ht Hc Hp) as (s' & evs & Hrun & Htr & Hcc & _).
      exists s'. auto.
    + destruct (process_line_leave _ _ _ _ _ Ht Hc Hp) as (s' & evs & Hrun & Htr & Hcc & _).
      exists s'. auto.
    + rewrite (process_line_ignore _ _ _ Ht Hc). eexists. split; [reflexivity|].
      run_monad. auto.
  - apply truthy_false in Ht. subst line. rewrite process_line_empty.
    eexists. split; [reflexivity|]. run_monad. auto.
Qed.

(** A property that survives the events of the loop body, a change of
    [player_tracker] and a sync of [server] survives a turn of the monitor
    of [server], whether the turn returns or raises. *)
Lemma process_line_invariant (P : State -> Prop) server :
  (forall s e, is_discord_call e = false -> is_open e = false ->
               P s -> P (with_trace (trace s ++ [e]) s)) ->
  (forall s pt, P s -> P (with_player_tracker pt s)) ->
  (forall s, P s -> P (state_of (update_embed server s))) ->
  forall line s, P s -> P (state_of (process_line server line s)).
Proof.
  intros Hemit Htrack Hsync line s HP.
  destruct (truthy line) eqn:Ht.
  2:{ apply truthy_false in Ht. subst line. rewrite process_line_empty.
      apply Hemit; [reflexivity|reflexivity|exact HP]. }
  rewrite process_line_eq by exact Ht.
  assert (Hchange : forall (change : gset string -> gset string) ev msg,
             is_discord_call ev = false -> is_open ev = false ->
             P (state_of
                  ((log DEBUG (MsgNewLogEntry server (strip line));;
                    (let! entry := tracker_get server in
                     tracker_set server (mkEntry (change (players entry)) (log_file entry)
                                                 (position entry));;
                     emit ev);;
                    update_embed server;;
                    log INFO msg)%py s))).
  { intros change ev msg Hev Hov. run_monad.
    pose proof (Hemit s (EvLog DEBUG (MsgNewLogEntry server (strip line))) eq_refl eq_refl HP)
      as HP1.
    destruct (player_tracker s !! server) as [entry|]; [|exact HP1].
    run_monad.
    match goal with |- context [update_embed server ?s3] =>
      assert (HP3 : P s3)
        by (refine (Hemit (with_player_tracker _ (with_trace _ s)) ev Hev Hov _);
            apply Htrack, HP1);
      pose proof (Hsync s3 HP3) as HP4;
      destruct (update_embed server s3) as [[] s4|e s4]
    end; cbn [state_of] in *; [|exact HP4].
    exact (Hemit s4 (EvLog INFO msg) eq_refl eq_refl HP4). }
  destruct (classify line) as [name|name|].
  - exact (Hchange (fun present => {[name]} ∪ present) (EvSetAdd server name)
             (MsgJoined name server) eq_refl eq_refl).
  - exact (Hchange (fun present => present ∖ {[name]}) (EvSetDiscard server name)
             (MsgLeft name server) eq_refl eq_refl).
  - apply Hemit; [reflexivity|reflexivity|exact HP].
Qed.

(** A turn opens no file. *)
Lemma process_line_never_opens server line s :
  exists evs,
    trace (state_of (process_line server line s)) = (trace s ++ evs)%list
    /\ count is_open evs = 0.
Proof.
  apply (process_line_invariant
           (fun s' => exists evs, trace s' = (trace s ++ evs)%list /\ count is_open evs = 0)
           server).
  - intros s1 e _ He (evs & Htr & Hn). exists (evs ++ [e])%list.
    cbn [trace with_trace]. rewrite Htr, <- app_assoc. split; [reflexivity|].
    rewrite count_app, Hn. unfold count. cbn. rewrite He. reflexivity.
  - intros s1 pt H. exact H.
  - intros s1 (evs & Htr & Hn).
    destruct (update_embed_trace server s1) as (evs' & Htr' & Hq).
    exists (evs ++ EvCallUpdateEmbed server :: evs')%list.
    rewrite Htr', Htr, <- app_assoc. split; [reflexivity|].
    rewrite count_app, Hn. change (EvCallUpdateEmbed server :: evs')
      with ([EvCallUpdateEmbed server] ++ evs')%list.
    rewrite count_app, (count_sync_detail is_open evs') by
      (exact Hq || (intros [] H; (discriminate H || reflexivity))).
    reflexivity.
  - exists []. rewrite app_nil_r. auto.
Qed.

End LineFacts.

(** ** Feeding lines to the Reconciler *)

Module Replay.
Import PyStr RunFacts LineFacts.

Lemma replay_cons line lines initial :
  replay (line :: lines) initial = replay lines (replay_step initial line).
Proof. reflexivity. Qed.

(** Feeding lines keeps the server tracked, with the replayed set and the
    log file and offset it had. *)
Lemma feed_lines_entry server lines : forall s entry,
  player_tracker s !! server = Some entry ->
  exists s',
    feed_lines server lines s = Ok tt s'
    /\ player_tracker s' !! server
       = Some (mkEntry (replay lines (players entry)) (log_file entry) (position entry)).
Proof.
  induction lines as [|line lines IH]; intros s entry Hp.
  - exists s. split; [reflexivity|]. rewrite Hp. destruct entry; reflexivity.
  - destruct (process_line_step server line s entry Hp) as (s1 & Hrun & Htr & _).
    cbn [feed_lines]. unfold bind. rewrite Hrun.
    destruct (IH s1 (mkEntry (replay_step (players entry) line) (log_file entry)
                             (position entry))) as (s' & Hfeed & Hentry).
    { rewrite Htr. apply lookup_insert_eq. }
    exists s'. split; [exact Hfeed|]. rewrite Hentry. reflexivity.
Qed.

End Replay.

(** ** C5, C8, C9: what one line triggers *)

Module LineEffects.
Import PyStr RunFacts SyncFacts StrFacts LineFacts.

Lemma has_keyword_truthy line : has_keyword_phrase line = true -> truthy line = true.
Proof. destruct line; [discriminate|reflexivity]. Qed.

Lemma no_sync_in_detail e : sync_detail e = true -> is_sync_call e = false.
Proof. destruct e; (discriminate || reflexivity). Qed.

Lemma no_mutation_in_detail e : sync_detail e = true -> is_set_mutation e = false.
Proof. destruct e; (discriminate || reflexivity). Qed.

Lemma no_discard_in_detail e : sync_detail e = true -> is_discard e = false.
Proof. destruct e; (discriminate || reflexivity). Qed.

(** The events of a line that is not an event line. *)
Lemma ignored_events server line s :
  classify line = Ignore ->
  process_line server line s
  = Ok tt (with_trace (trace s ++ [if truthy line
                                   then EvLog DEBUG (MsgNewLogEntry server (strip line))
                                   else EvSleep 500]) s).
Proof.
  intros Hc. destruct (truthy line) eqn:Ht.
  - apply process_line_ignore; assumption.
  - apply truthy_false in Ht. subst line. reflexivity.
Qed.

(** An event line is not empty. *)
Lemma event_line_truthy line : classify line <> Ignore -> truthy line = true.
Proof. destruct line; [intros H; exfalso; apply H; reflexivity | reflexivity]. Qed.

(** On an untracked server the first mutation raises [KeyError]. *)
Lemma process_line_untracked server line s :
  classify line <> Ignore ->
  player_tracker s !! server = None ->
  process_line server line s
  = Raise (KeyError server)
      (with_trace (trace s ++ [EvLog DEBUG (MsgNewLogEntry server (strip line))]) s).
Proof.
  intros Hc Hp. rewrite process_line_eq by (apply event_line_truthy, Hc).
  destruct (classify line); [| |congruence]; run_monad; rewrite Hp; reflexivity.
Qed.

(** The mutations and sync calls among the events of any line. *)
Lemma line_counts server line s :
  let evs := new_events (process_line server line) s in
  count is_set_mutation evs <= 1
  /\ (count is_discard evs = 0 \/ exists name, classify line = Leave name)
  /\ (is_Some (player_tracker s !! server) ->
      count is_sync_call evs = match classify line with Ignore => 0 | _ => 1 end).
Proof.
  cbn zeta. destruct (classify line) as [name|name|] eqn:Hc.
  - destruct (player_tracker s !! server) as [entry|] eqn:Hp.
    + destruct (process_line_enter server line s entry name) as (s' & evs & Hrun & _ & _ & Htr & Hq);
        [apply event_line_truthy; congruence|exact Hc|exact Hp|].
      rewrite (new_events_app _ _ _ ltac:(rewrite Hrun; exact Htr)).
      rewrite !count_app, !(count_sync_detail _ evs) by
        first [exact no_sync_in_detail | exact no_mutation_in_detail
              | exact no_discard_in_detail | exact Hq].
      cbn. auto.
    + rewrite (new_events_app _ _ [EvLog DEBUG (MsgNewLogEntry server (strip line))])
        by (rewrite process_line_untracked by (congruence || assumption); reflexivity).
      cbn. split; [lia|split; [auto|intros [? [=]]]].
  - destruct (player_tracker s !! server) as [entry|] eqn:Hp.
    + destruct (process_line_leave server line s entry name) as (s' & evs & Hrun & _ & _ & Htr & Hq);
        [apply event_line_truthy; congruence|exact Hc|exact Hp|].
      rewrite (new_events_app _ _ _ ltac:(rewrite Hrun; exact Htr)).
      rewrite !count_app, !(count_sync_detail _ evs) by
        first [exact no_sync_in_detail | exact no_mutation_in_detail
              | exact no_discard_in_detail | exact Hq].
      cbn. eauto.
    + rewrite (new_events_app _ _ [EvLog DEBUG (MsgNewLogEntry server (strip line))])
        by (rewrite process_line_untracked by (congruence || assumption); reflexivity).
      cbn. split; [lia|split; [auto|intros [? [=]]]].
  - rewrite (new_events_app _ _ _ ltac:(rewrite ignored_events by exact Hc; reflexivity)).
    destruct (truthy line); cbn; auto.
Qed.

(** C5 as stated fails: PlayerA is present already, the enter line leaves
    the presence set as it is and [update_embed] is called all the same;
    likewise for a leave line of an absent actor. *)
Lemma C5_counterexample :
  ~ sync_only_on_change "survival" Sample.join_A Sample.s_present
  /\ ~ sync_only_on_change "survival" Sample.leave_A Sample.s_empty.
Proof.
  split; intros [_ Hnone].
  - assert (Hsame : ~ presence_changed "survival" Sample.join_A Sample.s_present).
    { intros Hc. apply Hc. vm_compute. reflexivity. }
    specialize (Hnone Hsame). vm_compute in Hnone. discriminate.
  - assert (Hsame : ~ presence_changed "survival" Sample.leave_A Sample.s_empty).
    { intros Hc. apply Hc. vm_compute. reflexivity. }
    specialize (Hnone Hsame). vm_compute in Hnone. discriminate.
Qed.

(** C5, as the code has it: on a tracked server a line causes exactly one
    call of the display sync when it is an enter or a leave line, whether
    or not the presence set changes, and none otherwise; so every change
    of the presence set comes with exactly one sync call. *)
Theorem C5_one_sync_per_event_line server line s entry :
  player_tracker s !! server = Some entry ->
  sync_calls server line s = match classify line with Ignore => 0 | _ => 1 end
  /\ (presence_changed server line s -> sync_calls server line s = 1).
Proof.
  intros Hp. destruct (line_counts server line s) as (_ & _ & Hsync).
  specialize (Hsync (ex_intro _ entry Hp)). unfold sync_calls. split; [exact Hsync|].
  intros Hch. rewrite Hsync. destruct (classify line) eqn:Hc; [reflexivity..|].
  exfalso. apply Hch. rewrite ignored_events by exact Hc. reflexivity.
Qed.

Lemma C5_one_sync_per_event_line_witness :
  sync_calls "survival" Sample.join_A Sample.s_present = 1
  /\ sync_calls "survival" Sample.done_line Sample.s_present = 0.
Proof.
  split.
  - exact (proj1 (C5_one_sync_per_event_line "survival" Sample.join_A Sample.s_present
                    _ eq_refl)).
  - exact (proj1 (C5_one_sync_per_event_line "survival" Sample.done_line Sample.s_present
                    _ eq_refl)).
Defined.

(** C8 as stated fails: the line has the enter phrase and no name can be
    extracted (no separator before the name); nothing is logged at warning
    level. *)
Lemma C8_counterexample :
  has_keyword_phrase Sample.no_separator = true
  /\ classify Sample.no_separator = Ignore
  /\ ~ logged_at_warning "survival" Sample.no_separator Sample.s_empty.
Proof.
  split; [reflexivity|split; [reflexivity|]].
  unfold logged_at_warning. vm_compute. discriminate.
Qed.

(** C8, as the code has it: a line with an enter or leave keyword phrase
    from which no name is extracted is skipped without a warning; the turn
    returns, the only trace of the line is the debug record every line
    gets, the state is otherwise unchanged, so the presence set stays and
    no sync is called. *)
Theorem C8_unextractable_line_skipped server line s :
  has_keyword_phrase line = true ->
  classify line = Ignore ->
  process_line server line s
  = Ok tt (with_trace (trace s ++ [EvLog DEBUG (MsgNewLogEntry server (strip line))]) s)
  /\ presence server (state_of (process_line server line s)) = presence server s
  /\ sync_calls server line s = 0
  /\ ~ logged_at_warning server line s.
Proof.
  intros Hk Hc. pose proof (process_line_ignore server line s (has_keyword_truthy _ Hk) Hc) as Hrun.
  assert (Hev : new_events (process_line server line) s
                = [EvLog DEBUG (MsgNewLogEntry server (strip line))]).
  { apply new_events_app. rewrite Hrun. reflexivity. }
  split; [exact Hrun|]. split; [rewrite Hrun; reflexivity|].
  unfold sync_calls, logged_at_warning. rewrite Hev. split; [reflexivity|]. cbn. discriminate.
Qed.

Lemma C8_unextractable_line_skipped_witness :
  presence "survival" (state_of (process_line "survival" Sample.no_separator Sample.s_present))
  = presence "survival" Sample.s_present
  /\ sync_calls "survival" Sample.no_separator Sample.s_present = 0.
Proof.
  destruct (C8_unextractable_line_skipped "survival" Sample.no_separator Sample.s_present
              eq_refl eq_refl) as (_ & Hpres & Hsync & _).
  split; [exact Hpres | exact Hsync].
Defined.

(** C9: a line that has the enter phrase and a leave phrase goes through
    the enter branch only: the turn is the debug record followed by the
    enter branch, no discard is performed, and at most one mutation of the
    presence set takes place. *)
Theorem C9_enter_takes_precedence server line s :
  contains "joined the game" line = true ->
  contains "left the game" line || contains "lost connection" line = true ->
  process_line server line s
  = (log DEBUG (MsgNewLogEntry server (strip line));;
     match Re.search_joined line with
     | Some group1 =>
         players_add server (strip group1);;
         update_embed server;;
         log INFO (MsgJoined (strip group1) server)
     | None => ret tt
     end)%py s
  /\ count is_discard (new_events (process_line server line) s) = 0
  /\ count is_set_mutation (new_events (process_line server line) s) <= 1.
Proof.
  intros Hj Hl. split; [|split].
  - unfold process_line. rewrite Hj.
    destruct line; [discriminate|]. reflexivity.
  - destruct (line_counts server line s) as (_ & [H0 | [name Hleave]] & _); [exact H0|].
    unfold classify in Hleave. rewrite Hj in Hleave.
    destruct (Re.search_joined line); discriminate.
  - apply line_counts.
Qed.

Lemma C9_enter_takes_precedence_witness :
  count is_discard (new_events (process_line "survival" Sample.both_phrases) Sample.s_present) = 0
  /\ count is_set_mutation
       (new_events (process_line "survival" Sample.both_phrases) Sample.s_present) <= 1.
Proof.
  exact (proj2 (C9_enter_takes_precedence "survival" Sample.both_phrases Sample.s_present
                  eq_refl eq_refl)).
Defined.

End LineEffects.

(** ** C6, C7, C10: the display sync *)

Module SyncClaims.
Import RunFacts SyncFacts.

(** C10: while the channel is not cached a sync returns at once: a warning
    is logged, no card is sent or edited, the binding mapping, the binding
    file, the channel, the presence sets and the offsets are unchanged. *)
Theorem C10_uncached_sync_changes_nothing server s :
  channel_cache s = None ->
  update_embed server s
  = Ok tt (with_trace (trace s ++ [EvCallUpdateEmbed server;
                                   EvLog WARNING (MsgChannelNotCached server)]) s)
  /\ new_events (update_embed server) s
     = [EvCallUpdateEmbed server; EvLog WARNING (MsgChannelNotCached server)]
  /\ embed_tracker (state_of (update_embed server s)) = embed_tracker s
  /\ embed_ids_file (state_of (update_embed server s)) = embed_ids_file s
  /\ channel_messages (state_of (update_embed server s)) = channel_messages s
  /\ next_message_id (state_of (update_embed server s)) = next_message_id s
  /\ player_tracker (state_of (update_embed server s)) = player_tracker s.
Proof.
  intros Hc. pose proof (update_embed_not_cached server s Hc) as Hrun.
  split; [exact Hrun|]. split.
  - apply new_events_app. rewrite Hrun. reflexivity.
  - rewrite Hrun. repeat split.
Qed.

Lemma C10_uncached_sync_changes_nothing_witness :
  new_events (update_embed "survival") Sample.s_uncached
  = [EvCallUpdateEmbed "survival"; EvLog WARNING (MsgChannelNotCached "survival")]
  /\ embed_ids_file (state_of (update_embed "survival" Sample.s_uncached))
     = Some {["survival" := 100%Z]}.
Proof.
  destruct (C10_uncached_sync_changes_nothing "survival" Sample.s_uncached eq_refl)
    as (_ & Hev & _ & Hfile & _).
  split; [exact Hev | exact Hfile].
Defined.

(** C7: the bound card is reported not found: a new card is sent, the
    entry of the server in the binding mapping becomes the new identifier,
    the mapping is written to the binding file; the other bindings stay and
    the servers that are bound are the same as before. *)
Theorem C7_missing_card_is_replaced server s ch entry id :
  channel_cache s = Some ch ->
  player_tracker s !! server = Some entry ->
  embed_tracker s !! server = Some id ->
  channel_messages s !! id = None ->
  let embed := make_embed server (players entry) in
  let new := next_message_id s in
  exists s',
    update_embed server s = Ok tt s'
    /\ new_events (update_embed server) s
       = [EvCallUpdateEmbed server; EvFetchMessage id;
          EvLog WARNING (MsgEmbedNotFound server);
          EvSend embed new; EvWriteEmbedIds (<[server := new]> (embed_tracker s));
          EvLog INFO MsgEmbedIdsSaved]
    /\ channel_messages s' !! new = Some embed
    /\ embed_tracker s' = <[server := new]> (embed_tracker s)
    /\ embed_tracker s' !! server = Some new
    /\ (forall other, other <> server -> embed_tracker s' !! other = embed_tracker s !! other)
    /\ dom (embed_tracker s') = dom (embed_tracker s)
    /\ embed_ids_file s' = Some (embed_tracker s').
Proof.
  intros Hc Hp He Hm embed new.
  pose proof (update_embed_replace server s ch entry id Hc Hp He Hm) as Hrun.
  cbn zeta in Hrun. eexists. split; [exact Hrun|]. split.
  { apply new_events_app. rewrite Hrun. reflexivity. }
  run_monad. split; [apply lookup_insert_eq|]. split; [reflexivity|].
  split; [apply lookup_insert_eq|]. split.
  { intros other Hne. apply lookup_insert_ne. congruence. }
  split; [|reflexivity].
  rewrite dom_insert_L. apply elem_of_dom_2 in He.
  apply subseteq_union_1_L, singleton_subseteq_l, He.
Qed.

Lemma C7_missing_card_is_replaced_witness :
  exists s',
    update_embed "survival" Sample.s_deleted = Ok tt s'
    /\ embed_tracker s' !! "survival" = Some 101%Z
    /\ embed_ids_file s' = Some (embed_tracker s').
Proof.
  destruct (C7_missing_card_is_replaced "survival" Sample.s_deleted 7%Z
              (mkEntry {["PlayerA"]} Sample.log_path 0) 100%Z
              eq_refl eq_refl eq_refl eq_refl)
    as (s' & Hrun & _ & _ & _ & Hbound & _ & _ & Hfile).
  exists s'. split; [exact Hrun|]. split; [exact Hbound | exact Hfile].
Defined.

(** A sync of a server whose bound card already shows the embed of the
    current presence state: one fetch, one edit, nothing changes. *)
Lemma update_embed_settled server s ch entry id :
  channel_cache s = Some ch ->
  player_tracker s !! server = Some entry ->
  embed_tracker s !! server = Some id ->
  channel_messages s !! id = Some (make_embed server (players entry)) ->
  exists s',
    update_embed server s = Ok tt s'
    /\ new_events (update_embed server) s
       = [EvCallUpdateEmbed server; EvFetchMessage id;
          EvEdit id (make_embed server (players entry));
          EvLog INFO (MsgUpdatedEmbed server)]
    /\ embed_tracker s' = embed_tracker s
    /\ embed_ids_file s' = embed_ids_file s
    /\ next_message_id s' = next_message_id s
    /\ channel_messages s' = channel_messages s.
Proof.
  intros Hc Hp He Hm.
  pose proof (update_embed_edit server s ch entry id _ Hc Hp He Hm) as Hrun.
  cbn zeta in Hrun. eexists. split; [exact Hrun|].
  split; [apply new_events_app; rewrite Hrun; reflexivity|].
  run_monad. repeat (split; [reflexivity|]). apply insert_id, Hm.
Qed.

(** Whatever the first sync of a tracked server had to do (edit, replace a
    missing card, create the first card), it leaves the server bound to a
    card that shows the embed of the presence state, so that a second sync
    on the same state only edits. *)
Lemma sync_again_only_edits server s ch entry :
  channel_cache s = Some ch ->
  player_tracker s !! server = Some entry ->
  let embed := make_embed server (players entry) in
  exists s1 s2 id,
    update_embed server s = Ok tt s1
    /\ update_embed server s1 = Ok tt s2
    /\ embed_tracker s1 !! server = Some id
    /\ new_events (update_embed server) s1
       = [EvCallUpdateEmbed server; EvFetchMessage id; EvEdit id embed;
          EvLog INFO (MsgUpdatedEmbed server)]
    /\ embed_tracker s2 = embed_tracker s1
    /\ embed_ids_file s2 = embed_ids_file s1
    /\ next_message_id s2 = next_message_id s1
    /\ channel_messages s2 = channel_messages s1.
Proof.
  intros Hc Hp embed.
  assert (Hthen : forall s1 id,
             update_embed server s = Ok tt s1 ->
             channel_cache s1 = Some ch -> player_tracker s1 !! server = Some entry ->
             embed_tracker s1 !! server = Some id ->
             channel_messages s1 !! id = Some embed ->
             exists s1 s2 id,
               update_embed server s = Ok tt s1
               /\ update_embed server s1 = Ok tt s2
               /\ embed_tracker s1 !! server = Some id
               /\ new_events (update_embed server) s1
                  = [EvCallUpdateEmbed server; EvFetchMessage id; EvEdit id embed;
                     EvLog INFO (MsgUpdatedEmbed server)]
               /\ embed_tracker s2 = embed_tracker s1
               /\ embed_ids_file s2 = embed_ids_file s1
               /\ next_message_id s2 = next_message_id s1
               /\ channel_messages s2 = channel_messages s1).
  { intros s1 id Hrun1 Hc1 Hp1 He1 Hm1.
    destruct (update_embed_settled server s1 ch entry id Hc1 Hp1 He1 Hm1)
      as (s2 & Hrun2 & Hrest).
    exists s1, s2, id. auto. }
  destruct (embed_tracker s !! server) as [id|] eqn:He.
  - destruct (channel_messages s !! id) as [old|] eqn:Hm.
    + pose proof (update_embed_edit server s ch entry id old Hc Hp He Hm) as Hrun1.
      cbn zeta in Hrun1. apply (Hthen _ id Hrun1); run_monad;
        first [assumption | apply lookup_insert_eq].
    + pose proof (update_embed_replace server s ch entry id Hc Hp He Hm) as Hrun1.
      cbn zeta in Hrun1. apply (Hthen _ (next_message_id s) Hrun1); run_monad;
        first [assumption | apply lookup_insert_eq].
  - pose proof (update_embed_create server s ch entry Hc Hp He) as Hrun1.
    cbn zeta in Hrun1. apply (Hthen _ (next_message_id s) Hrun1); run_monad;
      first [assumption | apply lookup_insert_eq].
Qed.

(** C6: with the channel cached and the server bound, two syncs in a row on
    the same presence state: the second one fetches and edits the card that
    is bound after the first, creates no card and changes neither the
    binding, the binding file nor what the channel shows; and when the bound
    card exists, the first one does the same, so that both calls edit the
    already-bound message, no card is created and the binding stays. *)
Theorem C6_sync_twice_edits_in_place server s ch entry id :
  channel_cache s = Some ch ->
  player_tracker s !! server = Some entry ->
  embed_tracker s !! server = Some id ->
  let embed := make_embed server (players entry) in
  let edits_of target :=
    [EvCallUpdateEmbed server; EvFetchMessage target; EvEdit target embed;
     EvLog INFO (MsgUpdatedEmbed server)] in
  exists s1 s2 bound,
    update_embed server s = Ok tt s1
    /\ update_embed server s1 = Ok tt s2
    /\ embed_tracker s1 !! server = Some bound
    /\ new_events (update_embed server) s1 = edits_of bound
    /\ count is_send (new_events (update_embed server) s1) = 0
    /\ embed_tracker s2 = embed_tracker s1
    /\ embed_ids_file s2 = embed_ids_file s1
    /\ channel_messages s1 !! bound = Some embed
    /\ channel_messages s2 = channel_messages s1
    /\ player_tracker s2 = player_tracker s
    /\ (is_Some (channel_messages s !! id) ->
        bound = id
        /\ new_events (update_embed server) s = edits_of id
        /\ count is_send (new_events (update_embed server) s) = 0
        /\ embed_tracker s1 = embed_tracker s
        /\ embed_ids_file s1 = embed_ids_file s
        /\ dom (channel_messages s2) = dom (channel_messages s)
        /\ next_message_id s2 = next_message_id s).
Proof.
  intros Hc Hp He embed edits_of.
  destruct (sync_again_only_edits server s ch entry Hc Hp)
    as (s1 & s2 & bound & Hrun1 & Hrun2 & Hbound & Hev2 & Htr2 & Hfile2 & Hnext2 & Hmsgs2).
  fold embed in Hev2.
  destruct (update_embed_frame server s entry Hp) as (s1' & evs1 & Hrun1' & Hpt1 & Hcc1 & _).
  rewrite Hrun1 in Hrun1'. injection Hrun1' as <-.
  assert (Hp1 : player_tracker s1 !! server = Some entry) by (rewrite Hpt1; exact Hp).
  destruct (update_embed_frame server s1 entry Hp1) as (s2' & evs2 & Hrun2' & Hpt2 & _).
  rewrite Hrun2 in Hrun2'. injection Hrun2' as <-.
  exists s1, s2, bound. split; [exact Hrun1|]. split; [exact Hrun2|].
  split; [exact Hbound|]. split; [exact Hev2|]. split; [rewrite Hev2; reflexivity|].
  split; [exact Htr2|]. split; [exact Hfile2|]. split.
  { destruct (embed_tracker s !! server) as [id0|] eqn:He0; [|discriminate].
    injection He as ->. destruct (channel_messages s !! id) as [old|] eqn:Hm.
    - rewrite (update_embed_edit server s ch entry id old Hc Hp He0 Hm) in Hrun1.
      injection Hrun1 as <-. run_monad. rewrite He0 in Hbound. injection Hbound as <-.
      apply lookup_insert_eq.
    - rewrite (update_embed_replace server s ch entry id Hc Hp He0 Hm) in Hrun1.
      injection Hrun1 as <-. run_monad. rewrite lookup_insert_eq in Hbound.
      injection Hbound as <-. apply lookup_insert_eq. }
  split; [exact Hmsgs2|]. split; [rewrite Hpt2, Hpt1; reflexivity|].
  intros [old Hm].
  pose proof (update_embed_edit server s ch entry id old Hc Hp He Hm) as Hedit.
  cbn zeta in Hedit. fold embed in Hedit.
  assert (Hev1 : new_events (update_embed server) s = edits_of id).
  { apply new_events_app. rewrite Hedit. reflexivity. }
  rewrite Hedit in Hrun1. injection Hrun1 as <-. run_monad.
  rewrite He in Hbound. injection Hbound as <-.
  split; [reflexivity|]. split; [exact Hev1|]. split; [rewrite Hev1; reflexivity|].
  split; [reflexivity|]. split; [reflexivity|].
  rewrite Hmsgs2, Hnext2. run_monad. split; [|reflexivity].
  rewrite dom_insert_L. apply elem_of_dom_2 in Hm.
  apply subseteq_union_1_L, singleton_subseteq_l, Hm.
Qed.

Lemma C6_sync_twice_edits_in_place_witness :
  exists s1 s2,
    update_embed "survival" Sample.s_present = Ok tt s1
    /\ update_embed "survival" s1 = Ok tt s2
    /\ embed_tracker s1 !! "survival" = Some 100%Z
    /\ embed_tracker s2 = embed_tracker s1
    /\ channel_messages s2 = channel_messages s1.
Proof.
  destruct (C6_sync_twice_edits_in_place "survival" Sample.s_present 7%Z
              (mkEntry {["PlayerA"]} Sample.log_path 0) 100%Z
              eq_refl eq_refl eq_refl)
    as (s1 & s2 & bound & Hrun1 & Hrun2 & Hbound & _ & _ & Hbind & _ & _ & Hshow & _ & Hexists).
  destruct (Hexists (ex_intro _ Sample.card_A eq_refl)) as (-> & _).
  exists s1, s2. repeat split; assumption.
Defined.

End SyncClaims.

(** ** C2, C3, C4: the tailer *)

Module Tailer.
Import PyStr RunFacts SyncFacts LineFacts StrFacts.

(** *** Texts *)

Lemma drop_past n : forall s, String.length s <= n -> drop n s = "".
Proof.
  induction n as [|n IH]; intros [|c s] Hlen; cbn in *; try reflexivity; try lia.
  apply IH. lia.
Qed.

Lemma drop_length n : forall s,
  n <= String.length s -> n + String.length (drop n s) = String.length s.
Proof.
  induction n as [|n IH]; intros [|c s] Hlen; cbn in *; try reflexivity; try lia.
  rewrite IH by lia. reflexivity.
Qed.

Lemma length_drop n : forall s, String.length (drop n s) = String.length s - n.
Proof.
  induction n as [|n IH]; intros [|c s]; cbn [drop String.length]; try lia.
  rewrite IH. lia.
Qed.

Lemma drop_app_length s t : drop (String.length s) (s ++ t) = t.
Proof. induction s as [|c s IH]; [destruct t; reflexivity | exact IH]. Qed.

Lemma drop_drop a : forall b s, drop a (drop b s) = drop (b + a) s.
Proof.
  intros b. induction b as [|b IH]; intros s; [reflexivity|].
  destruct s as [|c s]; [destruct a; reflexivity|]. cbn [drop Nat.add]. apply IH.
Qed.

Lemma drop_app_le n : forall a b,
  n <= String.length a -> drop n (a ++ b) = drop n a ++ b.
Proof.
  induction n as [|n IH]; intros [|c a] b Hle; cbn [String.length] in Hle;
    try reflexivity; try lia.
  rewrite app_cons. cbn [drop]. apply IH. lia.
Qed.

Lemma length_app s t : String.length (s ++ t) = String.length s + String.length t.
Proof. induction s as [|c s IH]; [reflexivity|]. rewrite app_cons. cbn. rewrite IH. reflexivity. Qed.

Lemma app_empty_r s : s ++ "" = s.
Proof. induction s as [|c s IH]; [reflexivity|]. rewrite app_cons, IH. reflexivity. Qed.

Lemma app_is_empty s t : s ++ t = "" -> s = "" /\ t = "".
Proof. destruct s; [auto|discriminate]. Qed.

Lemma take_drop n : forall s, take n s ++ drop n s = s.
Proof.
  induction n as [|n IH]; intros [|c s]; try reflexivity.
  cbn [take drop]. rewrite app_cons, IH. reflexivity.
Qed.

Lemma take_empty n s : take (S n) s = "" -> s = "".
Proof. destruct s; [reflexivity|discriminate]. Qed.

Lemma no_LF_app a b : no_LF (a ++ b) = no_LF a && no_LF b.
Proof.
  induction a as [|c a IH]; [reflexivity|]. rewrite app_cons. cbn [no_LF].
  rewrite IH, andb_assoc. reflexivity.
Qed.

Lemma take_line_no_LF s : no_LF s = true -> take_line s = s.
Proof.
  induction s as [|c s IH]; [reflexivity|]. cbn [no_LF take_line].
  intros [Hc Hs]%andb_true_iff. apply negb_true_iff in Hc. rewrite Hc, (IH Hs). reflexivity.
Qed.

Lemma take_line_eq c r :
  take_line (String c r)
  = if Ascii.eqb c LF then String c EmptyString else String c (take_line r).
Proof. reflexivity. Qed.

(** A line that ends in the buffer does not depend on what follows. *)
Lemma take_line_app a b : no_LF a = false -> take_line (a ++ b) = take_line a.
Proof.
  induction a as [|c a IH]; [discriminate|]. rewrite app_cons, !take_line_eq. cbn [no_LF].
  destruct (Ascii.eqb c LF); [reflexivity|]. cbn [negb andb]. intros H.
  rewrite (IH H). reflexivity.
Qed.

Lemma take_line_terminated body more :
  no_LF body = true -> take_line (body ++ nl ++ more) = body ++ nl.
Proof.
  induction body as [|c body IH]; [reflexivity|].
  cbn [no_LF]. intros [Hc Hb]%andb_true_iff. apply negb_true_iff in Hc.
  rewrite !(app_cons c body). cbn [take_line]. rewrite Hc, (IH Hb). reflexivity.
Qed.

Lemma length_take_line s : String.length (take_line s) <= String.length s.
Proof.
  induction s as [|c s IH]; [reflexivity|].
  cbn [take_line]. destruct (Ascii.eqb c LF); cbn [String.length]; lia.
Qed.

Lemma take_line_empty s : take_line s = "" -> s = "".
Proof. destruct s as [|c s]; [reflexivity|]. cbn. destruct (Ascii.eqb c LF); discriminate. Qed.

Lemma split_lines_eq c r :
  split_lines (String c r)
  = if Ascii.eqb c LF then String c EmptyString :: split_lines r
    else match split_lines r with
         | [] => [String c EmptyString]
         | l :: ls => String c l :: ls
         end.
Proof. reflexivity. Qed.

(** The first piece of a text is what [readline] returns, the other pieces
    are those of the text behind it. *)
Lemma split_lines_cons r : forall c,
  split_lines (String c r)
  = take_line (String c r)
      :: split_lines (drop (String.length (take_line (String c r))) (String c r)).
Proof.
  induction r as [|d r IH]; intros c.
  - cbn. destruct (Ascii.eqb c LF); reflexivity.
  - rewrite (split_lines_eq c), (take_line_eq c).
    destruct (Ascii.eqb c LF) eqn:Hc; [reflexivity|].
    rewrite (IH d). reflexivity.
Qed.

(** *** The buffer *)

Lemma fill_eq fuel chunk content start buffer :
  fill (S fuel) chunk content start buffer
  = if no_LF buffer then
      match raw_read chunk content (start + String.length buffer) with
      | EmptyString => buffer
      | data => fill fuel chunk content start (buffer ++ data)
      end
    else buffer.
Proof. reflexivity. Qed.

(** A buffer that holds a line feed is not filled. *)
Lemma fill_full fuel chunk content start buffer :
  no_LF buffer = false -> fill fuel chunk content start buffer = buffer.
Proof. intros H. destruct fuel; cbn [fill]; rewrite H; reflexivity. Qed.

(** Nothing is read from a file that ends before the text that is
    buffered. *)
Lemma fill_at_end fuel chunk content start buffer :
  String.length content <= start + String.length buffer ->
  fill fuel chunk content start buffer = buffer.
Proof.
  intros H. destruct fuel; cbn [fill]; destruct (no_LF buffer); try reflexivity.
  unfold raw_read. rewrite drop_past by exact H. reflexivity.
Qed.

(** With enough reads the buffer ends up with a line feed or with all of the
    file, and what the handle will hand out is what it would have handed
    out before. *)
Lemma fill_spec chunk content start : forall fuel buffer,
  String.length content - (start + String.length buffer) < fuel ->
  let b := fill fuel chunk content start buffer in
  b ++ drop (start + String.length b) content
  = buffer ++ drop (start + String.length buffer) content
  /\ (no_LF b = false \/ drop (start + String.length b) content = "").
Proof.
  induction fuel as [|fuel IH]; intros buffer Hfuel; [lia|].
  cbn zeta. rewrite fill_eq. destruct (no_LF buffer) eqn:Hlf; [|auto].
  unfold raw_read.
  destruct (take (S chunk) (drop (start + String.length buffer) content)) as [|c d] eqn:Hd.
  - apply take_empty in Hd. auto.
  - set (data := String c d) in *.
    assert (Hsplit : data ++ drop (String.length data) (drop (start + String.length buffer) content)
                     = drop (start + String.length buffer) content).
    { rewrite <- Hd at 2.
      assert (Hlen : forall n s, drop (String.length (take n s)) s = drop n s).
      { clear. induction n as [|n IHn]; intros [|c s]; try reflexivity. cbn. apply IHn. }
      rewrite <- (take_drop (S chunk) (drop (start + String.length buffer) content)) at 3.
      rewrite Hlen, Hd. reflexivity. }
    assert (Hpos : start + String.length buffer < String.length content).
    { destruct (Nat.lt_ge_cases (start + String.length buffer) (String.length content))
        as [Hlt|Hge]; [exact Hlt|].
      rewrite (drop_past _ _ Hge) in Hd. discriminate. }
    destruct (IH (buffer ++ data)) as [Heq Hend].
    { rewrite length_app. unfold data. cbn [String.length]. lia. }
    split; [|exact Hend]. rewrite Heq, length_app, app_assoc', Nat.add_assoc.
    rewrite <- drop_drop, Hsplit. reflexivity.
Qed.

(** More reads than needed change nothing. *)
Lemma fill_enough chunk content start : forall fuel1 fuel2 buffer,
  String.length content - (start + String.length buffer) < fuel1 ->
  String.length content - (start + String.length buffer) < fuel2 ->
  fill fuel1 chunk content start buffer = fill fuel2 chunk content start buffer.
Proof.
  induction fuel1 as [|fuel1 IH]; intros [|fuel2] buffer H1 H2; try lia.
  rewrite !fill_eq. destruct (no_LF buffer); [|reflexivity].
  unfold raw_read.
  destruct (take (S chunk) (drop (start + String.length buffer) content)) as [|c d] eqn:Hd;
    [reflexivity|].
  assert (Hpos : start + String.length buffer < String.length content).
  { destruct (Nat.lt_ge_cases (start + String.length buffer) (String.length content))
      as [Hlt|Hge]; [exact Hlt|].
    rewrite (drop_past _ _ Hge) in Hd. discriminate. }
  apply IH; rewrite length_app; cbn [String.length]; lia.
Qed.

(** *** [readline] *)

(** The line is the first line of what the handle holds and the file has
    behind it; the handle moves behind the line. *)
Lemma readline_spec chunk content f :
  fst (readline chunk content f) = take_line (stream content f)
  /\ h_path (snd (readline chunk content f)) = h_path f
  /\ h_pos (snd (readline chunk content f))
     = h_pos f + String.length (take_line (stream content f))
  /\ stream content (snd (readline chunk content f))
     = drop (String.length (take_line (stream content f))) (stream content f).
Proof.
  unfold readline, stream. cbn [fst snd h_path h_pos h_buffer].
  set (b := fill (S (String.length content)) chunk content (h_pos f) (h_buffer f)).
  destruct (fill_spec chunk content (h_pos f) (S (String.length content)) (h_buffer f))
    as [Heq Hend]; [lia|]. cbn zeta in Heq, Hend. fold b in Heq, Hend.
  assert (Hline : take_line b
                  = take_line (h_buffer f
                               ++ drop (h_pos f + String.length (h_buffer f)) content)).
  { rewrite <- Heq. destruct Hend as [Hlf|Hd].
    - rewrite (take_line_app _ _ Hlf). reflexivity.
    - rewrite Hd, app_empty_r. reflexivity. }
  rewrite <- Hline. split; [reflexivity|]. split; [reflexivity|]. split; [reflexivity|].
  pose proof (length_take_line b) as Hle.
  rewrite length_drop, <- Heq, (drop_app_le _ _ _ Hle). f_equal. f_equal. lia.
Qed.

Lemma readline_handle chunk content f :
  snd (readline chunk content f)
  = mkHandle (h_path f) (h_pos f + String.length (fst (readline chunk content f)))
             (h_buffer (snd (readline chunk content f))).
Proof. reflexivity. Qed.

(** When the line is all that was left, nothing stays in the buffer. *)
Lemma readline_to_the_end chunk content f :
  drop (String.length (take_line (stream content f))) (stream content f) = "" ->
  snd (readline chunk content f)
  = mkHandle (h_path f) (h_pos f + String.length (take_line (stream content f))) "".
Proof.
  intros Hd. destruct (readline_spec chunk content f) as (Hline & _ & _ & Hstream).
  rewrite Hd in Hstream. unfold stream in Hstream at 1. apply app_is_empty in Hstream.
  rewrite readline_handle, Hline, (proj1 Hstream). reflexivity.
Qed.

(** On a file that ends before the text that is buffered, the line comes
    from the buffer alone. *)
Lemma readline_truncated chunk content f :
  String.length content <= h_pos f + String.length (h_buffer f) ->
  readline chunk content f
  = (take_line (h_buffer f),
     mkHandle (h_path f) (h_pos f + String.length (take_line (h_buffer f)))
              (drop (String.length (take_line (h_buffer f))) (h_buffer f))).
Proof. intros H. unfold readline. rewrite (fill_at_end _ _ _ _ _ H). reflexivity. Qed.

Lemma handle_same f : mkHandle (h_path f) (h_pos f + 0) (h_buffer f) = f.
Proof. destruct f. cbn. rewrite Nat.add_0_r. reflexivity. Qed.

(** *** Turns *)

(** A turn with nothing buffered on a file that ends at or before the
    offset: nothing is read, the loop sleeps, the handle stays as it is. *)
Lemma iteration_idle chunk server content f s :
  h_buffer f = "" ->
  String.length content <= h_pos f ->
  monitor_iteration chunk server content f s = Ok f (with_trace (trace s ++ [EvSleep 500]) s).
Proof.
  intros Hb Hlen. unfold monitor_iteration.
  rewrite readline_truncated by (rewrite Hb; cbn; lia). rewrite Hb. cbn [fst snd take_line drop String.length].
  unfold bind. rewrite process_line_empty. unfold ret.
  rewrite <- Hb, handle_same. reflexivity.
Qed.

(** A turn on a tracked server: the line goes to the Reconciler, the handle
    moves behind it, the entry of the server keeps its log file and its
    stored offset. *)
Lemma iteration_step chunk server content f s entry :
  player_tracker s !! server = Some entry ->
  let line := fst (readline chunk content f) in
  exists s',
    process_line server line s = Ok tt s'
    /\ monitor_iteration chunk server content f s = Ok (snd (readline chunk content f)) s'
    /\ player_tracker s' !! server
       = Some (mkEntry (replay_step (players entry) line) (log_file entry) (position entry)).
Proof.
  intros Hp line. unfold monitor_iteration, bind. fold line.
  destruct (process_line_step server line s entry Hp) as (s' & Hrun & Htr & _).
  rewrite Hrun. exists s'. split; [reflexivity|]. split; [reflexivity|].
  rewrite Htr. apply lookup_insert_eq.
Qed.

(** The monitor opens latest.log in the directory of the recorded log file
    and starts at the stored offset, with nothing buffered. *)
Lemma monitor_open_handle server s entry :
  player_tracker s !! server = Some entry ->
  let path := PyPath.join (PyPath.dirname (log_file entry)) ["latest.log"] in
  monitor_open server true s
  = Ok (mkHandle path (position entry) "")
       (with_trace (trace s ++ [EvLog INFO (MsgStartingMonitor server); EvOpen path;
                                EvSeek (position entry)]) s).
Proof.
  intros Hp path. unfold monitor_open. run_monad. rewrite Hp. run_monad. rewrite Hp.
  run_monad. flatten_trace. reflexivity.
Qed.

(** The offset recorded at startup is the length of the log at that time,
    whatever the previous process had read. *)
Lemma startup_offset channel SERVER_DIR server file s :
  exists s',
    startup channel SERVER_DIR [(server, true, Some file)] s = Ok [server] s'
    /\ player_tracker s' !! server
       = Some (mkEntry ∅ (PyPath.join SERVER_DIR [server; "logs"; "latest.log"])
                       (String.length file)).
Proof.
  unfold startup, on_ready, initialize_players, initialize_server, load_embed_ids.
  set (entry := mkEntry ∅ (PyPath.join SERVER_DIR [server; "logs"; "latest.log"])
                        (String.length file)).
  run_monad.
  destruct (embed_ids_file s), channel; run_monad;
    match goal with |- context [update_embed server ?s1] =>
      destruct (update_embed_frame server s1 entry) as (s' & evs & Hrun & Htr & _);
        [apply lookup_insert_eq|];
      rewrite Hrun; eexists; (split; [reflexivity|]); run_monad; rewrite Htr;
      apply lookup_insert_eq
    end.
Qed.

Lemma count_sleeps p n : p (EvSleep 500) = false -> count p (repeat (EvSleep 500) n) = 0.
Proof.
  intros Hp. unfold count. induction n as [|n IH]; [reflexivity|].
  cbn [repeat List.filter]. rewrite Hp. exact IH.
Qed.

(** The loop of a monitor opens no file, whatever it reads. *)
Lemma loop_never_opens chunk server snapshots : forall f s,
  exists evs,
    trace (state_of (monitor_loop chunk server snapshots f s)) = (trace s ++ evs)%list
    /\ count is_open evs = 0.
Proof.
  induction snapshots as [|content rest IH]; intros f s.
  - exists []. rewrite app_nil_r. auto.
  - cbn [monitor_loop]. unfold bind at 1. unfold monitor_iteration, bind, ret.
    destruct (process_line_never_opens server (fst (readline chunk content f)) s)
      as (evs1 & Htr1 & Hn1).
    destruct (process_line server (fst (readline chunk content f)) s) as [[] s1|e s1];
      cbn [state_of] in *.
    + destruct (IH (snd (readline chunk content f)) s1) as (evs2 & Htr2 & Hn2).
      exists (evs1 ++ evs2)%list. rewrite Htr2, Htr1, <- app_assoc, count_app, Hn1, Hn2. auto.
    + exists evs1. auto.
Qed.

(** With nothing buffered, the loop only sleeps as long as the file ends at
    or before the offset. *)
Lemma loop_idle chunk server snapshots f : forall s,
  h_buffer f = "" ->
  Forall (fun content => String.length content <= h_pos f) snapshots ->
  monitor_loop chunk server snapshots f s
  = Ok f (with_trace (trace s ++ repeat (EvSleep 500) (List.length snapshots)) s).
Proof.
  intros s Hb. revert s. induction snapshots as [|content rest IH]; intros s Hall.
  - cbn. unfold ret. rewrite app_nil_r, with_trace_same. reflexivity.
  - inversion Hall as [|? ? Hlen Hrest]; subst.
    cbn [monitor_loop]. unfold bind. rewrite (iteration_idle _ _ _ _ _ Hb Hlen).
    rewrite (IH _ Hrest). run_monad. flatten_trace. reflexivity.
Qed.

(** As long as the file ends before the text that is buffered, the loop
    hands out the buffered lines and then sleeps. *)
Lemma loop_truncated chunk server snapshots : forall f s entry,
  player_tracker s !! server = Some entry ->
  Forall (fun content => String.length content <= h_pos f + String.length (h_buffer f))
         snapshots ->
  let served := firstn (List.length snapshots) (split_lines (h_buffer f)) in
  exists f' s1,
    feed_lines server served s = Ok tt s1
    /\ monitor_loop chunk server snapshots f s
       = Ok f' (with_trace
                  (trace s1 ++ repeat (EvSleep 500) (List.length snapshots - List.length served))
                  s1)
    /\ h_path f' = h_path f
    /\ h_pos f <= h_pos f'
    /\ h_pos f' + String.length (h_buffer f') = h_pos f + String.length (h_buffer f)
    /\ (h_buffer f = "" -> f' = f /\ s1 = s).
Proof.
  induction snapshots as [|content rest IH]; intros f s entry Hp Hall; cbn zeta.
  - exists f, s. cbn. unfold ret. rewrite app_nil_r, with_trace_same. auto 10.
  - destruct (h_buffer f) as [|c r] eqn:Hb.
    + exists f, s. cbn [split_lines firstn List.length feed_lines]. rewrite Nat.sub_0_r.
      split; [reflexivity|]. split; [|repeat split; try rewrite Hb; auto].
      apply loop_idle; [exact Hb|]. eapply Forall_impl; [exact Hall|].
      intros x Hx. cbn beta in Hx. cbn [String.length] in Hx. lia.
    + inversion Hall as [|? ? Hlen Hrest]; subst.
      rewrite split_lines_cons. set (line := take_line (String c r)).
      cbn [List.length firstn].
      destruct (process_line_step server line s entry Hp) as (sa & Hrun & Htr & _).
      set (f1 := mkHandle (h_path f) (h_pos f + String.length line)
                          (drop (String.length line) (String c r))).
      pose proof (length_take_line (String c r)) as Hle. fold line in Hle.
      assert (Hraw : h_pos f1 + String.length (h_buffer f1)
                     = h_pos f + String.length (String c r)).
      { unfold f1. cbn [h_pos h_buffer]. rewrite length_drop. lia. }
      destruct (IH f1 sa (mkEntry (replay_step (players entry) line) (log_file entry)
                                  (position entry)))
        as (f' & s1 & Hfeed & Hloop & Hpath & Hpos & Hsum & _).
      { rewrite Htr. apply lookup_insert_eq. }
      { rewrite Hraw. exact Hrest. }
      exists f', s1. split; [|split; [|split; [|split; [|split]]]].
      * cbn [feed_lines]. unfold bind. rewrite Hrun. exact Hfeed.
      * cbn [monitor_loop]. unfold bind at 1. unfold monitor_iteration.
        rewrite readline_truncated by (rewrite Hb; exact Hlen). rewrite Hb.
        cbn [fst snd]. fold line.
        unfold bind at 1. rewrite Hrun. unfold ret at 1. fold f1.
        cbn [h_buffer f1] in Hloop. rewrite Hloop. cbn [Nat.sub]. reflexivity.
      * exact Hpath.
      * unfold f1 in Hpos. cbn [h_pos] in Hpos. lia.
      * rewrite Hsum, Hraw. reflexivity.
      * discriminate.
Qed.

(** C2 as stated fails: the file behind the handle was replaced by a
    shorter one that holds a complete join line, and nothing is left in the
    buffer; after the turn the handle is still at its old offset, beyond the
    end of the file. *)
Lemma C2_counterexample :
  truncated Sample.join_B Sample.f_far
  /\ plain_text Sample.join_B = true
  /\ ~ reopened_at_start Sample.chunk "survival" Sample.join_B Sample.f_far Sample.s_empty.
Proof.
  split; [unfold truncated; vm_compute; lia|]. split; [reflexivity|].
  intros (f' & s' & Hrun & Hle).
  rewrite iteration_idle in Hrun by (reflexivity || (vm_compute; lia)).
  injection Hrun as <- _. vm_compute in Hle. lia.
Qed.

(** C2, as the code has it: while the file behind the handle of a tracked
    server is shorter than the handle's offset, the loop hands the lines
    that are still in its buffer to the Reconciler, one per turn, and from
    then on every turn reads nothing and sleeps.  No error is raised, no
    file is opened, the handle keeps its path and its offset is not set
    back; what the shorter file holds is not looked at.  With nothing
    buffered, the handle and the state, but for the sleeps, stay as they
    are. *)
Theorem C2_truncated_file_is_only_polled chunk server snapshots f s entry :
  player_tracker s !! server = Some entry ->
  plain_text (h_buffer f) = true ->
  Forall (fun content => truncated content f) snapshots ->
  let served := firstn (List.length snapshots) (split_lines (h_buffer f)) in
  exists f' s1,
    feed_lines server served s = Ok tt s1
    /\ monitor_loop chunk server snapshots f s
       = Ok f' (with_trace
                  (trace s1 ++ repeat (EvSleep 500) (List.length snapshots - List.length served))
                  s1)
    /\ h_path f' = h_path f
    /\ h_pos f <= h_pos f'
    /\ count is_open (new_events (monitor_loop chunk server snapshots f) s) = 0
    /\ (h_buffer f = "" -> f' = f /\ s1 = s).
Proof.
  intros Hp _ Hall. cbn zeta.
  destruct (loop_truncated chunk server snapshots f s entry Hp)
    as (f' & s1 & Hfeed & Hloop & Hpath & Hpos & _ & Hidle).
  { eapply Forall_impl; [exact Hall|]. intros content Ht. unfold truncated in Ht.
    cbn beta. lia. }
  exists f', s1. repeat (split; [assumption|]). split; [|exact Hidle].
  destruct (loop_never_opens chunk server snapshots f s) as (evs & Htr & Hn).
  rewrite (new_events_app _ _ evs Htr). exact Hn.
Qed.

Lemma C2_truncated_file_is_only_polled_witness :
  exists f' s1,
    feed_lines "survival" [Sample.leave_A] Sample.s_present = Ok tt s1
    /\ monitor_loop Sample.chunk "survival"
         [Sample.join_B; (Sample.join_B ++ Sample.join_A)%string; Sample.join_B]
         Sample.f_far_buffered Sample.s_present
       = Ok f' (with_trace (trace s1 ++ [EvSleep 500; EvSleep 500]) s1)
    /\ h_path f' = Sample.log_path
    /\ 300 <= h_pos f'.
Proof.
  destruct (C2_truncated_file_is_only_polled Sample.chunk "survival"
              [Sample.join_B; (Sample.join_B ++ Sample.join_A)%string; Sample.join_B]
              Sample.f_far_buffered Sample.s_present
              (mkEntry {["PlayerA"]} Sample.log_path 0) eq_refl eq_refl)
    as (f' & s1 & Hfeed & Hloop & Hpath & Hpos & _).
  - repeat constructor; unfold truncated; vm_compute; lia.
  - exists f', s1. repeat split; assumption.
Defined.

(** C3 as stated fails: a line is consumed and the stored offset of the
    server is not the position behind it; and a process started when the
    log holds the processed line and an unprocessed one begins behind
    both. *)
Lemma C3_counterexample :
  plain_text (Sample.join_A ++ Sample.join_B) = true
  /\ fst (readline Sample.chunk Sample.join_A Sample.f_start) = Sample.join_A
  /\ ~ offset_advanced Sample.chunk "survival" Sample.join_A Sample.f_start Sample.s_empty
  /\ ~ resumes_at_or_before (String.length Sample.join_A) (Some 7%Z) Sample.server_dir
        "survival" (Sample.join_A ++ Sample.join_B) Sample.s_after_A.
Proof.
  split; [reflexivity|]. split; [reflexivity|]. split.
  - intros (f' & s' & Hrun & Hoff).
    destruct (iteration_step Sample.chunk "survival" Sample.join_A Sample.f_start
                Sample.s_empty _ eq_refl) as (s1 & _ & Hrun1 & Hentry).
    rewrite Hrun1 in Hrun. injection Hrun as <- <-.
    unfold stored_offset in Hoff. rewrite Hentry in Hoff. vm_compute in Hoff. discriminate.
  - intros (offset & Hoff & Hle). unfold restart_offset, stored_offset in Hoff.
    destruct (startup_offset (Some 7%Z) Sample.server_dir "survival"
                (Sample.join_A ++ Sample.join_B) (fresh_process Sample.s_after_A))
      as (s' & Hrun & Hentry).
    rewrite Hrun in Hoff. cbn [state_of] in Hoff. rewrite Hentry in Hoff.
    cbn in Hoff. injection Hoff as <-. vm_compute in Hle. lia.
Qed.

(** What a turn leaves on disk: the binding file as it was, or the binding
    mapping. *)
Lemma process_line_file server line s :
  let s' := state_of (process_line server line s) in
  embed_ids_file s' = embed_ids_file s \/ embed_ids_file s' = Some (embed_tracker s').
Proof.
  apply (process_line_invariant
           (fun s' => embed_ids_file s' = embed_ids_file s
                      \/ embed_ids_file s' = Some (embed_tracker s')) server).
  - intros s1 e _ _ H. exact H.
  - intros s1 pt H. exact H.
  - intros s1 H. unfold update_embed. run_monad.
    destruct (channel_cache s1); run_monad; [|exact H].
    destruct (player_tracker s1 !! server); run_monad; [|exact H].
    destruct (embed_tracker s1 !! server) as [id|]; run_monad; [|right; reflexivity].
    destruct (channel_messages s1 !! id); run_monad; [|right; reflexivity].
    destruct (channel_messages s1 !! id); run_monad; [exact H|right; reflexivity].
  - left. reflexivity.
Qed.

(** C3, as the code has it, on plain text: when a line of a tracked server
    is consumed, the offset of the open file advances past it; the stored
    offset of the server keeps the value it got at startup, and what the
    turn leaves on disk is the binding file as it was or the binding mapping
    of message identifiers.  A new process sets the stored offset to the
    length in bytes the log has at its start, whatever state the previous
    process ended in, so lines written while no process ran are not read. *)
Theorem C3_only_the_handle_advances chunk server content f s entry channel SERVER_DIR file s0 :
  player_tracker s !! server = Some entry ->
  plain_text content = true ->
  plain_text (h_buffer f) = true ->
  (exists f' s',
      monitor_iteration chunk server content f s = Ok f' s'
      /\ fst (readline chunk content f) = take_line (stream content f)
      /\ h_pos f' = h_pos f + String.length (fst (readline chunk content f))
      /\ stored_offset server s' = Some (position entry)
      /\ (embed_ids_file s' = embed_ids_file s \/ embed_ids_file s' = Some (embed_tracker s')))
  /\ restart_offset channel SERVER_DIR server file s0 = Some (String.length file).
Proof.
  intros Hp _ _. split.
  - destruct (iteration_step chunk server content f s entry Hp) as (s' & Hline & Hrun & Hentry).
    exists (snd (readline chunk content f)), s'. split; [exact Hrun|].
    split; [apply readline_spec|]. split; [reflexivity|]. split.
    + unfold stored_offset. rewrite Hentry. reflexivity.
    + pose proof (process_line_file server (fst (readline chunk content f)) s) as Hfile.
      cbn zeta in Hfile. rewrite Hline in Hfile. exact Hfile.
  - unfold restart_offset, stored_offset.
    destruct (startup_offset channel SERVER_DIR server file (fresh_process s0))
      as (s' & Hrun & Hentry).
    rewrite Hrun. cbn [state_of]. rewrite Hentry. reflexivity.
Qed.

Lemma C3_only_the_handle_advances_witness :
  (exists f' s',
      monitor_iteration Sample.chunk "survival" Sample.join_A Sample.f_start Sample.s_empty
      = Ok f' s'
      /\ h_pos f' = 57
      /\ stored_offset "survival" s' = Some 0)
  /\ restart_offset (Some 7%Z) Sample.server_dir "survival"
       (Sample.join_A ++ Sample.join_B) Sample.s_after_A = Some 114.
Proof.
  destruct (C3_only_the_handle_advances Sample.chunk "survival" Sample.join_A Sample.f_start
              Sample.s_empty (mkEntry ∅ Sample.log_path 0) (Some 7%Z) Sample.server_dir
              (Sample.join_A ++ Sample.join_B) Sample.s_after_A eq_refl eq_refl eq_refl)
    as ((f' & s' & Hrun & _ & Hpos & Hoff & _) & Hrestart).
  split; [|exact Hrestart].
  exists f', s'. split; [exact Hrun|]. split; [exact Hpos|exact Hoff].
Defined.

(** C4 as stated fails: the file ends in a join line without terminator;
    the turn consumes it and PlayerA is added.  And when the file ends
    inside the keyword phrase, the two parts are consumed as two lines and
    the join is lost, although the complete line is an enter line. *)
Lemma C4_counterexample :
  plain_text (Sample.cut_join ++ Sample.cut_rest) = true
  /\ no_LF Sample.partial_join = true
  /\ ~ withheld Sample.chunk "survival" Sample.partial_join Sample.f_start Sample.s_empty
  /\ presence "survival"
       (state_of (monitor_iteration Sample.chunk "survival" Sample.partial_join
                    Sample.f_start Sample.s_empty))
     = Some {["PlayerA"]}
  /\ classify (Sample.cut_join ++ Sample.cut_rest) = Enter "PlayerA"
  /\ presence "survival"
       (state_of (monitor_loop Sample.chunk "survival"
                    [Sample.cut_join; (Sample.cut_join ++ Sample.cut_rest)%string]
                    Sample.f_start Sample.s_empty))
     = Some ∅.
Proof.
  split; [reflexivity|]. split; [reflexivity|]. split; [|split; [|split]].
  - intros (f' & s' & Hrun & Hpos & _).
    destruct (iteration_step Sample.chunk "survival" Sample.partial_join Sample.f_start
                Sample.s_empty _ eq_refl) as (s1 & _ & Hrun1 & _).
    rewrite Hrun1 in Hrun. injection Hrun as <- _. vm_compute in Hpos. discriminate.
  - vm_compute. reflexivity.
  - vm_compute. reflexivity.
  - vm_compute. reflexivity.
Qed.

(** C4, as the code has it, on plain text: when the text the handle has
    buffered and the file holds behind it has no line terminator, [readline]
    returns all of it; the turn hands it to the Reconciler like a complete
    line and moves the handle behind it, leaving nothing buffered, so that
    whatever is appended afterwards is read as a line of its own.  Nothing
    is yielded only when there is no text at all behind the handle. *)
Theorem C4_partial_line_is_consumed chunk server content f s entry :
  plain_text content = true ->
  plain_text (h_buffer f) = true ->
  no_LF (stream content f) = true ->
  player_tracker s !! server = Some entry ->
  let partial := stream content f in
  let f' := mkHandle (h_path f) (h_pos f + String.length partial) "" in
  fst (readline chunk content f) = partial
  /\ monitor_iteration chunk server content f s = (process_line server partial;; ret f')%py s
  /\ (exists s',
        monitor_iteration chunk server content f s = Ok f' s'
        /\ presence server s' = Some (replay_step (players entry) partial))
  /\ (forall more,
        plain_text more = true ->
        h_pos f + String.length (h_buffer f) <= String.length content ->
        fst (readline chunk (content ++ more) f') = take_line more).
Proof.
  intros _ _ Hno Hp partial f'.
  assert (Htake : take_line (stream content f) = partial) by (apply take_line_no_LF, Hno).
  assert (Hread : fst (readline chunk content f) = partial).
  { rewrite (proj1 (readline_spec chunk content f)). exact Htake. }
  assert (Hsnd : snd (readline chunk content f) = f').
  { rewrite readline_to_the_end; rewrite Htake; [reflexivity|].
    apply drop_past. reflexivity. }
  split; [exact Hread|]. split; [|split].
  - unfold monitor_iteration. rewrite Hread, Hsnd. reflexivity.
  - destruct (iteration_step chunk server content f s entry Hp) as (s' & _ & Hrun & Hentry).
    rewrite Hread in Hentry. rewrite Hsnd in Hrun. exists s'. split; [exact Hrun|].
    unfold presence. rewrite Hentry. reflexivity.
  - intros more _ Hlen. rewrite (proj1 (readline_spec chunk (content ++ more) f')).
    f_equal. unfold stream, f'. cbn [h_buffer h_pos String.length].
    change ("" ++ ?x) with x. rewrite Nat.add_0_r.
    unfold partial, stream. rewrite length_app, length_drop.
    replace (h_pos f + (String.length (h_buffer f)
                        + (String.length content - (h_pos f + String.length (h_buffer f)))))
      with (String.length content) by lia.
    apply drop_app_length.
Qed.

Lemma C4_partial_line_is_consumed_witness :
  fst (readline Sample.chunk Sample.partial_join Sample.f_start) = Sample.partial_join
  /\ exists s',
      monitor_iteration Sample.chunk "survival" Sample.partial_join Sample.f_start
        Sample.s_empty
      = Ok (mkHandle Sample.log_path 56 "") s'
      /\ presence "survival" s' = Some (replay_step ∅ Sample.partial_join).
Proof.
  destruct (C4_partial_line_is_consumed Sample.chunk "survival" Sample.partial_join
              Sample.f_start Sample.s_empty (mkEntry ∅ Sample.log_path 0)
              eq_refl eq_refl eq_refl eq_refl)
    as (Hread & _ & Hrun & _).
  split; [exact Hread | exact Hrun].
Defined.

End Tailer.

(** ** The functions on sample inputs *)

Module Tests.
Import PyStr Re Sample.

Example search_joined_plain : search_joined join_A = Some "PlayerA".
Proof. reflexivity. Qed.

Example search_joined_no_separator : search_joined no_separator = None.
Proof. reflexivity. Qed.

Example search_joined_greedy :
  search_joined ": a joined the game: b joined the game" = Some "a joined the game: b".
Proof. reflexivity. Qed.

Example search_left_last_phrase :
  search_left "x: Bob lost connection: Bob left the game" = Some "Bob lost connection: Bob".
Proof. reflexivity. Qed.

Example search_left_lost : search_left lost_B = Some "PlayerB".
Proof. reflexivity. Qed.

Example search_needs_one_character :
  search_joined ":  joined the game" = None /\ search_joined ":   joined the game" = Some " ".
Proof. split; reflexivity. Qed.

Example strip_both_sides : strip ("  Bob " ++ nl) = "Bob".
Proof. reflexivity. Qed.

Example classify_samples :
  List.map classify [join_A; leave_A; lost_B; done_line; no_separator; both_phrases; ""]
  = [Enter "PlayerA"; Leave "PlayerA"; Leave "PlayerB"; Ignore; Ignore; Enter "PlayerC";
     Ignore].
Proof. reflexivity. Qed.

Example log_path_is_joined :
  PyPath.join server_dir ["survival"; "logs"; "latest.log"] = log_path.
Proof. reflexivity. Qed.

Example monitor_path_is_log_path :
  PyPath.join (PyPath.dirname log_path) ["latest.log"] = log_path.
Proof. reflexivity. Qed.

Example dirname_cases :
  PyPath.dirname "latest.log" = "" /\ PyPath.dirname "/latest.log" = "/"
  /\ PyPath.dirname "a//b" = "a".
Proof. repeat split; reflexivity. Qed.

Example readline_lines :
  let f1 := snd (readline chunk (join_A ++ leave_A) f_start) in
  let f2 := snd (readline chunk (join_A ++ leave_A) f1) in
  fst (readline chunk (join_A ++ leave_A) f_start) = join_A
  /\ f1 = mkHandle log_path 57 leave_A
  /\ fst (readline chunk (join_A ++ leave_A) f1) = leave_A
  /\ f2 = mkHandle log_path 112 ""
  /\ readline chunk (join_A ++ leave_A) f2 = ("", f2).
Proof. repeat split; reflexivity. Qed.

(** Reads of eight bytes: the buffer holds the rest of the last read. *)
Example readline_small_reads :
  readline 7 (join_A ++ leave_A) f_start = (join_A, mkHandle log_path 57 "[12:00:").
Proof. reflexivity. Qed.

(** The lines buffered before the file was replaced by a shorter one are
    still handed out. *)
Example readline_after_truncation :
  let f1 := snd (readline chunk (join_A ++ leave_A) f_start) in
  readline chunk join_B f1 = (leave_A, mkHandle log_path 112 "")
  /\ fst (readline chunk join_B (mkHandle log_path 112 "")) = "".
Proof. split; reflexivity. Qed.

(** Join, leave and an unrelated line on a fresh server: the card is created
    by the first sync and edited by the second, the third line triggers
    nothing. *)
Example join_leave_done :
  List.map (fun e => is_sync_call e || is_send e)
    (new_events (feed_lines "survival" [join_A; leave_A; done_line]) s_empty)
  = [false; false; true; true; false; false; false;
     false; false; true; false; false; false; false;
     false]
  /\ presence "survival" (state_of (feed_lines "survival" [join_A; leave_A; done_line] s_empty))
     = Some ∅.
Proof. split; vm_compute; reflexivity. Qed.

End Tests.

(** ** The path of the log file *)

Module PathProps.
Import PyStr PyPath StrFacts.

Lemma logs_not_empty P : exists c r, P ++ "logs" = String c r.
Proof. destruct P as [|c P]; [exists "l"%char, "ogs" | exists c, (P ++ "logs")]; reflexivity. Qed.

Lemma ends_with_slash_logs P : ends_with_slash (P ++ "logs") = false.
Proof.
  induction P as [|c P IH]; [reflexivity|].
  rewrite app_cons. destruct (logs_not_empty P) as (d & r & Hr).
  rewrite Hr in IH |- *. exact IH.
Qed.

Lemma truthy_logs P : truthy (P ++ "logs") = true.
Proof. destruct (logs_not_empty P) as (d & r & ->). reflexivity. Qed.

(** Joining a file name onto a directory that ends in [logs]. *)
Lemma join2_logs P name :
  startswith "/" name = false -> join2 (P ++ "logs") name = (P ++ "logs") ++ "/" ++ name.
Proof.
  intros Hn. unfold join2. rewrite Hn, truthy_logs, ends_with_slash_logs. reflexivity.
Qed.

Lemma join2_onto_logs X : exists P, join2 X "logs" = P ++ "logs".
Proof.
  unfold join2. cbn [startswith String.prefix].
  destruct (Ascii.ascii_dec "/" "l"); [discriminate|].
  destruct (negb (truthy X) || ends_with_slash X).
  - exists X. reflexivity.
  - exists (X ++ "/"). rewrite app_assoc'. reflexivity.
Qed.

Lemma has_slash_app a b : has_slash (a ++ b) = has_slash a || has_slash b.
Proof.
  induction a as [|c a IH]; [destruct b; reflexivity|].
  rewrite app_cons. cbn [has_slash]. rewrite IH, orb_assoc. reflexivity.
Qed.

Lemma head_of_last_slash a t : has_slash t = false -> head_of (a ++ "/" ++ t) = a ++ "/".
Proof.
  intros Ht. induction a as [|c a IH].
  - change ("" ++ "/" ++ t) with (String slash t). cbn [head_of]. rewrite Ht. reflexivity.
  - rewrite !(app_cons c a). cbn [head_of]. rewrite has_slash_app.
    change (has_slash ("/" ++ t)) with (true || has_slash t). cbn [orb].
    rewrite orb_true_r, IH. reflexivity.
Qed.

Lemma all_slashes_logs P : all_slashes (P ++ "logs" ++ "/") = false.
Proof.
  induction P as [|c P IH]; [reflexivity|].
  rewrite (app_cons c P). cbn [all_slashes]. rewrite IH. apply andb_false_r.
Qed.

Lemma rstrip_slashes_logs P : rstrip_slashes (P ++ "logs" ++ "/") = P ++ "logs".
Proof.
  induction P as [|c P IH]; [reflexivity|].
  rewrite !(app_cons c P). cbn [rstrip_slashes]. rewrite IH.
  destruct (logs_not_empty P) as (d & r & ->). reflexivity.
Qed.

Lemma dirname_in_logs P name :
  has_slash name = false -> dirname ((P ++ "logs") ++ "/" ++ name) = P ++ "logs".
Proof.
  intros Hn. unfold dirname. rewrite (head_of_last_slash _ _ Hn), app_assoc'.
  rewrite all_slashes_logs, rstrip_slashes_logs.
  destruct (logs_not_empty P) as (d & r & Hr).
  replace (truthy (P ++ "logs" ++ "/")) with true; [reflexivity|].
  destruct P; reflexivity.
Qed.

(** The path [monitor_player_activity] computes from the recorded log file
    is the recorded log file. *)
Lemma monitor_path SERVER_DIR server :
  let log_file := PyPath.join SERVER_DIR [server; "logs"; "latest.log"] in
  PyPath.join (dirname log_file) ["latest.log"] = log_file.
Proof.
  cbn zeta. unfold PyPath.join. cbn [fold_left].
  destruct (join2_onto_logs (join2 SERVER_DIR server)) as (P & ->).
  rewrite (join2_logs P "latest.log") by reflexivity.
  rewrite (dirname_in_logs P "latest.log") by reflexivity.
  apply join2_logs. reflexivity.
Qed.

(** X1: for every server directory and server name, the file that
    [monitor_player_activity] opens (latest.log joined onto the directory
    name of the recorded log file) is the very file whose length
    [initialize_players] recorded, and it lies in a directory named logs. *)
Theorem X1_monitor_opens_the_recorded_file SERVER_DIR server :
  let log_file := PyPath.join SERVER_DIR [server; "logs"; "latest.log"] in
  PyPath.join (dirname log_file) ["latest.log"] = log_file
  /\ exists P, dirname log_file = P ++ "logs" /\ log_file = P ++ "logs/latest.log".
Proof.
  split; [apply monitor_path|].
  cbn zeta. unfold PyPath.join. cbn [fold_left].
  destruct (join2_onto_logs (join2 SERVER_DIR server)) as (P & ->).
  rewrite (join2_logs P "latest.log") by reflexivity.
  exists P. split; [apply (dirname_in_logs P "latest.log"); reflexivity|].
  rewrite app_assoc'. reflexivity.
Qed.

End PathProps.

(** ** Tailing a log *)

Module TailProps.
Import PyStr RunFacts StrFacts LineFacts Tailer.

Lemma split_lines_empty s : split_lines s = [] -> s = "".
Proof. destruct s as [|c r]; [reflexivity|]. rewrite split_lines_cons. discriminate. Qed.

(** Polling a log that does not change: the lines of the text the handle
    holds and the file has behind it, then sleeps. *)
Lemma loop_static chunk server content : forall n f s entry,
  player_tracker s !! server = Some entry ->
  List.length (split_lines (stream content f)) <= n ->
  exists s1,
    feed_lines server (split_lines (stream content f)) s = Ok tt s1
    /\ monitor_loop chunk server (repeat content n) f s
       = Ok (mkHandle (h_path f) (h_pos f + String.length (stream content f)) "")
            (with_trace
               (trace s1 ++ repeat (EvSleep 500)
                                   (n - List.length (split_lines (stream content f))))
               s1)
    /\ presence server s1 = Some (replay (split_lines (stream content f)) (players entry)).
Proof.
  induction n as [|n IH]; intros f s entry Hp Hn.
  - assert (Hd : stream content f = "").
    { apply split_lines_empty. destruct (split_lines (stream content f)); [reflexivity|].
      cbn in Hn. lia. }
    rewrite Hd. exists s. split; [reflexivity|]. split.
    + cbn. unfold ret. rewrite app_nil_r, with_trace_same.
      unfold stream in Hd. apply app_is_empty in Hd. destruct Hd as [Hb _].
      destruct f as [path pos buffer]. cbn in *. subst buffer. rewrite Nat.add_0_r.
      reflexivity.
    + unfold presence. rewrite Hp. reflexivity.
  - destruct (readline_spec chunk content f) as (Hline & Hpath & Hpos & Hstream).
    destruct (iteration_step chunk server content f s entry Hp) as (sa & Hrun & Hturn & Hentry).
    cbn zeta in Hrun, Hentry. rewrite Hline in Hrun, Hentry.
    set (f1 := snd (readline chunk content f)) in *.
    destruct (stream content f) as [|c r] eqn:Hd.
    + cbn [take_line drop String.length] in *.
      destruct (IH f1 sa (mkEntry (replay_step (players entry) "") (log_file entry)
                                  (position entry)) Hentry) as (s1 & Hfeed & Hloop & _).
      { rewrite Hstream. cbn. lia. }
      rewrite Hstream in Hfeed, Hloop. cbn [split_lines feed_lines List.length] in Hfeed, Hloop.
      injection Hfeed as <-. rewrite process_line_empty in Hrun. injection Hrun as <-.
      exists s. split; [reflexivity|]. split.
      * cbn [repeat monitor_loop split_lines List.length]. unfold bind at 1.
        rewrite Hturn, Hloop, Hpath, Hpos. run_monad. flatten_trace.
        rewrite !Nat.add_0_r, Nat.sub_0_r. reflexivity.
      * unfold presence. rewrite Hp. reflexivity.
    + rewrite split_lines_cons in Hn |- *. set (line := take_line (String c r)) in *.
      pose proof (length_take_line (String c r)) as Hle. fold line in Hle.
      destruct (IH f1 sa (mkEntry (replay_step (players entry) line) (log_file entry)
                                  (position entry)) Hentry) as (s1 & Hfeed & Hloop & Hpres).
      { rewrite Hstream. cbn [List.length] in Hn. lia. }
      rewrite Hstream in Hfeed, Hloop, Hpres. rewrite Hpath, Hpos in Hloop.
      exists s1. split; [|split].
      * cbn [feed_lines]. unfold bind. rewrite Hrun. exact Hfeed.
      * cbn [repeat monitor_loop]. unfold bind at 1. rewrite Hturn, Hloop.
        rewrite length_drop. cbn [List.length Nat.sub].
        replace (h_pos f + String.length line + (String.length (String c r) - String.length line))
          with (h_pos f + String.length (String c r)) by lia.
        reflexivity.
      * rewrite Hpres. reflexivity.
Qed.

(** X3: a monitor of a tracked server polls a log of plain text that does
    not change any more, for at least as many turns as there are lines in
    the text its handle has buffered and the log holds behind it: its effect
    is that of feeding these lines, each once and in order, to the
    Reconciler, followed by sleeps; the presence set is the replay of these
    lines, and the handle ends with nothing buffered, at the end of the log
    when what it had buffered came from this log. *)
Theorem X3_polling_a_log_feeds_its_lines chunk server content n f s entry :
  player_tracker s !! server = Some entry ->
  plain_text content = true ->
  plain_text (h_buffer f) = true ->
  List.length (split_lines (stream content f)) <= n ->
  let lines := split_lines (stream content f) in
  let f' := mkHandle (h_path f) (h_pos f + String.length (stream content f)) "" in
  exists s1,
    feed_lines server lines s = Ok tt s1
    /\ monitor_loop chunk server (repeat content n) f s
       = Ok f' (with_trace (trace s1 ++ repeat (EvSleep 500) (n - List.length lines)) s1)
    /\ presence server s1 = Some (replay lines (players entry))
    /\ (h_pos f + String.length (h_buffer f) <= String.length content ->
        h_pos f' = String.length content).
Proof.
  intros Hp _ _ Hn lines f'.
  destruct (loop_static chunk server content n f s entry Hp Hn) as (s1 & Hfeed & Hloop & Hpres).
  exists s1. repeat (split; [assumption|]).
  intros Hle. unfold f', stream. cbn [h_pos]. rewrite length_app, length_drop. lia.
Qed.

Lemma X3_polling_a_log_feeds_its_lines_witness :
  exists s1,
    feed_lines "survival" [Sample.join_A; Sample.join_B; Sample.leave_A] Sample.s_empty
    = Ok tt s1
    /\ monitor_loop Sample.chunk "survival"
         (repeat (Sample.join_A ++ Sample.join_B ++ Sample.leave_A)%string 5)
         Sample.f_start Sample.s_empty
       = Ok (mkHandle Sample.log_path 169 "")
            (with_trace (trace s1 ++ [EvSleep 500; EvSleep 500]) s1)
    /\ presence "survival" s1 = Some {["PlayerB"]}.
Proof.
  destruct (X3_polling_a_log_feeds_its_lines Sample.chunk "survival"
              (Sample.join_A ++ Sample.join_B ++ Sample.leave_A)%string 5
              Sample.f_start Sample.s_empty (mkEntry ∅ Sample.log_path 0)
              eq_refl eq_refl eq_refl)
    as (s1 & Hfeed & Hloop & Hpres & _).
  - vm_compute. lia.
  - exists s1. split; [exact Hfeed|]. split; [exact Hloop|].
    rewrite Hpres. vm_compute. reflexivity.
Defined.

(** X2: a process that starts when the log holds [content] does not replay
    it: the monitor opens the recorded file at the end of [content], with
    nothing buffered; a turn on the unchanged file reads nothing and sleeps;
    and once a terminated line of plain text has been appended the next
    turn hands exactly that line to the Reconciler and moves the handle
    behind it. *)
Theorem X2_history_is_not_replayed chunk channel SERVER_DIR server content line s :
  plain_text content = true ->
  plain_text line = true ->
  no_LF line = true ->
  let f := mkHandle (PyPath.join SERVER_DIR [server; "logs"; "latest.log"])
                    (String.length content) "" in
  exists s1 s2,
    startup channel SERVER_DIR [(server, true, Some content)] s = Ok [server] s1
    /\ monitor_open server true s1 = Ok f s2
    /\ monitor_iteration chunk server content f s2
       = Ok f (with_trace (trace s2 ++ [EvSleep 500]) s2)
    /\ monitor_iteration chunk server (content ++ line ++ nl) f s2
       = (process_line server (line ++ nl);;
          ret (mkHandle (h_path f) (String.length content + String.length (line ++ nl)) ""))%py
           s2.
Proof.
  intros _ _ Hline f.
  destruct (startup_offset channel SERVER_DIR server content s) as (s1 & Hstart & Hentry).
  pose proof (monitor_open_handle server s1 _ Hentry) as Hopen.
  cbn zeta in Hopen. cbn [log_file position] in Hopen.
  rewrite PathProps.monitor_path in Hopen.
  eexists s1, _. split; [exact Hstart|]. split; [exact Hopen|]. split.
  - apply iteration_idle; [reflexivity|]. cbn [h_pos f]. lia.
  - assert (Hs : stream (content ++ line ++ nl) f = line ++ nl).
    { unfold stream, f. cbn [h_buffer h_pos String.length]. rewrite Nat.add_0_r.
      apply drop_app_length. }
    assert (Htake : take_line (line ++ nl) = line ++ nl).
    { pose proof (take_line_terminated line "" Hline) as Htake.
      change (nl ++ "") with nl in Htake. exact Htake. }
    unfold monitor_iteration.
    rewrite (proj1 (readline_spec chunk (content ++ line ++ nl) f)), Hs, Htake.
    rewrite readline_to_the_end; rewrite Hs, Htake; [reflexivity|].
    apply drop_past. reflexivity.
Qed.

Lemma X2_history_is_not_replayed_witness :
  exists s1 s2,
    startup (Some 7%Z) Sample.server_dir [("survival", true, Some Sample.join_A)]
            (fresh_process Sample.s_present) = Ok ["survival"] s1
    /\ monitor_open "survival" true s1 = Ok (mkHandle Sample.log_path 57 "") s2
    /\ monitor_iteration Sample.chunk "survival" Sample.join_A (mkHandle Sample.log_path 57 "")
         s2
       = Ok (mkHandle Sample.log_path 57 "") (with_trace (trace s2 ++ [EvSleep 500]) s2).
Proof.
  destruct (X2_history_is_not_replayed Sample.chunk (Some 7%Z) Sample.server_dir "survival"
              Sample.join_A "[12:00:09] [Server thread/INFO]: PlayerB joined the game"
              (fresh_process Sample.s_present) eq_refl eq_refl eq_refl)
    as (s1 & s2 & Hstart & Hopen & Hidle & _).
  exists s1, s2. repeat split; assumption.
Defined.

End TailProps.

(** ** What the two patterns extract *)

Module Extraction.
Import PyStr Re RunFacts StrFacts LineFacts.

(** No keyword phrase behind the first character: the group cannot start
    here. *)
Lemma dot_plus_then_none tails c r :
  (forall t, In t tails -> contains t r = false) -> dot_plus_then tails (String c r) = None.
Proof.
  intros Hno. destruct (dot_plus_then tails (String c r)) as [g|] eqn:Hm; [|reflexivity].
  destruct (dot_plus_then_sound _ _ _ Hm) as (t & rest & Ht & Hs & Hne & _).
  destruct g as [|c' g]; [congruence|]. rewrite app_cons in Hs. injection Hs as _ Hr.
  assert (Hc : contains t r = true) by (apply contains_iff; exists g, rest; exact Hr).
  rewrite (Hno t Ht) in Hc. discriminate.
Qed.

(** The group is exactly [g] when no later phrase lets it grow. *)
Lemma dot_plus_then_exact tails g t rest :
  g <> "" -> no_LF g = true -> In t tails ->
  dot_plus_then tails (t ++ rest) = None ->
  dot_plus_then tails (g ++ t ++ rest) = Some g.
Proof.
  intros Hne Hlf Ht Hnone. induction g as [|c g IH]; [congruence|].
  cbn [no_LF] in Hlf. apply andb_true_iff in Hlf. destruct Hlf as [Hc Hlf].
  apply negb_true_iff in Hc. rewrite app_cons. cbn [dot_plus_then]. rewrite Hc.
  destruct g as [|d g].
  - change ("" ++ t ++ rest) with (t ++ rest). rewrite Hnone.
    replace (existsb (fun t0 => startswith t0 (t ++ rest)) tails) with true; [reflexivity|].
    symmetry. apply existsb_exists. exists t. split; [exact Ht|].
    apply startswith_iff. exists rest. reflexivity.
  - rewrite IH by (discriminate || exact Hlf). reflexivity.
Qed.

(** Text without the separator in front of the separator is skipped. *)
Lemma search_skips tails prefix u :
  contains ": " prefix = false -> search tails (prefix ++ ": " ++ u) = search tails (": " ++ u).
Proof.
  induction prefix as [|c p IH]; [reflexivity|].
  cbn [contains]. intros [Hstart Hrest]%orb_false_iff.
  rewrite app_cons. cbn [search].
  replace (match_here tails (String c (p ++ ": " ++ u))) with (@None string);
    [exact (IH Hrest)|].
  unfold match_here.
  replace (startswith ": " (String c (p ++ ": " ++ u))) with false; [reflexivity|].
  rewrite startswith_cons in Hstart |- *. destruct (Ascii.ascii_dec ":" c); [|reflexivity].
  destruct p as [|d p]; [reflexivity|].
  rewrite app_cons. rewrite startswith_cons in Hstart |- *.
  destruct (Ascii.ascii_dec " " d); [|reflexivity].
  rewrite startswith_empty in Hstart. discriminate.
Qed.

Lemma search_at_separator tails u g :
  dot_plus_then tails u = Some g -> search tails (": " ++ u) = Some g.
Proof.
  intros Hm. change (": " ++ u) with (String ":" (String " " u)).
  cbn [search]. unfold match_here.
  replace (startswith ": " (String ":" (String " " u))) with true
    by (rewrite !startswith_cons; cbn; rewrite startswith_empty; reflexivity).
  cbn [drop]. rewrite Hm. reflexivity.
Qed.

(** The group of a line that has one separator before the name and no
    keyword phrase behind the one that follows the name. *)
Lemma search_exact tails prefix name t rest :
  contains ": " prefix = false -> name <> "" -> no_LF name = true -> In t tails ->
  dot_plus_then tails (t ++ rest) = None ->
  search tails (prefix ++ ": " ++ name ++ t ++ rest) = Some name.
Proof.
  intros Hp Hne Hlf Ht Hnone. rewrite (search_skips _ _ _ Hp).
  apply search_at_separator, dot_plus_then_exact; assumption.
Qed.

Lemma contains_cons k c r : contains k (String c r) = startswith k (String c r) || contains k r.
Proof. reflexivity. Qed.

(** Scanning a text that starts with known characters for a phrase. *)
Ltac compare_chars :=
  repeat (rewrite startswith_cons;
          match goal with
          | |- context [Ascii.ascii_dec ?a ?b] =>
              destruct (Ascii.ascii_dec a b) as [Heq|Hne];
              [try discriminate Heq; clear Heq
              |try (exfalso; apply Hne; reflexivity); clear Hne];
              cbn [orb]
          end).
Ltac scan_phrase :=
  cbv [String.append];
  repeat (rewrite contains_cons; compare_chars; cbn [orb]).

Lemma no_joined_behind_joined rest :
  contains " joined the game" rest = false ->
  dot_plus_then joined_tails (" joined the game" ++ rest) = None.
Proof.
  intros Hrest. apply dot_plus_then_none. intros t [<-|[]].
  scan_phrase. exact Hrest.
Qed.

Lemma no_left_behind_left t rest :
  In t left_tails ->
  contains " left the game" rest = false ->
  contains " lost connection" rest = false ->
  dot_plus_then left_tails (t ++ rest) = None.
Proof.
  intros Ht Hleft Hlost.
  destruct Ht as [<-|[<-|[]]]; apply dot_plus_then_none; intros t' [<-|[<-|[]]];
    scan_phrase; assumption.
Qed.

Lemma presence_after_line server line s entry :
  player_tracker s !! server = Some entry ->
  exists s',
    process_line server line s = Ok tt s'
    /\ presence server s' = Some (replay_step (players entry) line).
Proof.
  intros Hp. destruct (process_line_step server line s entry Hp) as (s' & Hrun & Htr & _).
  exists s'. split; [exact Hrun|]. unfold presence. rewrite Htr, lookup_insert_eq. reflexivity.
Qed.

(** X4: a line made of any text without the separator, the separator
    [": "], a non-empty name without line feed, the phrase
    [" joined the game"] and a rest in which that phrase does not occur
    again (a join line of the server log): the pattern extracts exactly the
    name, and the turn adds the trimmed name to the presence set of a
    tracked server. *)
Theorem X4_join_line_adds_its_name server prefix name rest s entry :
  contains ": " prefix = false ->
  name <> "" ->
  no_LF name = true ->
  contains " joined the game" rest = false ->
  player_tracker s !! server = Some entry ->
  let line := prefix ++ ": " ++ name ++ " joined the game" ++ rest in
  search_joined line = Some name
  /\ exists s',
      process_line server line s = Ok tt s'
      /\ presence server s' = Some ({[strip name]} ∪ players entry).
Proof.
  intros Hprefix Hne Hlf Hrest Hp line.
  assert (Hsearch : search_joined line = Some name).
  { apply search_exact; [assumption..|left; reflexivity|].
    apply no_joined_behind_joined, Hrest. }
  split; [exact Hsearch|].
  destruct (presence_after_line server line s entry Hp) as (s' & Hrun & Hpres).
  exists s'. split; [exact Hrun|]. rewrite Hpres. unfold replay_step, classify.
  rewrite Hsearch. reflexivity.
Qed.

Lemma X4_join_line_adds_its_name_witness :
  search_joined Sample.join_B = Some "PlayerB"
  /\ exists s',
      process_line "survival" Sample.join_B Sample.s_present = Ok tt s'
      /\ presence "survival" s' = Some ({["PlayerB"]} ∪ {["PlayerA"]}).
Proof.
  exact (X4_join_line_adds_its_name "survival" "[12:00:09] [Server thread/INFO]" "PlayerB" nl
           Sample.s_present (mkEntry {["PlayerA"]} Sample.log_path 0)
           eq_refl ltac:(discriminate) eq_refl eq_refl eq_refl).
Defined.

(** X5: the same for a leave line: separator, name, one of the phrases
    [" left the game"] and [" lost connection"], and a rest in which neither
    phrase occurs again; when the line does not hold the enter phrase, the
    pattern extracts exactly the name and the turn discards the trimmed name
    from the presence set of a tracked server. *)
Theorem X5_leave_line_discards_its_name server prefix name phrase rest s entry :
  contains ": " prefix = false ->
  name <> "" ->
  no_LF name = true ->
  In phrase [" left the game"; " lost connection"] ->
  contains " left the game" rest = false ->
  contains " lost connection" rest = false ->
  contains "joined the game" (prefix ++ ": " ++ name ++ phrase ++ rest) = false ->
  player_tracker s !! server = Some entry ->
  let line := prefix ++ ": " ++ name ++ phrase ++ rest in
  search_left line = Some name
  /\ exists s',
      process_line server line s = Ok tt s'
      /\ presence server s' = Some (players entry ∖ {[strip name]}).
Proof.
  intros Hprefix Hne Hlf Hphrase Hleft Hlost Hjoined Hp line.
  assert (Hsearch : search_left line = Some name).
  { apply search_exact; [assumption..|]. apply no_left_behind_left; assumption. }
  assert (Hnone : search_joined line = None).
  { destruct (search_joined line) as [g|] eqn:Hg; [|reflexivity].
    apply search_joined_contains in Hg. unfold line in Hg. congruence. }
  split; [exact Hsearch|].
  destruct (presence_after_line server line s entry Hp) as (s' & Hrun & Hpres).
  exists s'. split; [exact Hrun|]. rewrite Hpres. unfold replay_step, classify.
  rewrite Hnone. fold line in Hjoined. rewrite Hjoined, Hsearch. reflexivity.
Qed.

Lemma X5_leave_line_discards_its_name_witness :
  search_left Sample.lost_B = Some "PlayerB"
  /\ exists s',
      process_line "survival" Sample.lost_B Sample.s_present = Ok tt s'
      /\ presence "survival" s' = Some ({["PlayerA"]} ∖ {["PlayerB"]}).
Proof.
  exact (X5_leave_line_discards_its_name "survival" "[12:00:12] [Server thread/INFO]"
           "PlayerB" " lost connection" (": Timed out" ++ nl)
           Sample.s_present (mkEntry {["PlayerA"]} Sample.log_path 0)
           eq_refl ltac:(discriminate) eq_refl (or_intror (or_introl eq_refl))
           eq_refl eq_refl eq_refl eq_refl).
Defined.

(** *** Names are stored trimmed *)

Lemma lstrip_cases s :
  lstrip s = "" \/ exists c r, lstrip s = String c r /\ isspace c = false.
Proof.
  induction s as [|c s IH]; [left; reflexivity|].
  cbn [lstrip]. destruct (isspace c) eqn:Hc; [exact IH|]. right. exists c, s. auto.
Qed.

Lemma rstrip_head c r : isspace c = false -> exists r', rstrip (String c r) = String c r'.
Proof.
  intros Hc. cbn [rstrip]. destruct (rstrip r) as [|d r'].
  - rewrite Hc. exists "". reflexivity.
  - exists (String d r'). reflexivity.
Qed.

Lemma rstrip_idem s : rstrip (rstrip s) = rstrip s.
Proof.
  induction s as [|c s IH]; [reflexivity|].
  cbn [rstrip]. destruct (rstrip s) as [|d r'] eqn:Hr.
  - destruct (isspace c) eqn:Hc; [reflexivity|]. cbn [rstrip]. rewrite Hc. reflexivity.
  - cbn [rstrip] in IH |- *. destruct (rstrip r') as [|e r''].
    + destruct (isspace d); [discriminate|]. injection IH as <-. reflexivity.
    + rewrite IH. reflexivity.
Qed.

(** [strip] is idempotent: a stripped name is trimmed. *)
Lemma strip_trimmed s : trimmed (strip s).
Proof.
  unfold trimmed, strip. destruct (lstrip_cases s) as [->|(c & r & -> & Hc)]; [reflexivity|].
  destruct (rstrip_head c r Hc) as (r' & Hr). rewrite Hr. cbn [lstrip]. rewrite Hc, <- Hr.
  apply rstrip_idem.
Qed.

Lemma no_LF_lstrip s : no_LF s = true -> no_LF (lstrip s) = true.
Proof.
  induction s as [|c s IH]; [reflexivity|].
  cbn [lstrip]. destruct (isspace c); [|exact id].
  cbn [no_LF]. intros [_ Hs]%andb_true_iff. exact (IH Hs).
Qed.

Lemma no_LF_rstrip s : no_LF s = true -> no_LF (rstrip s) = true.
Proof.
  induction s as [|c s IH]; [reflexivity|].
  cbn [no_LF rstrip]. intros [Hc Hs]%andb_true_iff. specialize (IH Hs).
  destruct (rstrip s) as [|d r'].
  - destruct (isspace c); [reflexivity|]. cbn [no_LF]. rewrite Hc. reflexivity.
  - cbn [no_LF] in IH |- *. rewrite Hc, IH. reflexivity.
Qed.

(** A name as the Reconciler stores it: trimmed and on one line. *)
Lemma extracted_name_clean tails line g :
  search tails line = Some g -> trimmed (strip g) /\ no_LF (strip g) = true.
Proof.
  intros Hs. split; [apply strip_trimmed|].
  destruct (search_sound _ _ _ Hs) as (_ & _ & _ & _ & _ & _ & Hlf).
  apply no_LF_rstrip, no_LF_lstrip, Hlf.
Qed.

Lemma replay_step_clean present line :
  (forall n, n ∈ present -> trimmed n /\ no_LF n = true) ->
  forall n, n ∈ replay_step present line -> trimmed n /\ no_LF n = true.
Proof.
  intros Hall n. unfold replay_step, classify.
  destruct (search_joined line) as [g|] eqn:Hj.
  - intros [->%elem_of_singleton|Hin]%elem_of_union; [|exact (Hall n Hin)].
    exact (extracted_name_clean _ _ _ Hj).
  - destruct (contains "joined the game" line); [exact (Hall n)|].
    destruct (search_left line) as [g|]; [|exact (Hall n)].
    intros [Hin _]%elem_of_difference. exact (Hall n Hin).
Qed.

Lemma replay_clean lines : forall present,
  (forall n, n ∈ present -> trimmed n /\ no_LF n = true) ->
  forall n, n ∈ replay lines present -> trimmed n /\ no_LF n = true.
Proof.
  induction lines as [|line lines IH]; intros present Hall; [exact Hall|].
  cbn [replay fold_left]. apply IH, replay_step_clean, Hall.
Qed.

(** X6: the names of a presence set stay trimmed and free of line feeds:
    if every name of the set of a tracked server has no surrounding
    whitespace and no line feed, then so has every name of the set after any
    sequence of lines, whatever the lines hold. *)
Theorem X6_names_stay_trimmed server lines s entry :
  player_tracker s !! server = Some entry ->
  (forall n, n ∈ players entry -> trimmed n /\ no_LF n = true) ->
  exists s' present,
    feed_lines server lines s = Ok tt s'
    /\ presence server s' = Some present
    /\ forall n, n ∈ present -> trimmed n /\ no_LF n = true.
Proof.
  intros Hp Hall.
  destruct (Replay.feed_lines_entry server lines s entry Hp) as (s' & Hfeed & Hentry).
  exists s', (replay lines (players entry)). split; [exact Hfeed|]. split.
  - unfold presence. rewrite Hentry. reflexivity.
  - apply replay_clean, Hall.
Qed.

Lemma X6_names_stay_trimmed_witness :
  exists s' present,
    feed_lines "survival" [Sample.join_A; Sample.both_phrases; Sample.lost_B] Sample.s_empty
    = Ok tt s'
    /\ presence "survival" s' = Some present
    /\ forall n, n ∈ present -> trimmed n /\ no_LF n = true.
Proof.
  refine (X6_names_stay_trimmed "survival"
            [Sample.join_A; Sample.both_phrases; Sample.lost_B] Sample.s_empty
            (mkEntry ∅ Sample.log_path 0) eq_refl _).
  intros n Hn. cbn [players] in Hn. exfalso. exact (not_elem_of_empty n Hn).
Defined.

(** *** Which lines match *)

Lemma dot_plus_then_complete tails g t rest :
  g <> "" -> no_LF g = true -> In t tails -> is_Some (dot_plus_then tails (g ++ t ++ rest)).
Proof.
  intros Hne Hlf Ht. induction g as [|c g IH]; [congruence|].
  cbn [no_LF] in Hlf. apply andb_true_iff in Hlf. destruct Hlf as [Hc Hlf].
  apply negb_true_iff in Hc. rewrite app_cons. cbn [dot_plus_then]. rewrite Hc.
  destruct (dot_plus_then tails (g ++ t ++ rest)) as [g'|] eqn:Hrec; [eauto|].
  destruct g as [|d g].
  - replace (existsb (fun t0 => startswith t0 ("" ++ t ++ rest)) tails) with true; [eauto|].
    symmetry. apply existsb_exists. exists t. split; [exact Ht|].
    apply startswith_iff. exists rest. reflexivity.
  - destruct (IH ltac:(discriminate) Hlf) as [g' Hg']. discriminate.
Qed.

Lemma search_complete tails pre g t rest :
  g <> "" -> no_LF g = true -> In t tails ->
  is_Some (search tails (pre ++ ": " ++ g ++ t ++ rest)).
Proof.
  intros Hne Hlf Ht. induction pre as [|c pre IH].
  - destruct (dot_plus_then_complete tails g t rest Hne Hlf Ht) as [g' Hg'].
    exists g'. exact (search_at_separator _ _ _ Hg').
  - rewrite app_cons. cbn [search].
    destruct (match_here tails (String c (pre ++ ": " ++ g ++ t ++ rest))); [eauto|exact IH].
Qed.

(** X15: the lines the two patterns match.  The enter pattern matches a
    line exactly when the line holds, somewhere, the separator [": "], a
    non-empty text without line feed and the phrase [" joined the game"];
    the leave pattern likewise with [" left the game"] or
    [" lost connection"].  Nothing is required of what stands before the
    separator or behind the phrase. *)
Theorem X15_lines_the_patterns_match line :
  (is_Some (search_joined line)
   <-> exists pre g rest,
       line = pre ++ ": " ++ g ++ " joined the game" ++ rest
       /\ g <> "" /\ no_LF g = true)
  /\ (is_Some (search_left line)
      <-> exists pre g phrase rest,
          In phrase [" left the game"; " lost connection"]
          /\ line = pre ++ ": " ++ g ++ phrase ++ rest
          /\ g <> "" /\ no_LF g = true).
Proof.
  split; split.
  - intros [g Hg]. destruct (search_sound _ _ _ Hg) as (pre & t & rest & [<-|[]] & Hl & Hne & Hlf).
    exists pre, g, rest. auto.
  - intros (pre & g & rest & -> & Hne & Hlf).
    apply search_complete; [assumption..|left; reflexivity].
  - intros [g Hg]. destruct (search_sound _ _ _ Hg) as (pre & t & rest & Ht & Hl & Hne & Hlf).
    exists pre, g, t, rest. auto.
  - intros (pre & g & phrase & rest & Hphrase & -> & Hne & Hlf).
    apply search_complete; assumption.
Qed.

End Extraction.

(** ** C1: the fold of the specification and the loop body *)

Module SpecReplay.
Import PyStr Re RunFacts StrFacts LineFacts Tailer Extraction.

(** *** Whitespace and trimming *)

Lemma whitespace_iff c : Spec.whitespace c <-> isspace c = true.
Proof.
  assert (Hb : isspace c = existsb (Ascii.eqb c) Spec.whitespace_chars).
  { destruct c as [[] [] [] [] [] [] [] []]; reflexivity. }
  rewrite Hb. unfold Spec.whitespace. split.
  - intros Hin. apply existsb_exists. exists c. split; [exact Hin|apply Ascii.eqb_refl].
  - intros (x & Hin & Heq)%existsb_exists. apply Ascii.eqb_eq in Heq. subst. exact Hin.
Qed.

Lemma not_whitespace c : ~ Spec.whitespace c -> isspace c = false.
Proof.
  intros H. destruct (isspace c) eqn:Hc; [|reflexivity].
  exfalso. apply H, whitespace_iff, Hc.
Qed.

Lemma blank_nil : Spec.blank "".
Proof. constructor. Qed.

Lemma blank_cons c s : Spec.blank (String c s) <-> Spec.whitespace c /\ Spec.blank s.
Proof.
  unfold Spec.blank. cbn [list_ascii_of_string]. split.
  - intros H. inversion H; subst. auto.
  - intros [Hc Hs]. constructor; assumption.
Qed.

Lemma lstrip_blank l x : Spec.blank l -> lstrip (l ++ x) = lstrip x.
Proof.
  induction l as [|c l IH]; [reflexivity|]. intros [Hc Hl]%blank_cons.
  rewrite app_cons. cbn [lstrip]. apply whitespace_iff in Hc. rewrite Hc. exact (IH Hl).
Qed.

Lemma lstrip_split s : exists l, s = l ++ lstrip s /\ Spec.blank l.
Proof.
  induction s as [|c s (l & Hs & Hl)]; [exists ""; split; [reflexivity|apply blank_nil]|].
  cbn [lstrip]. destruct (isspace c) eqn:Hc.
  - exists (String c l). split; [rewrite app_cons, <- Hs; reflexivity|].
    apply blank_cons. split; [apply whitespace_iff, Hc|exact Hl].
  - exists "". split; [reflexivity|apply blank_nil].
Qed.

Lemma rstrip_blank r : Spec.blank r -> rstrip r = "".
Proof.
  induction r as [|c r IH]; [reflexivity|]. intros [Hc Hr]%blank_cons.
  cbn [rstrip]. rewrite (IH Hr). apply whitespace_iff in Hc. rewrite Hc. reflexivity.
Qed.

Lemma rstrip_app_blank n r : Spec.blank r -> rstrip (n ++ r) = rstrip n.
Proof.
  intros Hr. induction n as [|c n IH]; [exact (rstrip_blank r Hr)|].
  rewrite app_cons. cbn [rstrip]. rewrite IH. reflexivity.
Qed.

Lemma rstrip_split s : exists r, s = rstrip s ++ r /\ Spec.blank r.
Proof.
  induction s as [|c s (r & Hs & Hr)]; [exists ""; split; [reflexivity|apply blank_nil]|].
  cbn [rstrip]. destruct (rstrip s) as [|d r'] eqn:Hrs.
  - change ("" ++ r) with r in Hs. subst r. destruct (isspace c) eqn:Hc.
    + exists (String c s). split; [reflexivity|].
      apply blank_cons. split; [apply whitespace_iff, Hc|exact Hr].
    + exists s. split; [reflexivity|exact Hr].
  - exists r. split; [|exact Hr]. rewrite app_cons, <- Hs. reflexivity.
Qed.

Lemma rstrip_last s : forall init c, rstrip s = init ++ String c "" -> isspace c = false.
Proof.
  induction s as [|d s IH]; intros init c.
  - destruct init; discriminate.
  - cbn [rstrip]. destruct (rstrip s) as [|e r'] eqn:Hrs.
    + destruct (isspace d) eqn:Hd; [destruct init; discriminate|].
      destruct init as [|i init]; [intros [= <-]; exact Hd|].
      rewrite app_cons. intros [= _ H]. destruct init; discriminate.
    + destruct init as [|i init]; [discriminate|].
      rewrite app_cons. intros [= _ H]. exact (IH init c H).
Qed.

Lemma rstrip_clean n :
  (forall init c, n = init ++ String c "" -> ~ Spec.whitespace c) -> rstrip n = n.
Proof.
  induction n as [|c n IH]; [reflexivity|]. intros Hlast. cbn [rstrip]. rewrite IH.
  2:{ intros init d ->. apply (Hlast (String c init) d). reflexivity. }
  destruct n as [|d n]; [|reflexivity].
  rewrite (not_whitespace c (Hlast "" c eq_refl)). reflexivity.
Qed.

(** [strip] trims, and what trimming gives is what [strip] returns. *)
Lemma strip_trimmed_to text : Spec.trimmed_to text (strip text).
Proof.
  unfold strip. destruct (lstrip_split text) as (l & Ht & Hl).
  destruct (rstrip_split (lstrip text)) as (r & Hs & Hr).
  exists l, r. split; [rewrite <- Hs; exact Ht|]. split; [exact Hl|]. split; [exact Hr|]. split.
  - intros c rest Heq Hw. apply whitespace_iff in Hw.
    destruct (lstrip_cases text) as [H0|(c0 & r0 & Hl0 & Hc0)].
    + rewrite H0 in Heq. discriminate.
    + rewrite Hl0 in Heq. destruct (rstrip_head c0 r0 Hc0) as (r' & Hr').
      rewrite Hr' in Heq. injection Heq as <- _. congruence.
  - intros init c Heq Hw. apply whitespace_iff in Hw.
    rewrite (rstrip_last _ _ _ Heq) in Hw. discriminate.
Qed.

Lemma trimmed_to_strip text name : Spec.trimmed_to text name -> name = strip text.
Proof.
  intros (l & r & -> & Hl & Hr & Hhead & Hlast). unfold strip.
  rewrite (lstrip_blank l _ Hl). destruct name as [|c n].
  - change ("" ++ r) with r. rewrite <- (app_empty_r r), (lstrip_blank r "" Hr). reflexivity.
  - rewrite app_cons. cbn [lstrip]. rewrite (not_whitespace c (Hhead c n eq_refl)).
    rewrite <- app_cons, (rstrip_app_blank _ _ Hr), (rstrip_clean _ Hlast). reflexivity.
Qed.

(** *** Lines *)

Lemma no_LF_false x : no_LF x = false -> exists a b, x = a ++ String LF b.
Proof.
  induction x as [|c x IH]; [discriminate|]. cbn [no_LF].
  destruct (Ascii.eqb c LF) eqn:Hc.
  - apply Ascii.eqb_eq in Hc. subst c. intros _. exists "", x. reflexivity.
  - cbn [negb andb]. intros H. destruct (IH H) as (p & q & ->).
    exists (String c p), q. reflexivity.
Qed.

(** A part of a line that something follows holds no line feed. *)
Lemma one_line_inner line p x q :
  Spec.one_line line -> line = p ++ x ++ q -> q <> "" -> no_LF x = true.
Proof.
  intros Hone Hl Hq. destruct (no_LF x) eqn:Hx; [reflexivity|].
  destruct (no_LF_false _ Hx) as (a & b & ->). exfalso.
  assert (Hb : b ++ q = "").
  { apply (Hone (p ++ a)). rewrite Hl, !app_assoc'. reflexivity. }
  apply app_is_empty in Hb. tauto.
Qed.

Lemma one_line_no_LF line : no_LF line = true -> Spec.one_line line.
Proof.
  intros Hlf a b ->. rewrite no_LF_app in Hlf. cbn [no_LF] in Hlf.
  rewrite Ascii.eqb_refl in Hlf. cbn in Hlf. rewrite andb_false_r in Hlf. discriminate.
Qed.

Lemma one_line_terminated body : no_LF body = true -> Spec.one_line (body ++ nl).
Proof.
  induction body as [|c body IH]; intros Hlf a b Heq.
  - destruct a as [|d a]; [injection Heq as <-; reflexivity|].
    rewrite app_cons in Heq. injection Heq as _ Heq. destruct a; discriminate.
  - cbn [no_LF] in Hlf. apply andb_true_iff in Hlf. destruct Hlf as [Hc Hlf].
    rewrite app_cons in Heq. destruct a as [|d a].
    + injection Heq as -> _. rewrite Ascii.eqb_refl in Hc. discriminate.
    + rewrite app_cons in Heq. injection Heq as _ Heq. exact (IH Hlf a b Heq).
Qed.

(** *** The patterns *)

Lemma occurs_iff k s : Spec.occurs k s <-> contains k s = true.
Proof. symmetry. apply contains_iff. Qed.

Lemma not_occurs k s : ~ Spec.occurs k s -> contains k s = false.
Proof.
  intros H. destruct (contains k s) eqn:Hc; [|reflexivity].
  exfalso. apply H, occurs_iff, Hc.
Qed.

(** The group ends at the last phrase. *)
Lemma dot_plus_then_last tails u g :
  dot_plus_then tails u = Some g ->
  exists t rest,
    In t tails /\ u = g ++ t ++ rest /\ g <> "" /\ no_LF g = true
    /\ dot_plus_then tails (t ++ rest) = None.
Proof.
  revert g. induction u as [|c u IH]; intros g; cbn [dot_plus_then]; [discriminate|].
  destruct (Ascii.eqb c LF) eqn:Hc; [discriminate|].
  destruct (dot_plus_then tails u) as [g'|] eqn:Hrec.
  - intros [= <-]. destruct (IH g' eq_refl) as (t & rest & Ht & Hs & _ & Hlf & Hnone).
    exists t, rest. split; [exact Ht|]. split; [rewrite app_cons, <- Hs; reflexivity|].
    split; [discriminate|]. split; [|exact Hnone]. cbn [no_LF]. rewrite Hc, Hlf. reflexivity.
  - destruct (existsb _ tails) eqn:Hex; [|discriminate]. intros [= <-].
    apply existsb_exists in Hex. destruct Hex as (t & Ht & Hpre).
    apply startswith_iff in Hpre. destruct Hpre as [rest ->].
    exists t, rest. split; [exact Ht|]. split; [reflexivity|]. split; [discriminate|].
    split; [|exact Hrec]. cbn [no_LF]. rewrite Hc. reflexivity.
Qed.

(** The match starts at the first separator at which the pattern matches. *)
Lemma search_first tails s g :
  search tails s = Some g ->
  exists pre u,
    s = pre ++ ": " ++ u /\ dot_plus_then tails u = Some g
    /\ forall a b, s = a ++ ": " ++ b -> String.length a < String.length pre ->
                   dot_plus_then tails b = None.
Proof.
  revert g. induction s as [|c s IH]; intros g.
  - cbn. discriminate.
  - cbn [search]. destruct (match_here tails (String c s)) as [g'|] eqn:Hm.
    + intros [= <-]. unfold match_here in Hm.
      destruct (startswith ": " (String c s)) eqn:Hp; [|discriminate].
      apply startswith_iff in Hp. destruct Hp as [r Hr]. rewrite Hr in Hm |- *.
      change (drop 2 (": " ++ r)) with r in Hm.
      exists "", r. split; [reflexivity|]. split; [exact Hm|].
      intros a b _ Hlt. cbn in Hlt. lia.
    + intros H. destruct (IH g H) as (pre & u & Hs & Hu & Hfirst).
      exists (String c pre), u. split; [rewrite app_cons, <- Hs; reflexivity|].
      split; [exact Hu|]. intros a b Heq Hlt. destruct a as [|d a].
      * change ("" ++ ": " ++ b) with (": " ++ b) in Heq. unfold match_here in Hm.
        rewrite Heq in Hm.
        replace (startswith ": " (": " ++ b)) with true in Hm
          by (symmetry; apply startswith_iff; exists b; reflexivity).
        exact Hm.
      * rewrite app_cons in Heq. injection Heq as _ Heq.
        apply (Hfirst a b Heq). cbn [String.length] in Hlt. lia.
Qed.

Lemma in_tails_of phrases t : In t (tails_of phrases) <-> exists phrase, t = " " ++ phrase /\ In phrase phrases.
Proof.
  unfold tails_of. rewrite in_map_iff. split; intros (p & H1 & H2); exists p; auto.
Qed.

(** The text between the first separator and the trailing phrase is group 1
    of the search, and conversely, on a line. *)
Lemma between_search phrases line text :
  Spec.one_line line ->
  Spec.between ":" phrases line text -> search (tails_of phrases) line = Some text.
Proof.
  intros Hone (pre & phrase & post & Hl & Hin & Hfirst & Hne & Hlast).
  assert (Hform : line = pre ++ ": " ++ text ++ (" " ++ phrase) ++ post) by exact Hl.
  rewrite Hform. apply search_exact.
  - apply not_occurs. exact Hfirst.
  - exact Hne.
  - apply (one_line_inner line (pre ++ ": ") text ((" " ++ phrase) ++ post) Hone).
    + rewrite Hform, !app_assoc'. reflexivity.
    + discriminate.
  - apply in_tails_of. exists phrase. auto.
  - change ((" " ++ phrase) ++ post) with (String " " (phrase ++ post)).
    apply dot_plus_then_none. intros t (phrase' & -> & Hin')%in_tails_of.
    apply not_occurs. exact (Hlast phrase' Hin').
Qed.

Lemma search_between phrases line text :
  Spec.one_line line ->
  search (tails_of phrases) line = Some text -> Spec.between ":" phrases line text.
Proof.
  intros Hone Hs.
  destruct (search_first _ _ _ Hs) as (pre & u & Hl & Hu & Hfirst).
  destruct (dot_plus_then_last _ _ _ Hu) as (t & rest & Ht & -> & Hne & Hlf & Hnone).
  apply in_tails_of in Ht. destruct Ht as (phrase & -> & Hin).
  exists pre, phrase, rest. split; [exact Hl|]. split; [exact Hin|]. split; [|split].
  - intros (a & b & Hpre).
    assert (Hnone' : dot_plus_then (tails_of phrases)
                       ((b ++ ": " ++ text) ++ (" " ++ phrase) ++ rest) = None).
    { rewrite app_assoc'. apply (Hfirst a).
      - rewrite Hl, Hpre, !app_assoc'. reflexivity.
      - rewrite Hpre, !length_app. cbn. lia. }
    destruct (dot_plus_then_complete (tails_of phrases) (b ++ ": " ++ text) (" " ++ phrase) rest)
      as [g Hg].
    + destruct b; discriminate.
    + apply (one_line_inner line (a ++ ": ") (b ++ ": " ++ text) ((" " ++ phrase) ++ rest) Hone).
      * rewrite Hl, Hpre, !app_assoc'. reflexivity.
      * discriminate.
    + apply in_tails_of. exists phrase. auto.
    + rewrite Hnone' in Hg. discriminate.
  - exact Hne.
  - intros phrase' Hin' (x & y & Heq).
    change ((" " ++ phrase) ++ rest) with (String " " (phrase ++ rest)) in Hnone.
    rewrite Heq in Hnone.
    change (String " " (x ++ (" " ++ phrase') ++ y))
      with (String " " x ++ (" " ++ phrase') ++ y) in Hnone.
    destruct (dot_plus_then_complete (tails_of phrases) (String " " x) (" " ++ phrase') y)
      as [g Hg].
    + discriminate.
    + apply (one_line_inner line (pre ++ ": " ++ text) (String " " x) ((" " ++ phrase') ++ y)
               Hone).
      * rewrite Hl. change ((" " ++ phrase) ++ rest) with (String " " (phrase ++ rest)).
        rewrite Heq, !app_assoc'. reflexivity.
      * discriminate.
    + apply in_tails_of. exists phrase'. auto.
    + rewrite Hnone in Hg. discriminate.
Qed.

(** The enter lines and the leave lines of the specification, with the colon
    as separator, are the lines the two searches match, and the name is the
    stripped group. *)
Lemma enter_line_iff line name :
  Spec.one_line line ->
  Spec.enter_line ":" line name <-> exists g, search_joined line = Some g /\ name = strip g.
Proof.
  intros Hone. split.
  - intros (text & Hb & Ht). exists text. split; [|apply trimmed_to_strip, Ht].
    exact (between_search [Spec.enter_phrase] line text Hone Hb).
  - intros (g & Hs & ->). exists g. split; [|apply strip_trimmed_to].
    exact (search_between [Spec.enter_phrase] line g Hone Hs).
Qed.

Lemma leave_line_iff line name :
  Spec.one_line line ->
  Spec.leave_line ":" line name <-> exists g, search_left line = Some g /\ name = strip g.
Proof.
  intros Hone. split.
  - intros (text & Hb & Ht). exists text. split; [|apply trimmed_to_strip, Ht].
    exact (between_search Spec.leave_phrases line text Hone Hb).
  - intros (g & Hs & ->). exists g. split; [|apply strip_trimmed_to].
    exact (search_between Spec.leave_phrases line g Hone Hs).
Qed.

(** *** The fold *)

(** On a line, the step of the fold with the colon is the step of the loop
    body. *)
Lemma step_colon_replay line present final :
  Spec.one_line line ->
  Spec.step_colon present line final <-> final = replay_step present line.
Proof.
  intros Hone. unfold replay_step, classify. split.
  - intros [name He|name Hno Hl|Hne Hor].
    + apply (enter_line_iff _ _ Hone) in He. destruct He as (g & -> & ->). reflexivity.
    + apply (leave_line_iff _ _ Hone) in Hl. destruct Hl as (g & Hg & ->).
      apply not_occurs in Hno. change Spec.enter_phrase with "joined the game" in Hno.
      destruct (search_joined line) as [g'|] eqn:Hj.
      * apply search_joined_contains in Hj. congruence.
      * rewrite Hno, Hg. reflexivity.
    + destruct (search_joined line) as [g|] eqn:Hj.
      * exfalso. apply (Hne (strip g)), (enter_line_iff _ _ Hone). eauto.
      * destruct (contains "joined the game" line) eqn:Hc; [reflexivity|].
        destruct Hor as [Hoc|Hnl].
        -- apply occurs_iff in Hoc. change Spec.enter_phrase with "joined the game" in Hoc.
           congruence.
        -- destruct (search_left line) as [g|] eqn:Hg; [|reflexivity].
           exfalso. apply (Hnl (strip g)), (leave_line_iff _ _ Hone). eauto.
  - intros ->. destruct (search_joined line) as [g|] eqn:Hj.
    + apply Spec.colon_enter, (enter_line_iff _ _ Hone). eauto.
    + assert (Hne : forall n, ~ Spec.enter_line ":" line n).
      { intros n (g & Hg & _)%(enter_line_iff _ _ Hone). congruence. }
      destruct (contains "joined the game" line) eqn:Hc.
      * apply Spec.colon_ignore; [exact Hne|]. left. apply occurs_iff. exact Hc.
      * destruct (search_left line) as [g|] eqn:Hg.
        -- apply Spec.colon_leave; [|apply (leave_line_iff _ _ Hone); eauto].
           intros Hoc%occurs_iff. change Spec.enter_phrase with "joined the game" in Hoc.
           congruence.
        -- apply Spec.colon_ignore; [exact Hne|]. right.
           intros n (g & Hg' & _)%(leave_line_iff _ _ Hone). congruence.
Qed.

Lemma replays_colon_replay lines : forall present final,
  Forall Spec.one_line lines ->
  Spec.replays_colon lines present final <-> final = replay lines present.
Proof.
  induction lines as [|line lines IH]; intros present final Hall.
  - split; [intros H; inversion H; reflexivity | intros ->; constructor].
  - inversion Hall as [|? ? Hone Hrest]; subst. split.
    + intros H. inversion H as [|? ? ? mid ? Hstep Hreplays]; subst.
      apply (step_colon_replay _ _ _ Hone) in Hstep. subst mid.
      apply (IH _ _ Hrest) in Hreplays. exact Hreplays.
    + intros ->. apply (Spec.replays_colon_cons _ _ _ (replay_step present line)).
      * apply (step_colon_replay _ _ _ Hone). reflexivity.
      * apply (IH _ _ Hrest). reflexivity.
Qed.

Lemma presence_after server line s entry :
  player_tracker s !! server = Some entry ->
  presence server (state_of (process_line server line s))
  = Some (replay_step (players entry) line).
Proof.
  intros Hp. destruct (process_line_step server line s entry Hp) as (s' & Hrun & Htr & _).
  rewrite Hrun. unfold presence. cbn [state_of]. rewrite Htr, lookup_insert_eq. reflexivity.
Qed.

Lemma step_cases sep present line final :
  Spec.step sep present line final ->
  (exists name, Spec.enter_line sep line name /\ final = {[name]} ∪ present)
  \/ (exists name,
        (forall n, ~ Spec.enter_line sep line n)
        /\ Spec.leave_line sep line name /\ final = present ∖ {[name]})
  \/ ((forall n, ~ Spec.enter_line sep line n) /\ (forall n, ~ Spec.leave_line sep line n)).
Proof. intros [name He|name Hne Hl|Hne Hnl]; eauto 10. Qed.

Lemma replays_single sep line present final :
  Spec.replays sep [line] present final -> Spec.step sep present line final.
Proof.
  intros H. inversion H as [|? ? ? mid ? Hstep Hrest]; subst.
  inversion Hrest; subst. exact Hstep.
Qed.

(** The first line of the scenario of the specification is an enter line of
    PlayerA when the separator token is taken to be [[Server]]. *)
Lemma scenario_line_enters : Spec.enter_line "[Server]" Sample.no_separator "PlayerA".
Proof.
  exists "PlayerA". split; [|exact (strip_trimmed_to "PlayerA")].
  exists "12:00:01 ", "joined the game", nl. split; [reflexivity|]. split; [left; reflexivity|].
  split; [|split].
  - intros Hoc%occurs_iff. vm_compute in Hoc. discriminate.
  - discriminate.
  - intros phrase [<-|[]] Hoc%occurs_iff. vm_compute in Hoc. discriminate.
Qed.

Lemma phrase_then_leave_line : Spec.one_line Sample.phrase_then_leave.
Proof. apply one_line_terminated. reflexivity. Qed.

(** C1 as stated fails.  With the colon as separator token: the line holds
    the enter phrase, not as part of the enter pattern, and matches the
    leave pattern for PlayerA, who is present; the fold of the claim
    discards PlayerA, the loop body takes its enter branch, finds no match
    and leaves the set as it is.  And with [[Server]] as separator token, as
    in the scenario of the specification: the first line of the scenario is
    an enter line of PlayerA, and the loop body, whose patterns want a
    colon, leaves the set empty. *)
Lemma C1_counterexample :
  Spec.one_line Sample.phrase_then_leave
  /\ ~ folds_as_specified ":" "survival" [Sample.phrase_then_leave] Sample.s_present
  /\ ~ folds_as_specified "[Server]" "survival" [Sample.no_separator] Sample.s_empty.
Proof.
  split; [exact phrase_then_leave_line|]. split.
  - intros (initial & s' & final & Hinit & Hfeed & Hfinal & Hrep).
    assert (Hi : Some initial = Some {["PlayerA"]}) by (rewrite <- Hinit; reflexivity).
    injection Hi as ->.
    destruct (Replay.feed_lines_entry "survival" [Sample.phrase_then_leave] Sample.s_present
                _ eq_refl) as (s1 & Hfeed1 & Hentry).
    rewrite Hfeed1 in Hfeed. injection Hfeed as <-.
    assert (Hf : Some final = Some {["PlayerA"]}).
    { rewrite <- Hfinal. unfold presence. rewrite Hentry. vm_compute. reflexivity. }
    injection Hf as ->.
    assert (Hleave : Spec.leave_line ":" Sample.phrase_then_leave "PlayerA").
    { apply (leave_line_iff _ _ phrase_then_leave_line). exists "PlayerA". split; reflexivity. }
    destruct (step_cases _ _ _ _ (replays_single _ _ _ _ Hrep))
      as [(name & He & _)|[(name & _ & Hl & Heq)|[_ Hnl]]].
    + apply (enter_line_iff _ _ phrase_then_leave_line) in He.
      destruct He as (g & Hg & _). vm_compute in Hg. discriminate.
    + apply (leave_line_iff _ _ phrase_then_leave_line) in Hl.
      destruct Hl as (g & Hg & ->). vm_compute in Hg. injection Hg as <-.
      assert (Hin : "PlayerA" ∈ ({["PlayerA"]} : gset string))
        by (apply elem_of_singleton; reflexivity).
      rewrite Heq in Hin. apply elem_of_difference in Hin. destruct Hin as [_ Hin].
      apply Hin, elem_of_singleton. reflexivity.
    + exact (Hnl _ Hleave).
  - intros (initial & s' & final & Hinit & Hfeed & Hfinal & Hrep).
    assert (Hi : Some initial = Some ∅) by (rewrite <- Hinit; reflexivity).
    injection Hi as ->.
    destruct (Replay.feed_lines_entry "survival" [Sample.no_separator] Sample.s_empty
                _ eq_refl) as (s1 & Hfeed1 & Hentry).
    rewrite Hfeed1 in Hfeed. injection Hfeed as <-.
    assert (Hf : Some final = Some ∅).
    { rewrite <- Hfinal. unfold presence. rewrite Hentry. vm_compute. reflexivity. }
    injection Hf as ->.
    destruct (step_cases _ _ _ _ (replays_single _ _ _ _ Hrep))
      as [(name & He & Heq)|[(name & Hne & _)|[Hne _]]].
    + assert (Hin : name ∈ ({[name]} ∪ ∅ : gset string))
        by (apply elem_of_union; left; apply elem_of_singleton; reflexivity).
      rewrite <- Heq in Hin. exact (not_elem_of_empty (C := gset string) _ Hin).
    + exact (Hne _ scenario_line_enters).
    + exact (Hne _ scenario_line_enters).
Qed.

(** C1, as the code has it: for every finite sequence of lines fed to the
    Reconciler of a tracked server, the loop returns and the final presence
    set is the one and only result of folding the sequence over the initial
    set with: a line that matches "<separator> <name> joined the game", the
    separator token being the colon, adds the trimmed name; a line in which
    the phrase "joined the game" does not occur and that matches
    "<separator> <name> left the game" or "<separator> <name> lost
    connection" discards the trimmed name; any other line leaves the set
    unchanged.  The name is the text between the first colon that a blank
    follows and the last keyword phrase of the line, trimmed of surrounding
    whitespace.  An enter line of a present actor and a leave line of an
    absent one leave the set as it is. *)
Theorem C1_presence_is_the_fold_with_colon server lines s entry :
  player_tracker s !! server = Some entry ->
  Forall Spec.one_line lines ->
  exists s' final,
    feed_lines server lines s = Ok tt s'
    /\ presence server s' = Some final
    /\ Spec.replays_colon lines (players entry) final
    /\ (forall other, Spec.replays_colon lines (players entry) other -> other = final)
    /\ (forall line name,
          Spec.one_line line -> Spec.enter_line ":" line name -> name ∈ players entry ->
          presence server (state_of (process_line server line s)) = Some (players entry))
    /\ (forall line name,
          Spec.one_line line -> ~ Spec.occurs Spec.enter_phrase line ->
          Spec.leave_line ":" line name -> name ∉ players entry ->
          presence server (state_of (process_line server line s)) = Some (players entry)).
Proof.
  intros Hp Hall.
  destruct (Replay.feed_lines_entry server lines s entry Hp) as (s' & Hfeed & Hentry).
  exists s', (replay lines (players entry)). split; [exact Hfeed|]. split.
  { unfold presence. rewrite Hentry. reflexivity. }
  split; [apply (replays_colon_replay _ _ _ Hall); reflexivity|].
  split; [intros other Hother; apply (replays_colon_replay _ _ _ Hall), Hother|].
  split.
  - intros line name Hone He Hin. rewrite (presence_after _ _ _ _ Hp). f_equal.
    assert (Hstep : Spec.step_colon (players entry) line ({[name]} ∪ players entry))
      by (apply Spec.colon_enter, He).
    apply (step_colon_replay _ _ _ Hone) in Hstep. rewrite <- Hstep.
    apply subseteq_union_1_L, singleton_subseteq_l, Hin.
  - intros line name Hone Hno Hl Hin. rewrite (presence_after _ _ _ _ Hp). f_equal.
    assert (Hstep : Spec.step_colon (players entry) line (players entry ∖ {[name]}))
      by (apply Spec.colon_leave; assumption).
    apply (step_colon_replay _ _ _ Hone) in Hstep. rewrite <- Hstep.
    apply difference_disjoint_L, disjoint_singleton_r, Hin.
Qed.

Lemma C1_presence_is_the_fold_with_colon_witness :
  exists s' final,
    feed_lines "survival"
      [Sample.join_A; Sample.phrase_then_leave; Sample.join_B; Sample.leave_A; Sample.leave_A]
      Sample.s_present = Ok tt s'
    /\ presence "survival" s' = Some final
    /\ Spec.replays_colon
         [Sample.join_A; Sample.phrase_then_leave; Sample.join_B; Sample.leave_A;
          Sample.leave_A]
         {["PlayerA"]} final.
Proof.
  destruct (C1_presence_is_the_fold_with_colon "survival"
              [Sample.join_A; Sample.phrase_then_leave; Sample.join_B; Sample.leave_A;
               Sample.leave_A]
              Sample.s_present (mkEntry {["PlayerA"]} Sample.log_path 0) eq_refl)
    as (s' & final & Hfeed & Hpres & Hrep & _).
  - repeat constructor; apply one_line_terminated; reflexivity.
  - exists s', final. split; [exact Hfeed|]. split; [exact Hpres|exact Hrep].
Defined.

End SpecReplay.


(** ** Invariants of the tasks *)

Module Invariants.
Import PyStr RunFacts SyncFacts StrFacts LineFacts.

(** The state behind a goal about a state with one more event. *)
Ltac after_emit Hemit :=
  match goal with
  | |- _ (with_trace (_ ++ [?e]) ?s0) => refine (Hemit s0 e eq_refl _)
  end.

(** A property that survives the events that are no call of the Discord
    API, a change of [player_tracker] and a sync of [server] survives a pass
    of the initialiser for [server], the opening of a monitor's file and a
    turn of the monitor of [server]. *)
Lemma initialize_server_invariant (P : State -> Prop) SERVER_DIR server running file :
  (forall s e, is_discord_call e = false -> P s -> P (with_trace (trace s ++ [e]) s)) ->
  (forall s pt, P s -> P (with_player_tracker pt s)) ->
  (forall s, P s -> P (state_of (update_embed server s))) ->
  forall s, P s -> P (state_of (initialize_server SERVER_DIR server running file s)).
Proof.
  intros Hemit Htrack Hsync s HP. unfold initialize_server.
  destruct running; [|exact HP]. run_monad.
  destruct file as [content|]; run_monad.
  - match goal with |- context [update_embed server ?s3] =>
      assert (HP3 : P s3) by (apply Htrack; repeat after_emit Hemit; exact HP);
      pose proof (Hsync s3 HP3) as HP4;
      destruct (update_embed server s3) as [[] s4|e s4]
    end; cbn [state_of] in *; [|exact HP4].
    after_emit Hemit. exact HP4.
  - repeat after_emit Hemit. exact HP.
Qed.

Lemma monitor_open_invariant (P : State -> Prop) server present :
  (forall s e, is_discord_call e = false -> P s -> P (with_trace (trace s ++ [e]) s)) ->
  forall s, P s -> P (state_of (monitor_open server present s)).
Proof.
  intros Hemit s HP. unfold monitor_open. run_monad.
  destruct (player_tracker s !! server) as [entry|] eqn:Hp; [|exact HP]. run_monad.
  destruct present; run_monad; rewrite ?Hp; run_monad; repeat after_emit Hemit; exact HP.
Qed.

(** The same for a step of the pool, and for a schedule whose steps belong
    to the servers [ok]. *)
Lemma step_invariant (P : State -> Prop) SERVER_DIR st :
  (forall s e, is_discord_call e = false -> P s -> P (with_trace (trace s ++ [e]) s)) ->
  (forall s pt, P s -> P (with_player_tracker pt s)) ->
  (forall s, P s -> P (state_of (update_embed (step_server st) s))) ->
  forall p, P (p_state p) -> P (p_state (step SERVER_DIR p st)).
Proof.
  intros Hemit Htrack Hsync p HP. destruct st as [server running file|server present|server line];
    cbn [step step_server] in *.
  - destruct (p_init_ended p); [exact HP|].
    pose proof (initialize_server_invariant P SERVER_DIR server running file Hemit Htrack Hsync
                  _ HP) as HP1.
    destruct (initialize_server SERVER_DIR server running file (p_state p)); exact HP1.
  - destruct (_ && _); [|exact HP].
    pose proof (monitor_open_invariant P server present Hemit _ HP) as HP1.
    destruct (monitor_open server present (p_state p)); exact HP1.
  - destruct (_ && _); [|exact HP].
    pose proof (process_line_invariant P server (fun s0 e Hd _ => Hemit s0 e Hd) Htrack Hsync
                  line _ HP) as HP1.
    destruct (process_line server line (p_state p)); exact HP1.
Qed.

Lemma run_invariant (P : State -> Prop) (ok : string -> Prop) SERVER_DIR :
  (forall s e, is_discord_call e = false -> P s -> P (with_trace (trace s ++ [e]) s)) ->
  (forall s pt, P s -> P (with_player_tracker pt s)) ->
  (forall server s, ok server -> P s -> P (state_of (update_embed server s))) ->
  forall steps p,
    Forall (fun st => ok (step_server st)) steps ->
    P (p_state p) -> P (p_state (run SERVER_DIR steps p)).
Proof.
  intros Hemit Htrack Hsync steps. induction steps as [|st steps IH]; intros p Hok HP.
  - exact HP.
  - inversion Hok as [|? ? Hst Hrest]; subst. cbn [run fold_left].
    apply (IH _ Hrest).
    exact (step_invariant P SERVER_DIR st Hemit Htrack (fun s => Hsync _ s Hst) p HP).
Qed.

Lemma all_servers steps : Forall (fun st : Step => True) steps.
Proof. apply Forall_forall. auto. Qed.

(** What a sync can do to the bindings and the channel: nothing, an edit of
    the bound card, or a new card bound to the server and written to the
    file. *)
Lemma update_embed_outcome server s :
  let s' := state_of (update_embed server s) in
  player_tracker s' = player_tracker s
  /\ channel_cache s' = channel_cache s
  /\ ((embed_tracker s' = embed_tracker s
       /\ embed_ids_file s' = embed_ids_file s
       /\ next_message_id s' = next_message_id s
       /\ (channel_messages s' = channel_messages s
           \/ exists id entry,
               embed_tracker s !! server = Some id
               /\ player_tracker s !! server = Some entry
               /\ channel_messages s' = <[id := make_embed server (players entry)]>
                                          (channel_messages s)))
      \/ (exists entry,
             player_tracker s !! server = Some entry
             /\ embed_tracker s' = <[server := next_message_id s]> (embed_tracker s)
             /\ embed_ids_file s' = Some (embed_tracker s')
             /\ next_message_id s' = (next_message_id s + 1)%Z
             /\ channel_messages s' = <[next_message_id s := make_embed server (players entry)]>
                                        (channel_messages s))).
Proof.
  cbn zeta. destruct (channel_cache s) as [ch|] eqn:Hc.
  - destruct (player_tracker s !! server) as [entry|] eqn:Hp.
    + destruct (embed_tracker s !! server) as [id|] eqn:He.
      * destruct (channel_messages s !! id) as [old|] eqn:Hm.
        -- rewrite (update_embed_edit _ _ _ _ _ _ Hc Hp He Hm). run_monad.
           split; [reflexivity|]. split; [exact Hc|]. left. repeat (split; [reflexivity|]).
           right. exists id, entry. auto.
        -- rewrite (update_embed_replace _ _ _ _ _ Hc Hp He Hm). run_monad.
           split; [reflexivity|]. split; [exact Hc|]. right. exists entry. auto.
      * rewrite (update_embed_create _ _ _ _ Hc Hp He). run_monad.
        split; [reflexivity|]. split; [exact Hc|]. right. exists entry. auto.
    + rewrite (update_embed_untracked _ _ _ Hc Hp). run_monad.
      split; [reflexivity|]. split; [exact Hc|]. left. auto.
  - rewrite (update_embed_not_cached _ _ Hc). run_monad.
    split; [reflexivity|]. split; [exact Hc|]. left. auto.
Qed.

Lemma update_embed_file_current server s :
  binding_file_current s -> binding_file_current (state_of (update_embed server s)).
Proof.
  intros Hcur. destruct (update_embed_outcome server s) as (_ & _ & [Hsame|Hnew]).
  - destruct Hsame as (Ht & Hf & _). unfold binding_file_current. rewrite Ht, Hf. exact Hcur.
  - destruct Hnew as (entry & _ & _ & Hf & _). left. exact Hf.
Qed.

(** The state in which [initialize_players] is entered. *)
Lemma pool_start_state channel s0 :
  p_state (pool_start channel s0)
  = with_trace
      (trace s0
       ++ match embed_ids_file s0 with
          | Some _ => [EvLog INFO MsgEmbedIdsLoaded]
          | None => []
          end
       ++ [EvLog INFO MsgBotConnected;
           match channel with
           | Some _ => EvLog INFO MsgChannelCached
           | None => EvLog WARNING MsgChannelNotFound
           end])
      (with_channel_cache channel
         (with_player_tracker ∅
            (with_embed_tracker (default ∅ (embed_ids_file s0)) s0))).
Proof.
  unfold pool_start, cache_channel, load_embed_ids, fresh_process. cbn [p_state]. run_monad.
  destruct (embed_ids_file s0), channel; run_monad; flatten_trace; reflexivity.
Qed.

(** X7: from the start of a process on, whatever the schedule of the
    initialiser and the monitors, after every step the binding file holds
    the binding mapping of the process (no file standing for the empty
    mapping): a change of a binding is written out in the step that makes
    it. *)
Theorem X7_binding_file_mirrors_the_mapping SERVER_DIR channel s0 steps :
  binding_file_current (p_state (run SERVER_DIR steps (pool_start channel s0))).
Proof.
  apply (run_invariant binding_file_current (fun _ => True)).
  - intros s e _ H. exact H.
  - intros s pt H. exact H.
  - intros server s _. apply update_embed_file_current.
  - apply all_servers.
  - rewrite pool_start_state. unfold binding_file_current. cbn.
    destruct (embed_ids_file s0); cbn; auto.
Qed.

(** X9: when [bot.get_channel] finds no channel, no step of the initialiser
    or of a monitor, in whatever schedule, makes a call of the Discord API:
    no message is fetched, edited or sent, the channel, the binding mapping
    and the binding file stay as they were, and the channel stays
    uncached. *)
Theorem X9_no_channel_no_discord_call SERVER_DIR s0 steps :
  let p0 := pool_start None s0 in
  let s' := p_state (run SERVER_DIR steps p0) in
  channel_cache s' = None
  /\ embed_tracker s' = embed_tracker (p_state p0)
  /\ embed_ids_file s' = embed_ids_file s0
  /\ channel_messages s' = channel_messages s0
  /\ exists evs, trace s' = (trace s0 ++ evs)%list /\ count is_discord_call evs = 0.
Proof.
  cbn zeta.
  set (P := fun s' : State =>
              channel_cache s' = None
              /\ embed_tracker s' = embed_tracker (p_state (pool_start None s0))
              /\ embed_ids_file s' = embed_ids_file s0
              /\ channel_messages s' = channel_messages s0
              /\ exists evs, trace s' = (trace s0 ++ evs)%list
                             /\ count is_discord_call evs = 0).
  assert (Hemit : forall s1 e, is_discord_call e = false -> P s1 ->
                               P (with_trace (trace s1 ++ [e]) s1)).
  { intros s1 e He (Hc & Ht & Hf & Hm & evs & Htr & Hn). repeat (split; [assumption|]).
    exists (evs ++ [e])%list. cbn [trace with_trace]. rewrite Htr, <- app_assoc.
    split; [reflexivity|]. rewrite count_app, Hn. unfold count. cbn. rewrite He. reflexivity. }
  assert (Htrack : forall s1 pt, P s1 -> P (with_player_tracker pt s1))
    by (intros s1 pt H; exact H).
  assert (Hsync : forall server s1, P s1 -> P (state_of (update_embed server s1))).
  { intros server s1 HP1. pose proof HP1 as (Hc & _).
    rewrite (update_embed_not_cached server s1 Hc). cbn [state_of].
    assert (H : P (with_trace ((trace s1 ++ [EvCallUpdateEmbed server])
                                 ++ [EvLog WARNING (MsgChannelNotCached server)])%list
                     (with_trace (trace s1 ++ [EvCallUpdateEmbed server]) s1)))
      by (repeat after_emit Hemit; exact HP1).
    rewrite <- app_assoc in H. exact H. }
  apply (run_invariant P (fun _ => True) SERVER_DIR Hemit Htrack
           (fun srv s1 _ => Hsync srv s1) steps _ (all_servers steps)).
  unfold P. rewrite pool_start_state. cbn. repeat (split; [reflexivity|]).
  eexists. split; [reflexivity|]. destruct (embed_ids_file s0); reflexivity.
Qed.

(** A sync keeps the bindings in order: a new binding gets the identifier
    the channel hands out next. *)
Lemma update_embed_bindings_ok server s :
  bindings_ok s -> bindings_ok (state_of (update_embed server s)).
Proof.
  intros [Hlt Hinj]. destruct (update_embed_outcome server s) as (_ & _ & [Hsame|Hnew]).
  - destruct Hsame as (Ht & _ & Hn & _). unfold bindings_ok. rewrite Ht, Hn. auto.
  - destruct Hnew as (entry & _ & Ht & _ & Hn & _). unfold bindings_ok. rewrite Ht, Hn. split.
    + intros srv id. rewrite lookup_insert. case_decide.
      * intros [= <-]. lia.
      * intros H0. specialize (Hlt srv id H0). lia.
    + intros a b id. rewrite !lookup_insert. repeat case_decide; subst.
      * reflexivity.
      * intros [= <-] Hb. specialize (Hlt b _ Hb). lia.
      * intros Ha [= <-]. specialize (Hlt a _ Ha). lia.
      * apply Hinj.
Qed.

(** A sync of one server touches neither the binding nor the card of
    another. *)
Lemma update_embed_isolated server s b idb :
  bindings_ok s -> b <> server -> embed_tracker s !! b = Some idb ->
  embed_tracker (state_of (update_embed server s)) !! b = Some idb
  /\ channel_messages (state_of (update_embed server s)) !! idb = channel_messages s !! idb.
Proof.
  intros [Hlt Hinj] Hne Hb. destruct (update_embed_outcome server s) as (_ & _ & [Hsame|Hnew]).
  - destruct Hsame as (Ht & _ & _ & [Hm|(id & entry & Hid & _ & Hm)]); rewrite Ht, Hm.
    + auto.
    + split; [exact Hb|]. apply lookup_insert_ne. intros ->. apply Hne. exact (Hinj _ _ _ Hb Hid).
  - destruct Hnew as (entry & _ & Ht & _ & _ & Hm). rewrite Ht, Hm. split.
    + rewrite lookup_insert_ne by congruence. exact Hb.
    + apply lookup_insert_ne. specialize (Hlt b idb Hb). lia.
Qed.

(** X12: no two servers ever share a card: if the bound identifiers are
    below the next identifier of the channel and pairwise distinct, they
    still are after every step of the initialiser and the monitors, in
    whatever schedule. *)
Theorem X12_servers_never_share_a_card SERVER_DIR p steps :
  bindings_ok (p_state p) ->
  bindings_ok (p_state (run SERVER_DIR steps p)).
Proof.
  intros Hok.
  apply (run_invariant bindings_ok (fun _ => True)).
  - intros s1 e _ H. exact H.
  - intros s1 pt H. exact H.
  - intros server s1 _. apply update_embed_bindings_ok.
  - apply all_servers.
  - exact Hok.
Qed.

Lemma bindings_ok_two : bindings_ok Sample.s_two.
Proof.
  unfold bindings_ok, Sample.s_two. cbn [embed_tracker next_message_id]. split.
  - intros server id [[_ <-]|[_ [_ <-]%lookup_singleton_Some]]%lookup_insert_Some; reflexivity.
  - intros a b id Ha Hb.
    apply lookup_insert_Some in Ha. apply lookup_insert_Some in Hb.
    destruct Ha as [[<- <-]|[_ [<- <-]%lookup_singleton_Some]];
      destruct Hb as [[<- Hb]|[_ [<- Hb]%lookup_singleton_Some]];
      try reflexivity; discriminate.
Qed.

(** A schedule on which both monitors sync and a third server gets its
    first card. *)
Lemma X12_servers_never_share_a_card_witness :
  bindings_ok
    (p_state (run Sample.server_dir
                [StepTurn "creative" Sample.join_B;
                 StepInit "skyblock" true (Some "");
                 StepOpen "survival" true;
                 StepTurn "survival" Sample.leave_A;
                 StepTurn "creative" Sample.lost_B]
                Sample.p_two)).
Proof.
  exact (X12_servers_never_share_a_card Sample.server_dir Sample.p_two
           [StepTurn "creative" Sample.join_B;
            StepInit "skyblock" true (Some "");
            StepOpen "survival" true;
            StepTurn "survival" Sample.leave_A;
            StepTurn "creative" Sample.lost_B]
           bindings_ok_two).
Defined.

(** X13: the steps that belong to other servers leave the card of a server
    alone: with the bindings in order, after any schedule none of whose
    steps belongs to server [b], [b] is bound to the card it was bound to
    and the card shows what it showed. *)
Theorem X13_other_servers_leave_the_card_alone SERVER_DIR p b idb steps :
  bindings_ok (p_state p) ->
  embed_tracker (p_state p) !! b = Some idb ->
  Forall (fun st => step_server st <> b) steps ->
  embed_tracker (p_state (run SERVER_DIR steps p)) !! b = Some idb
  /\ channel_messages (p_state (run SERVER_DIR steps p)) !! idb
     = channel_messages (p_state p) !! idb.
Proof.
  intros Hok Hb Hsteps.
  set (P := fun s' : State =>
              bindings_ok s' /\ embed_tracker s' !! b = Some idb
              /\ channel_messages s' !! idb = channel_messages (p_state p) !! idb).
  assert (HP : P (p_state (run SERVER_DIR steps p))).
  { apply (run_invariant P (fun server => server <> b)).
    - intros s1 e _ H. exact H.
    - intros s1 pt H. exact H.
    - intros server s1 Hne (Hok1 & Hb1 & Hm1).
      destruct (update_embed_isolated server s1 b idb Hok1 (not_eq_sym Hne) Hb1) as [Hb2 Hm2].
      split; [apply update_embed_bindings_ok, Hok1|]. split; [exact Hb2|].
      rewrite Hm2. exact Hm1.
    - exact Hsteps.
    - split; [exact Hok|]. split; [exact Hb|reflexivity]. }
  destruct HP as (_ & Hb' & Hm'). split; assumption.
Qed.

(** The monitor of [creative] syncs twice, the initialiser creates the card
    of [skyblock]: five calls of the Discord API, and the card of
    [survival] is as it was. *)
Lemma X13_other_servers_leave_the_card_alone_witness :
  let steps := [StepTurn "creative" Sample.join_B;
                StepInit "skyblock" true (Some "");
                StepTurn "creative" Sample.lost_B] in
  let s' := p_state (run Sample.server_dir steps Sample.p_two) in
  count is_discord_call (trace s') = 5
  /\ embed_tracker s' !! "survival" = Some 100%Z
  /\ channel_messages s' !! 100%Z = Some Sample.card_A.
Proof.
  cbn zeta. split; [vm_compute; reflexivity|].
  refine (X13_other_servers_leave_the_card_alone Sample.server_dir Sample.p_two
            "survival" 100%Z
            [StepTurn "creative" Sample.join_B;
             StepInit "skyblock" true (Some "");
             StepTurn "creative" Sample.lost_B]
            bindings_ok_two eq_refl _).
  repeat constructor; discriminate.
Defined.

(** X10: a sync of a tracked server, the channel being cached, returns with
    the server bound to a card of the channel that shows the embed of the
    server's presence set, whether the card was edited, replaced or created;
    the presence sets are as they were. *)
Theorem X10_sync_shows_the_presence_set server s ch entry :
  channel_cache s = Some ch ->
  player_tracker s !! server = Some entry ->
  exists s' id,
    update_embed server s = Ok tt s'
    /\ embed_tracker s' !! server = Some id
    /\ channel_messages s' !! id = Some (make_embed server (players entry))
    /\ player_tracker s' = player_tracker s.
Proof.
  intros Hc Hp. destruct (embed_tracker s !! server) as [id|] eqn:He.
  - destruct (channel_messages s !! id) as [old|] eqn:Hm.
    + rewrite (update_embed_edit _ _ _ _ _ _ Hc Hp He Hm). eexists _, id.
      split; [reflexivity|]. run_monad. split; [exact He|]. split; [apply lookup_insert_eq|].
      reflexivity.
    + rewrite (update_embed_replace _ _ _ _ _ Hc Hp He Hm). eexists _, (next_message_id s).
      split; [reflexivity|]. run_monad. split; [apply lookup_insert_eq|].
      split; [apply lookup_insert_eq|reflexivity].
  - rewrite (update_embed_create _ _ _ _ Hc Hp He). eexists _, (next_message_id s).
    split; [reflexivity|]. run_monad. split; [apply lookup_insert_eq|].
    split; [apply lookup_insert_eq|reflexivity].
Qed.

Lemma X10_sync_shows_the_presence_set_witness :
  exists s' id,
    update_embed "survival" Sample.s_deleted = Ok tt s'
    /\ embed_tracker s' !! "survival" = Some id
    /\ channel_messages s' !! id = Some Sample.card_A
    /\ player_tracker s' = player_tracker Sample.s_deleted.
Proof.
  exact (X10_sync_shows_the_presence_set "survival" Sample.s_deleted 7%Z
           (mkEntry {["PlayerA"]} Sample.log_path 0) eq_refl eq_refl).
Defined.

End Invariants.

(** ** Startup and the first card *)

Module Startup.
Import PyStr RunFacts SyncFacts.

(** X11: the first sync of a tracked server that has no binding, the
    channel being cached: exactly one card is sent, it gets the next
    identifier of the channel and shows the embed of the presence set, the
    server is bound to it, the other bindings stay, the mapping is written
    to the binding file; and a second sync sends nothing. *)
Theorem X11_first_sync_creates_one_card server s ch entry :
  channel_cache s = Some ch ->
  player_tracker s !! server = Some entry ->
  embed_tracker s !! server = None ->
  exists s',
    update_embed server s = Ok tt s'
    /\ count is_send (new_events (update_embed server) s) = 1
    /\ embed_tracker s' = <[server := next_message_id s]> (embed_tracker s)
    /\ (forall other, other <> server -> embed_tracker s' !! other = embed_tracker s !! other)
    /\ embed_ids_file s' = Some (embed_tracker s')
    /\ channel_messages s'
       = <[next_message_id s := make_embed server (players entry)]> (channel_messages s)
    /\ next_message_id s' = (next_message_id s + 1)%Z
    /\ count is_send (new_events (update_embed server) s') = 0.
Proof.
  intros Hc Hp He. pose proof (update_embed_create server s ch entry Hc Hp He) as Hrun.
  cbn zeta in Hrun. eexists. split; [exact Hrun|]. split.
  { rewrite (new_events_app _ _ _ ltac:(rewrite Hrun; reflexivity)). reflexivity. }
  run_monad. split; [reflexivity|]. split.
  { intros other Hne. apply lookup_insert_ne. congruence. }
  repeat (split; [reflexivity|]).
  match goal with |- context [new_events _ ?s1] =>
    destruct (SyncClaims.update_embed_settled server s1 ch entry (next_message_id s))
      as (s2 & _ & Hev & _)
  end; try assumption; try apply lookup_insert_eq.
  rewrite Hev. reflexivity.
Qed.

Lemma X11_first_sync_creates_one_card_witness :
  exists s',
    update_embed "survival" Sample.s_empty = Ok tt s'
    /\ count is_send (new_events (update_embed "survival") Sample.s_empty) = 1
    /\ embed_tracker s' !! "survival" = Some 100%Z
    /\ count is_send (new_events (update_embed "survival") s') = 0.
Proof.
  destruct (X11_first_sync_creates_one_card "survival" Sample.s_empty 7%Z
              (mkEntry ∅ Sample.log_path 0) eq_refl eq_refl eq_refl)
    as (s' & Hrun & Hone & Ht & _ & _ & _ & _ & Hnone).
  exists s'. split; [exact Hrun|]. split; [exact Hone|]. split; [|exact Hnone].
  rewrite Ht. reflexivity.
Defined.

(** X8: a restart reuses the card and forgets who was present: when the
    binding file binds the server to a card that exists, a new process with
    the channel cached loads the binding, sends no card, and edits the bound
    card to the embed of the empty presence set (Offline, red, 0 players, no
    player field), whatever the presence set of the previous process was;
    the binding and the file are unchanged. *)
Theorem X8_restart_reuses_the_card s ch SERVER_DIR server file bindings id old :
  embed_ids_file s = Some bindings ->
  bindings !! server = Some id ->
  channel_messages s !! id = Some old ->
  exists s',
    startup (Some ch) SERVER_DIR [(server, true, Some file)] (fresh_process s)
    = Ok [server] s'
    /\ count is_send
         (new_events (startup (Some ch) SERVER_DIR [(server, true, Some file)])
                     (fresh_process s)) = 0
    /\ embed_tracker s' = bindings
    /\ embed_ids_file s' = Some bindings
    /\ presence server s' = Some ∅
    /\ channel_messages s' = <[id := make_embed server ∅]> (channel_messages s)
    /\ make_embed server ∅
       = mkEmbed (server ++ " - Offline") red "**Players Online:** 0" [].
Proof.
  intros Hfile Hbound Hcard.
  set (entry := mkEntry ∅ (PyPath.join SERVER_DIR [server; "logs"; "latest.log"])
                        (String.length file)).
  set (s3 := with_player_tracker (<[server := entry]> ∅)
               (with_trace
                  (trace s ++ [EvLog INFO MsgEmbedIdsLoaded; EvLog INFO MsgBotConnected;
                               EvLog INFO MsgChannelCached;
                               EvScreenStuffList ("MC" ++ server); EvSleep 2000;
                               EvOpen (PyPath.join SERVER_DIR [server; "logs"; "latest.log"])])
                  (with_channel_cache (Some ch)
                     (with_embed_tracker bindings (fresh_process s))))).
  pose proof (update_embed_edit server s3 ch entry id old eq_refl
                (lookup_insert_eq _ _ _) Hbound Hcard) as Hsync.
  cbn zeta in Hsync.
  assert (Hrun : startup (Some ch) SERVER_DIR [(server, true, Some file)] (fresh_process s)
                 = Ok [server]
                      (with_trace
                         (trace s ++
                            [EvLog INFO MsgEmbedIdsLoaded; EvLog INFO MsgBotConnected;
                             EvLog INFO MsgChannelCached;
                             EvScreenStuffList ("MC" ++ server); EvSleep 2000;
                             EvOpen (PyPath.join SERVER_DIR [server; "logs"; "latest.log"]);
                             EvCallUpdateEmbed server; EvFetchMessage id;
                             EvEdit id (make_embed server ∅);
                             EvLog INFO (MsgUpdatedEmbed server);
                             EvLog INFO (MsgInitialized server (String.length file))])
                         (with_channel (<[id := make_embed server ∅]> (channel_messages s))
                                       (next_message_id s) s3))).
  { unfold startup, on_ready, initialize_players, initialize_server, load_embed_ids.
    run_monad. change (embed_ids_file (fresh_process s)) with (embed_ids_file s).
    rewrite Hfile. run_monad.
    match goal with |- context [update_embed server ?s3'] =>
      replace (update_embed server s3') with (update_embed server s3)
        by (unfold s3; f_equal; unfold with_player_tracker, with_trace; cbn;
            rewrite <- ?app_assoc; reflexivity)
    end.
    rewrite Hsync. run_monad. unfold s3. cbn [trace with_trace with_player_tracker].
    rewrite <- ?app_assoc. reflexivity. }
  eexists. split; [exact Hrun|]. split.
  { rewrite (new_events_app _ _ _ ltac:(rewrite Hrun; reflexivity)). reflexivity. }
  split; [reflexivity|]. split; [exact Hfile|]. split.
  { unfold presence. cbn [state_of player_tracker with_trace with_channel].
    unfold s3. cbn [player_tracker with_player_tracker]. rewrite lookup_insert_eq. reflexivity. }
  split; reflexivity.
Qed.

Lemma X8_restart_reuses_the_card_witness :
  exists s',
    startup (Some 7%Z) Sample.server_dir [("survival", true, Some Sample.join_A)]
            (fresh_process Sample.s_present) = Ok ["survival"] s'
    /\ embed_tracker s' = {["survival" := 100%Z]}
    /\ presence "survival" s' = Some ∅.
Proof.
  destruct (X8_restart_reuses_the_card Sample.s_present 7%Z Sample.server_dir "survival"
              Sample.join_A {["survival" := 100%Z]} 100%Z Sample.card_A
              eq_refl eq_refl eq_refl)
    as (s' & Hrun & _ & Ht & _ & Hp & _).
  exists s'. repeat split; assumption.
Defined.










(** Three passes of the initialiser with a turn of the first monitor in
    between. *)
Example tasks_after_three_passes :
  let p := run Sample.server_dir
             [StepInit "survival" true (Some Sample.join_A);
              StepTurn "survival" Sample.join_A;
              StepOpen "survival" true;
              StepInit "creative" false (Some "x");
              StepTurn "survival" Sample.join_B;
              StepTurn "creative" Sample.join_A;
              StepInit "skyblock" true None]
             (pool_start (Some 7%Z) Sample.s_empty) in
  p_created p = {["survival"]}
  /\ p_opened p = {["survival"]}
  /\ p_ended p = ∅
  /\ player_tracker (p_state p) !! "survival"
     = Some (mkEntry {["PlayerB"]} Sample.log_path 57)
  /\ player_tracker (p_state p) !! "creative" = None.
Proof. cbn zeta. repeat split; vm_compute; reflexivity. Qed.

End Startup.

(** ** The embed of a presence set *)

Module EmbedProps.
Import PyStr StrFacts.

Lemma app_empty s : s ++ "" = s.
Proof. induction s as [|c s IH]; [reflexivity|]. rewrite app_cons, IH. reflexivity. Qed.

Lemma join_cons sep y z l : join sep (y :: z :: l) = y ++ sep ++ join sep (z :: l).
Proof. reflexivity. Qed.

(** Every joined text occurs in the result of [join]. *)
Lemma join_holds sep x l : In x l -> contains x (join sep l) = true.
Proof.
  intros Hin. apply contains_iff. induction l as [|y l IH]; [destruct Hin|].
  destruct l as [|z l].
  - destruct Hin as [->|[]]. exists "", "". cbn [join]. rewrite app_empty. reflexivity.
  - rewrite join_cons. destruct Hin as [->|Hin].
    + exists "", (sep ++ join sep (z :: l)). reflexivity.
    + destruct (IH Hin) as (pre & post & Hj). exists (y ++ sep ++ pre), post.
      rewrite Hj, !app_assoc'. reflexivity.
Qed.

(** X16: what a card shows.  For the empty presence set: the title
    "<server> - Offline", red, "**Players Online:** 0" and no field.  For a
    non-empty one: the title "<server> - Online", green, the number of
    present actors in the description, and one field "Players" in whose
    value the name of every present actor occurs. *)
Theorem X16_card_content server (present : gset string) :
  make_embed server ∅ = mkEmbed (server ++ " - Offline") red "**Players Online:** 0" []
  /\ (present <> ∅ ->
      exists value,
        make_embed server present
        = mkEmbed (server ++ " - Online") green
                  ("**Players Online:** " ++ pretty (size present)) [("Players", value)]
        /\ forall name, name ∈ present -> contains name value = true).
Proof.
  split; [reflexivity|]. intros Hne. unfold make_embed, set_truthy.
  rewrite (bool_decide_eq_false_2 _ Hne). cbn [negb].
  exists (join ", " (elements present)). split; [reflexivity|].
  intros name Hin. apply join_holds, list_elem_of_In, elem_of_elements, Hin.
Qed.

Lemma X16_card_content_witness :
  exists value,
    make_embed "survival" {["PlayerA"; "PlayerB"]}
    = mkEmbed "survival - Online" green "**Players Online:** 2" [("Players", value)]
    /\ contains "PlayerB" value = true.
Proof.
  destruct (proj2 (X16_card_content "survival" {["PlayerA"; "PlayerB"]}))
    as (value & Hcard & Hnames).
  - intros Hempty. assert (H : "PlayerA" ∈ (∅ : gset string)).
    { rewrite <- Hempty. apply elem_of_union_l, elem_of_singleton. reflexivity. }
    exact (not_elem_of_empty _ H).
  - exists value. split; [exact Hcard|]. apply Hnames.
    apply elem_of_union_r, elem_of_singleton. reflexivity.
Defined.

End EmbedProps.
